(** * NyaySetu: lawyer directory, contact requests and case search

    A shallow embedding of [lawyer/views.py] together with the tables of
    [lawyer/models.py] and [complaints/models.py].

    - Python [str] values are sequences of Unicode code points.  What the
      interpreter's Unicode database and the database collation decide
      (lowercasing, digit and space classes, case folding) is gathered in
      the class [Platform]; every view is written against it.
    - Python [float] is IEEE binary64, through the computable [spec_float].
    - The ORM is modelled by tables (lists of rows) in a record [DB]; a view
      is a computation in a state-and-exception monad over [DB]. *)

From Stdlib Require Import ZArith NArith List Bool Lia String Ascii.
From Stdlib Require Import Sorting.Sorted Sorting.Permutation.
From Stdlib Require Import Floats.SpecFloat.
Import ListNotations.

Set Implicit Arguments.
Set Warnings "-register-all".
Local Open Scope Z_scope.

(* ================================================================== *)
(** ** Text *)

Definition codepoint := N.
Definition pystr := list codepoint.

(** An ASCII literal of the source, as a Python string. *)
Definition lit (s : string) : pystr :=
  List.map N_of_ascii (list_ascii_of_string s).

Fixpoint pystr_eqb (a b : pystr) : bool :=
  match a, b with
  | [], [] => true
  | x :: a', y :: b' => N.eqb x y && pystr_eqb a' b'
  | _, _ => false
  end.

(** [x in names] on strings. *)
Definition str_in (x : pystr) (l : list pystr) : bool :=
  existsb (pystr_eqb x) l.

Fixpoint is_prefix (p s : pystr) : bool :=
  match p, s with
  | [], _ => true
  | _ :: _, [] => false
  | a :: p', b :: s' => N.eqb a b && is_prefix p' s'
  end.

(** [needle in hay] on strings: substring test. *)
Fixpoint is_substring (needle hay : pystr) : bool :=
  is_prefix needle hay ||
  match hay with
  | [] => false
  | _ :: hay' => is_substring needle hay'
  end.

Definition is_ascii (c : codepoint) : bool := (c <? 128)%N.

Definition ascii_lower (c : codepoint) : codepoint :=
  if ((65 <=? c) && (c <=? 90))%N then (c + 32)%N else c.

Definition ascii_digit (c : codepoint) : option N :=
  if ((48 <=? c) && (c <=? 57))%N then Some (c - 48)%N else None.

(** ASCII white space: tab, LF, VT, FF, CR, FS, GS, RS, US and space. *)
Definition ascii_space (c : codepoint) : bool :=
  ((9 <=? c) && (c <=? 13) || (28 <=? c) && (c <=? 32))%N.

(** What the views ask of the interpreter and of the database backend.
    [str_lower] is [str.lower]; [cp_isdigit] is the class tested by
    [str.isdigit] (Unicode numeric types Digit and Decimal); [cp_decimal]
    is the value [int] gives a character (type Decimal only);
    [cp_isspace] is the class removed by [str.strip]; [db_fold] is the
    case folding the backend applies for [iexact] and [icontains];
    [none_short_circuit] tells whether the serializer framework stops a
    dotted [source] lookup at the first [None] (older releases) or lets
    the attribute access fail (current ones).  The laws fix the text
    operations on ASCII, where every platform agrees. *)
Class Platform := {
  str_lower : pystr -> pystr;
  cp_isdigit : codepoint -> bool;
  cp_decimal : codepoint -> option N;
  cp_isspace : codepoint -> bool;
  db_fold : pystr -> pystr;
  none_short_circuit : bool;
  str_lower_ascii :
    forall s, forallb is_ascii s = true -> str_lower s = List.map ascii_lower s;
  cp_decimal_ascii :
    forall c, is_ascii c = true -> cp_decimal c = ascii_digit c;
  cp_isdigit_ascii :
    forall c, is_ascii c = true ->
      cp_isdigit c = match ascii_digit c with Some _ => true | None => false end;
  cp_isspace_ascii :
    forall c, is_ascii c = true -> cp_isspace c = ascii_space c;
  cp_decimal_isdigit :
    forall c d, cp_decimal c = Some d -> cp_isdigit c = true;
  cp_decimal_range :
    forall c d, cp_decimal c = Some d -> (d < 10)%N;
  cp_isdigit_not_space :
    forall c, cp_isdigit c = true -> cp_isspace c = false;
  db_fold_ascii :
    forall s, forallb is_ascii s = true -> db_fold s = List.map ascii_lower s
}.

(* ================================================================== *)
(** ** Response data *)

(** Python's [float]: IEEE binary64. *)
Definition float := spec_float.

Inductive json :=
| JNull
| JBool (b : bool)
| JInt (z : Z)
| JFloat (f : float)
| JStr (s : pystr)
| JDateTime (t : Z)
| JList (l : list json)
| JDict (d : list (pystr * json)).

Record Response := mkResponse {
  status_code : Z;
  data : json
}.

Definition HTTP_200_OK := 200.
Definition HTTP_201_CREATED := 201.
Definition HTTP_400_BAD_REQUEST := 400.
Definition HTTP_403_FORBIDDEN := 403.
Definition HTTP_404_NOT_FOUND := 404.

(** [d.get(k)] on a dictionary kept as a list of items. *)
Fixpoint dict_get {V} (d : list (pystr * V)) (k : pystr) : option V :=
  match d with
  | [] => None
  | (k', v) :: d' => if pystr_eqb k' k then Some v else dict_get d' k
  end.

Definition dict_keys {V} (d : list (pystr * V)) : list pystr :=
  List.map fst d.

Definition opt_json (o : option pystr) : json :=
  match o with Some s => JStr s | None => JNull end.

(** The body [{"detail": msg}]. *)
Definition detail (msg : string) : json :=
  JDict [(lit "detail", JStr (lit msg))].

(* ================================================================== *)
(** ** Exceptions and results *)

Inductive exn :=
| ZeroDivisionError
| OverflowError
| ValueError
| TypeError
| AttributeError
| IntegrityError
| DatabaseError
| DoesNotExist
| Http404
| NotAuthenticated
| ValidationError (detail : json).

Inductive Result (A : Type) :=
| Ok (a : A)
| Raise (e : exn).
Arguments Ok {A} a.
Arguments Raise {A} e.

Definition rbind {A B} (r : Result A) (k : A -> Result B) : Result B :=
  match r with
  | Ok a => k a
  | Raise e => Raise e
  end.

Fixpoint rmap {A B} (f : A -> Result B) (l : list A) : Result (list B) :=
  match l with
  | [] => Ok []
  | a :: l' => rbind (f a) (fun b => rbind (rmap f l') (fun bs => Ok (b :: bs)))
  end.

(* ================================================================== *)
(** ** Python [float] *)

Definition prec : Z := 53.
Definition emax : Z := 1024.

Definition float_zero : float := S754_zero false.

(** The integer [z] as an exact, unnormalised binary number. *)
Definition exact_int (z : Z) : float :=
  match z with
  | Z0 => S754_zero false
  | Zpos p => S754_finite false p 0
  | Zneg p => S754_finite true p 0
  end.

Definition float_of_int (z : Z) : float := binary_normalize prec emax z 0 false.

Definition float_mul (x y : float) : float := SFmul prec emax x y.

Definition is_inf (x : float) : bool :=
  match x with S754_infinity _ => true | _ => false end.

(** [a / b] on integers: the correctly rounded quotient. *)
Definition int_truediv (a b : Z) : Result float :=
  if b =? 0 then Raise ZeroDivisionError
  else
    let q := SFdiv prec emax (exact_int a) (exact_int b) in
    if is_inf q then Raise OverflowError else Ok q.

(** Nearest integer to [m * 2^e], ties to even. *)
Definition round_half_even (m e : Z) : Z :=
  match e with
  | Zneg p =>
      let d := Z.pow_pos 2 p in
      let q := m / d in
      let r := m mod d in
      match 2 * r ?= d with
      | Lt => q
      | Gt => q + 1
      | Eq => if Z.even q then q else q + 1
      end
  | _ => m * 2 ^ e
  end.

(** [round(x, ndigits)] for [ndigits >= 0]: the decimal with [ndigits]
    places nearest to the exact value of [x] (ties to even), converted
    back to the nearest float. *)
Definition py_round (x : float) (ndigits : N) : float :=
  match x with
  | S754_finite s m e =>
      let scale := 10 ^ Z.of_N ndigits in
      let n := round_half_even (Zpos m * scale) e in
      match n with
      | Zpos p =>
          SFdiv prec emax (S754_finite s p 0) (exact_int scale)
      | _ => S754_zero s
      end
  | _ => x
  end.

(* ================================================================== *)
(** ** Python values and the string operations of the views *)

(** A value found in [request.data].  [POther] stands for any other
    object (a JSON float, array or object), given by the four
    observations the views and the serializer can make of it:
    [type(v).__name__], [str(v)], [bool(v)] and [int(v)]. *)
Inductive pyval :=
| PNone
| PBool (b : bool)
| PInt (z : Z)
| PStr (s : pystr)
| POther (type_name : pystr) (str_form : pystr) (truth : bool)
         (int_form : Result Z).

Fixpoint uint_codepoints (u : Decimal.uint) : pystr :=
  match u with
  | Decimal.Nil => []
  | Decimal.D0 u' => 48%N :: uint_codepoints u'
  | Decimal.D1 u' => 49%N :: uint_codepoints u'
  | Decimal.D2 u' => 50%N :: uint_codepoints u'
  | Decimal.D3 u' => 51%N :: uint_codepoints u'
  | Decimal.D4 u' => 52%N :: uint_codepoints u'
  | Decimal.D5 u' => 53%N :: uint_codepoints u'
  | Decimal.D6 u' => 54%N :: uint_codepoints u'
  | Decimal.D7 u' => 55%N :: uint_codepoints u'
  | Decimal.D8 u' => 56%N :: uint_codepoints u'
  | Decimal.D9 u' => 57%N :: uint_codepoints u'
  end.

(** [str(z)] for an integer. *)
Definition int_str (z : Z) : pystr :=
  match z with
  | Zneg p => 45%N :: uint_codepoints (Pos.to_uint p)
  | _ => uint_codepoints (N.to_uint (Z.to_N z))
  end.

(** [str(v)]. *)
Definition py_str (v : pyval) : pystr :=
  match v with
  | PNone => lit "None"
  | PBool true => lit "True"
  | PBool false => lit "False"
  | PInt z => int_str z
  | PStr s => s
  | POther _ s _ _ => s
  end.

(** [bool(v)], the test of [if v] and [if not v]. *)
Definition py_truthy (v : pyval) : bool :=
  match v with
  | PNone => false
  | PBool b => b
  | PInt z => negb (z =? 0)
  | PStr s => match s with [] => false | _ => true end
  | POther _ _ t _ => t
  end.

(** [type(v).__name__]. *)
Definition py_type_name (v : pyval) : pystr :=
  match v with
  | PNone => lit "NoneType"
  | PBool _ => lit "bool"
  | PInt _ => lit "int"
  | PStr _ => lit "str"
  | POther n _ _ _ => n
  end.

Definition str_truthy (s : pystr) : bool :=
  match s with [] => false | _ => true end.

Definition opt_truthy (o : option pystr) : bool :=
  match o with Some s => str_truthy s | None => false end.

Section PythonText.
Context {P : Platform}.

(** [s.isdigit()]: non-empty and every character of a digit class. *)
Definition str_isdigit (s : pystr) : bool :=
  match s with
  | [] => false
  | _ => forallb cp_isdigit s
  end.

Fixpoint lstrip (s : pystr) : pystr :=
  match s with
  | c :: s' => if cp_isspace c then lstrip s' else s
  | [] => []
  end.

(** [s.strip()]. *)
Definition str_strip (s : pystr) : pystr :=
  rev (lstrip (rev (lstrip s))).

(** The digits of an integer literal: decimal characters, single
    underscores allowed between them. *)
Fixpoint int_digits (s : pystr) (acc : Z) (after_digit : bool) : option Z :=
  match s with
  | [] => if after_digit then Some acc else None
  | c :: s' =>
      if (c =? 95)%N then
        if after_digit then int_digits s' acc false else None
      else
        match cp_decimal c with
        | Some d => int_digits s' (10 * acc + Z.of_N d) true
        | None => None
        end
  end.

(** [int(s)] in base ten: surrounding white space, an optional sign,
    then digits.  (The interpreter's cap on the number of digits of a
    literal, 4300 by default, is not modelled: statements that need
    [int] to accept a literal bound its length.) *)
Definition py_int (s : pystr) : Result Z :=
  let t := str_strip s in
  let parsed :=
    match t with
    | 43%N :: r => int_digits r 0 false
    | 45%N :: r => option_map Z.opp (int_digits r 0 false)
    | _ => int_digits t 0 false
    end in
  match parsed with
  | Some z => Ok z
  | None => Raise ValueError
  end.

(** [int(v)] on a request value, as the ORM applies it to a primary
    key. *)
Definition py_int_of (v : pyval) : Result Z :=
  match v with
  | PNone => Raise TypeError
  | PBool b => Ok (if b then 1 else 0)
  | PInt z => Ok z
  | PStr s => py_int s
  | POther _ _ _ r => r
  end.
End PythonText.

(** [s.split(sep)] for a one-character separator. *)
Fixpoint split_on (sep : codepoint) (s : pystr) : list pystr :=
  match s with
  | [] => [[]]
  | c :: s' =>
      if (c =? sep)%N then [] :: split_on sep s'
      else
        match split_on sep s' with
        | w :: ws => (c :: w) :: ws
        | [] => [[c]]
        end
  end.

(* ================================================================== *)
(** ** Tables ([models.py]) *)

Module User.
Record t := mk {
  id : Z;
  username : pystr;
  first_name : pystr;
  last_name : pystr
}.
End User.

Module Residential.
Record t := mk {
  id : Z;
  house_number : pystr;
  landmark : option pystr;
  city : pystr;
  state : pystr;
  pincode : pystr
}.
End Residential.

Module IncidentLocation.
Record t := mk {
  id : Z;
  city : pystr;
  state : pystr;
  location : pystr;
  landmark : option pystr
}.
End IncidentLocation.

Inductive PrivacyChoices :=
| LAWYERS_ONLY
| PUBLIC_WITH_IDENTITY
| PUBLIC_ANONYMOUS.

Definition privacy_value (c : PrivacyChoices) : pystr :=
  match c with
  | LAWYERS_ONLY => lit "LAWYERS_ONLY"
  | PUBLIC_WITH_IDENTITY => lit "PUBLIC_WITH_IDENTITY"
  | PUBLIC_ANONYMOUS => lit "PUBLIC_ANONYMOUS"
  end.

(** A complaint row.  The two nullable foreign keys hold the related row,
    as attribute access on the instance yields it ([None] when null). *)
Module Complaint.
Record t := mk {
  id : Z;
  user_id : Z;
  full_name : pystr;
  contact_number : pystr;
  govt_id : pystr;
  dob : Z;
  title : pystr;
  crime_description : pystr;
  incident_datetime : Z;
  residential_address : option Residential.t;
  incident_location : option IncidentLocation.t;
  photo : option pystr;
  file_of_complaint : option pystr;
  witness_name : option pystr;
  witness_contact : option pystr;
  privacy_option : PrivacyChoices;
  created_at : Z
}.
End Complaint.

Module City.
Record t := mk {
  id : Z;
  name : pystr
}.
End City.

(** A profile row, with its owner as [select_related("user")] loads it.
    The many-to-many [service_cities] lives in its own table.  The
    counters are natural numbers; the upper ends of the column ranges
    are left to the theorems that need them. *)
Module LawyerProfile.
Record t := mk {
  id : Z;
  user : User.t;
  specialization : pystr;
  experience_years : N;
  license_number : pystr;
  bio : option pystr;
  contact_number : option pystr;
  address : option pystr;
  rating : float;
  total_cases : N;
  won_cases : N
}.
End LawyerProfile.

Module ContactRequest.
Record t := mk {
  id : Z;
  user_id : Z;
  lawyer_id : Z;
  message : option pystr;
  status : pystr;
  created_at : Z
}.
End ContactRequest.

(** The database.  [service_cities_table] is the join table of
    [LawyerProfile.service_cities], rows [(lawyerprofile_id, city_id)];
    [now] is the clock read by [auto_now_add]. *)
Record DB := mkDB {
  city_table : list City.t;
  lawyerprofile_table : list LawyerProfile.t;
  service_cities_table : list (Z * Z);
  contactrequest_table : list ContactRequest.t;
  complaint_table : list Complaint.t;
  now : Z
}.

Definition opt_eq_dec {A} (dec : forall x y : A, {x = y} + {x <> y})
  (x y : option A) : {x = y} + {x <> y}.
Proof. decide equality. Defined.

Definition float_eq_dec (x y : float) : {x = y} + {x <> y}.
Proof.
  decide equality;
    try apply Z.eq_dec; try apply Pos.eq_dec; apply Bool.bool_dec.
Defined.

Definition pystr_eq_dec : forall x y : pystr, {x = y} + {x <> y} :=
  list_eq_dec N.eq_dec.

Definition User_eq_dec (x y : User.t) : {x = y} + {x <> y}.
Proof. decide equality; try apply pystr_eq_dec; apply Z.eq_dec. Defined.

Definition LawyerProfile_eq_dec (x y : LawyerProfile.t) : {x = y} + {x <> y}.
Proof.
  decide equality;
    try apply N.eq_dec; try apply float_eq_dec;
    try apply (opt_eq_dec pystr_eq_dec); try apply pystr_eq_dec;
    try apply User_eq_dec; apply Z.eq_dec.
Defined.

(* ================================================================== *)
(** ** Computations over the database *)

Definition M (A : Type) : Type := DB -> Result A * DB.

Definition ret {A} (a : A) : M A := fun db => (Ok a, db).

Definition raise {A} (e : exn) : M A := fun db => (Raise e, db).

Definition bind {A B} (c : M A) (k : A -> M B) : M B :=
  fun db =>
    match c db with
    | (Ok a, db') => k a db'
    | (Raise e, db') => (Raise e, db')
    end.

(** [try: c except e: h], for the one exception class [e]. *)
Definition try_except {A} (c : M A) (catches : exn -> bool) (h : M A) : M A :=
  fun db =>
    match c db with
    | (Raise e, db') => if catches e then h db' else (Raise e, db')
    | r => r
    end.

Definition query {A} (f : DB -> A) : M A := fun db => (Ok (f db), db).

Definition query_result {A} (f : DB -> Result A) : M A := fun db => (f db, db).

Definition update (f : DB -> DB) : M unit := fun db => (Ok tt, f db).

Declare Scope monad_scope.
Delimit Scope monad_scope with monad.
Notation "x <- c ;; k" := (bind c (fun x => k))
  (at level 61, c at next level, right associativity) : monad_scope.
Notation "c ;;; k" := (bind c (fun _ => k))
  (at level 61, right associativity) : monad_scope.
Local Open Scope monad_scope.

(** The request, as far as the views read it.  [req_user] is [None] for
    an anonymous caller; [query_params] and [req_data] give each key its
    effective value. *)
Record Request := mkRequest {
  req_user : option User.t;
  req_method : pystr;
  query_params : list (pystr * pystr);
  req_data : list (pystr * pyval)
}.

(** [permissions.IsAuthenticated], checked before the action runs. *)
Definition IsAuthenticated (request : Request) : M User.t :=
  match req_user request with
  | Some u => ret u
  | None => raise NotAuthenticated
  end.

(** The largest key in use plus one. *)
Definition fresh_id (ids : list Z) : Z := 1 + fold_right Z.max 0 ids.

(* ================================================================== *)
(** ** The many-to-many manager of [service_cities] *)

Definition pair_eqb (a b : Z * Z) : bool :=
  (fst a =? fst b) && (snd a =? snd b).

Definition zmem (x : Z) (l : list Z) : bool := existsb (Z.eqb x) l.

(** Target keys linked to profile [pid], in table order. *)
Definition linked_ids (through : list (Z * Z)) (pid : Z) : list Z :=
  List.map snd (List.filter (fun r => fst r =? pid) through).

Fixpoint dedup_ids (l : list Z) : list Z :=
  match l with
  | [] => []
  | x :: l' => if zmem x l' then dedup_ids l' else x :: dedup_ids l'
  end.

(** [manager.add]: only the keys not yet linked are inserted. *)
Definition m2m_add (through : list (Z * Z)) (pid : Z) (ids : list Z)
  : list (Z * Z) :=
  let existing := linked_ids through pid in
  let missing := List.filter (fun c => negb (zmem c existing)) (dedup_ids ids) in
  through ++ List.map (fun c => (pid, c)) missing.

(** [manager.remove]: the matching links are deleted. *)
Definition m2m_remove (through : list (Z * Z)) (pid : Z) (ids : list Z)
  : list (Z * Z) :=
  List.filter (fun r => negb ((fst r =? pid) && zmem (snd r) ids)) through.

(** [manager.set]: links absent from [objs] are removed, then the
    new ones added. *)
Definition m2m_set (through : list (Z * Z)) (pid : Z) (ids : list Z)
  : list (Z * Z) :=
  let old_ids := linked_ids through pid in
  let stale := List.filter (fun c => negb (zmem c ids)) old_ids in
  let new_ids := List.filter (fun c => negb (zmem c old_ids)) ids in
  m2m_add (m2m_remove through pid stale) pid new_ids.

Definition set_through (db : DB) (t : list (Z * Z)) : DB :=
  mkDB (city_table db) (lawyerprofile_table db) t
       (contactrequest_table db) (complaint_table db) (now db).

Definition set_profiles (db : DB) (t : list LawyerProfile.t) : DB :=
  mkDB (city_table db) t (service_cities_table db)
       (contactrequest_table db) (complaint_table db) (now db).

Definition set_contact_requests (db : DB) (t : list ContactRequest.t) : DB :=
  mkDB (city_table db) (lawyerprofile_table db) (service_cities_table db)
       t (complaint_table db) (now db).

(** [profile.service_cities.all()]. *)
Definition service_cities (db : DB) (pid : Z) : list City.t :=
  flat_map
    (fun cid => List.filter (fun c => City.id c =? cid) (city_table db))
    (linked_ids (service_cities_table db) pid).

(** [user.lawyer_profile], the reverse side of the one-to-one relation. *)
Definition lawyer_profile_of (db : DB) (u : User.t) : option LawyerProfile.t :=
  List.find (fun p => User.id (LawyerProfile.user p) =? User.id u)
            (lawyerprofile_table db).

(** [hasattr(user, "lawyer_profile")]. *)
Definition has_lawyer_profile (db : DB) (u : User.t) : bool :=
  match lawyer_profile_of db u with Some _ => true | None => false end.

(* ================================================================== *)
(** ** Serializers *)

Definition CitySerializer (c : City.t) : json :=
  JDict [(lit "id", JInt (City.id c)); (lit "name", JStr (City.name c))].

(** [LawyerProfileSerializer.get_win_rate]. *)
Definition get_win_rate (obj : LawyerProfile.t) : Result float :=
  let won_cases := Z.of_N (LawyerProfile.won_cases obj) in
  let total_cases := Z.of_N (LawyerProfile.total_cases obj) in
  let attempt :=
    if negb (total_cases =? 0) then
      rbind (int_truediv won_cases total_cases) (fun q =>
        Ok (py_round (float_mul q (float_of_int 100)) 2))
    else Ok float_zero in
  match attempt with
  | Raise ZeroDivisionError => Ok float_zero
  | r => r
  end.

(** The representation of a profile: the fields of [Meta.fields] that
    are not write-only, in order. *)
Definition LawyerProfileSerializer (db : DB) (obj : LawyerProfile.t)
  : Result json :=
  rbind (get_win_rate obj) (fun win_rate =>
    Ok (JDict
      [ (lit "id", JInt (LawyerProfile.id obj));
        (lit "user", JInt (User.id (LawyerProfile.user obj)));
        (lit "specialization", JStr (LawyerProfile.specialization obj));
        (lit "experience_years",
           JInt (Z.of_N (LawyerProfile.experience_years obj)));
        (lit "license_number", JStr (LawyerProfile.license_number obj));
        (lit "bio", opt_json (LawyerProfile.bio obj));
        (lit "contact_number", opt_json (LawyerProfile.contact_number obj));
        (lit "address", opt_json (LawyerProfile.address obj));
        (lit "rating", JFloat (LawyerProfile.rating obj));
        (lit "total_cases", JInt (Z.of_N (LawyerProfile.total_cases obj)));
        (lit "won_cases", JInt (Z.of_N (LawyerProfile.won_cases obj)));
        (lit "service_cities",
           JList (List.map CitySerializer
                    (service_cities db (LawyerProfile.id obj))));
        (lit "win_rate", JFloat win_rate) ])).

(** [LawyerProfileSerializer.validate_service_city_ids]. *)
Definition validate_service_city_ids (value : list City.t)
  : Result (list City.t) :=
  match value with
  | [] => Ok value
  | _ =>
      if (4 <? Z.of_nat (List.length value)) then
        Raise (ValidationError (JList [JStr (lit "You can select up to 4 cities.")]))
      else Ok value
  end.

Definition ContactRequestSerializer (cr : ContactRequest.t) : json :=
  JDict
    [ (lit "id", JInt (ContactRequest.id cr));
      (lit "user", JInt (ContactRequest.user_id cr));
      (lit "lawyer", JInt (ContactRequest.lawyer_id cr));
      (lit "message", opt_json (ContactRequest.message cr));
      (lit "status", JStr (ContactRequest.status cr));
      (lit "created_at", JDateTime (ContactRequest.created_at cr)) ].

(** *** Serializer fields with a dotted [source] *)

(** The options of a serializer field that decide what a failed
    attribute lookup becomes. *)
Record FieldOptions := mkField {
  required : bool;
  allow_null : bool;
  has_default : bool
}.

(** A read-only field: [required] defaults to false for it. *)
Definition read_only_field : FieldOptions := mkField false false false.

(** Result of walking the attributes of [source]. *)
Inductive lookup (A : Type) :=
| Found (a : A)
| FoundNone
| LookupFailed (e : exn).
Arguments Found {A} a.
Arguments FoundNone {A}.
Arguments LookupFailed {A} e.

(** What a field contributes to the representation. *)
Inductive contribution :=
| Entry (v : json)
| SkipField
| FieldRaised (e : exn).

Section Serialization.
Context {P : Platform}.

(** [fields.get_attribute(instance, [rel, leaf])] for a nullable
    relation [rel]: on [None], either the walk stops at once or the
    access to [leaf] on [None] raises [AttributeError]. *)
Definition get_attribute {R A} (rel : option R) (leaf : R -> A) : lookup A :=
  match rel with
  | Some r => Found (leaf r)
  | None =>
      if none_short_circuit then FoundNone else LookupFailed AttributeError
  end.

(** [Field.get_attribute] followed by the [None] test and
    [to_representation] of the serializer loop. *)
Definition field_contribution (f : FieldOptions) (l : lookup pystr)
  : contribution :=
  match l with
  | Found s => Entry (JStr s)
  | FoundNone => Entry JNull
  | LookupFailed AttributeError =>
      if has_default f then SkipField
      else if allow_null f then Entry JNull
      else if negb (required f) then SkipField
      else FieldRaised AttributeError
  | LookupFailed e => FieldRaised e
  end.

(** [Serializer.to_representation]: the entries in field order, a
    skipped field leaving no key. *)
Fixpoint to_representation (fields : list (pystr * contribution))
  : Result (list (pystr * json)) :=
  match fields with
  | [] => Ok []
  | (k, c) :: rest =>
      match c with
      | FieldRaised e => Raise e
      | SkipField => to_representation rest
      | Entry v =>
          rbind (to_representation rest) (fun d => Ok ((k, v) :: d))
      end
  end.

Definition ComplaintBriefSerializer (c : Complaint.t) : Result json :=
  let incident_city :=
    field_contribution read_only_field
      (get_attribute (Complaint.incident_location c) IncidentLocation.city) in
  let residential_city :=
    field_contribution read_only_field
      (get_attribute (Complaint.residential_address c) Residential.city) in
  rbind
    (to_representation
       [ (lit "id", Entry (JInt (Complaint.id c)));
         (lit "title", Entry (JStr (Complaint.title c)));
         (lit "created_at", Entry (JDateTime (Complaint.created_at c)));
         (lit "privacy_option",
            Entry (JStr (privacy_value (Complaint.privacy_option c))));
         (lit "incident_city", incident_city);
         (lit "residential_city", residential_city) ])
    (fun d => Ok (JDict d)).
End Serialization.

(* ================================================================== *)
(** ** Views *)

(** Newest first: [order_by("-created_at")], rows with equal time kept in
    table order. *)
Fixpoint insert_newest (c : Complaint.t) (l : list Complaint.t)
  : list Complaint.t :=
  match l with
  | [] => [c]
  | x :: l' =>
      if Complaint.created_at x <? Complaint.created_at c
      then c :: x :: l'
      else x :: insert_newest c l'
  end.

Definition order_by_created_at_desc (l : list Complaint.t) : list Complaint.t :=
  fold_right insert_newest [] l.

Definition city_of_incident (c : Complaint.t) : option pystr :=
  option_map IncidentLocation.city (Complaint.incident_location c).

Definition city_of_residence (c : Complaint.t) : option pystr :=
  option_map Residential.city (Complaint.residential_address c).

(** [column__in=names]; a null column matches nothing. *)
Definition column_in (col : option pystr) (names : list pystr) : bool :=
  match col with
  | Some s => str_in s names
  | None => false
  end.

(** [Q(incident_location__city__in=names) |
    Q(residential_address__city__in=names)]. *)
Definition in_cities (names : list pystr) (c : Complaint.t) : bool :=
  column_in (city_of_incident c) names
  || column_in (city_of_residence c) names.

(** The query shared by [cases] and [search_cases]. *)
Definition complaints_in_cities (db : DB) (names : list pystr)
  : list Complaint.t :=
  order_by_created_at_desc
    (List.filter (in_cities names) (complaint_table db)).

Section Views.
Context {P : Platform}.

(** [column__iexact=s]. *)
Definition iexact (col s : pystr) : bool :=
  pystr_eqb (db_fold col) (db_fold s).

(** [column__icontains=s]; a null column matches nothing. *)
Definition icontains (col : option pystr) (s : pystr) : bool :=
  match col with
  | Some v => is_substring (db_fold s) (db_fold v)
  | None => false
  end.

(** Join of the profiles with their service-city links: one row per
    link whose city satisfies [sel]. *)
Definition join_service_cities (db : DB) (sel : Z -> bool)
  (qs : list LawyerProfile.t) : list LawyerProfile.t :=
  flat_map
    (fun p =>
       List.map (fun _ => p)
         (List.filter sel
            (linked_ids (service_cities_table db) (LawyerProfile.id p))))
    qs.

Definition city_named (db : DB) (s : pystr) (cid : Z) : bool :=
  existsb (fun c => (City.id c =? cid) && iexact (City.name c) s)
          (city_table db).

(** [LawyerProfileViewSet.get_queryset]. *)
Definition get_queryset (db : DB) (request : Request)
  : Result (list LawyerProfile.t) :=
  let qs := lawyerprofile_table db in
  let params := query_params request in
  let specialization := dict_get params (lit "specialization") in
  let city := dict_get params (lit "city") in
  let min_exp := dict_get params (lit "min_experience") in
  let q := dict_get params (lit "q") in
  let qs :=
    match specialization with
    | Some s =>
        if str_truthy s
        then List.filter
               (fun p => pystr_eqb (LawyerProfile.specialization p) s) qs
        else qs
    | None => qs
    end in
  rbind
    (match city with
     | Some c =>
         if str_truthy c then
           if str_isdigit c then
             rbind (py_int c) (fun n =>
               Ok (join_service_cities db (Z.eqb n) qs))
           else Ok (join_service_cities db (city_named db c) qs)
         else Ok qs
     | None => Ok qs
     end) (fun qs =>
  rbind
    (match min_exp with
     | Some m =>
         if str_truthy m && str_isdigit m then
           rbind (py_int m) (fun n =>
             Ok (List.filter
                   (fun p => n <=? Z.of_N (LawyerProfile.experience_years p))
                   qs))
         else Ok qs
     | None => Ok qs
     end) (fun qs =>
  let qs :=
    match q with
    | Some t =>
        if str_truthy t then
          List.filter
            (fun p =>
               icontains (Some (User.first_name (LawyerProfile.user p))) t
               || icontains (Some (User.last_name (LawyerProfile.user p))) t
               || icontains (LawyerProfile.bio p) t
               || icontains (Some (LawyerProfile.license_number p)) t)
            qs
        else qs
    | None => qs
    end in
  Ok (nodup LawyerProfile_eq_dec qs))).

(** [self.get_object()]: the row with key [pk] of the filtered
    queryset, [Http404] when there is none. *)
Definition get_object (request : Request) (pk : Z) : M LawyerProfile.t :=
  qs <- query_result (fun db => get_queryset db request) ;;
  match List.find (fun p => LawyerProfile.id p =? pk) qs with
  | Some obj => ret obj
  | None => raise Http404
  end.

(** [get_object_or_404(City, pk=city_id)]. *)
Definition get_city_or_404 (city_id : pyval) : M City.t :=
  pk <- query_result (fun _ => py_int_of city_id) ;;
  table <- query city_table ;;
  match List.find (fun c => City.id c =? pk) table with
  | Some c => ret c
  | None => raise Http404
  end.

Definition data_get (request : Request) (key : string) : pyval :=
  match dict_get (req_data request) (lit key) with
  | Some v => v
  | None => PNone
  end.
End Views.

Section Actions.
Context {P : Platform}.

(** [LawyerProfileViewSet.add_city]. *)
Definition add_city (request : Request) (pk : Z) : M Response :=
  _ <- IsAuthenticated request ;;
  let city_id := data_get request "city_id" in
  if negb (py_truthy city_id) then
    ret (mkResponse HTTP_400_BAD_REQUEST (detail "city_id is required."))
  else
    city <- get_city_or_404 city_id ;;
    profile <- get_object request pk ;;
    update (fun db =>
      set_through db
        (m2m_add (service_cities_table db) (LawyerProfile.id profile)
                 [City.id city])) ;;;
    ret (mkResponse HTTP_200_OK
           (JDict [(lit "status", JStr (lit "added"));
                   (lit "city", CitySerializer city)])).

(** [LawyerProfileViewSet.remove_city]. *)
Definition remove_city (request : Request) (pk : Z) : M Response :=
  _ <- IsAuthenticated request ;;
  let city_id := data_get request "city_id" in
  if negb (py_truthy city_id) then
    ret (mkResponse HTTP_400_BAD_REQUEST (detail "city_id is required."))
  else
    city <- get_city_or_404 city_id ;;
    profile <- get_object request pk ;;
    update (fun db =>
      set_through db
        (m2m_remove (service_cities_table db) (LawyerProfile.id profile)
                    [City.id city])) ;;;
    ret (mkResponse HTTP_200_OK
           (JDict [(lit "status", JStr (lit "removed"));
                   (lit "city", CitySerializer city)])).

(** What is assigned to a counter before [save]: a plain number, or
    the expression [F(column) + k] evaluated by the database on the
    stored row. *)
Inductive assigned :=
| Plain (n : N)
| F_plus (column : LawyerProfile.t -> N) (k : N).

(** The value the database computes.  The sum is the mathematical one,
    which is what every backend stores as long as it fits the column;
    past the column's maximum the backends part ways (SQLite turns the
    value into a REAL, others refuse the statement), and this embedding
    says nothing there: statements about counters carry the column
    range as a hypothesis. *)
Definition evaluate (row : LawyerProfile.t) (a : assigned) : N :=
  match a with
  | Plain n => n
  | F_plus column k => (column row + k)%N
  end.

Definition with_counters (row : LawyerProfile.t) (total won : N)
  : LawyerProfile.t :=
  LawyerProfile.mk (LawyerProfile.id row) (LawyerProfile.user row)
    (LawyerProfile.specialization row) (LawyerProfile.experience_years row)
    (LawyerProfile.license_number row) (LawyerProfile.bio row)
    (LawyerProfile.contact_number row) (LawyerProfile.address row)
    (LawyerProfile.rating row) total won.

(** [profile.save(update_fields=["total_cases", "won_cases"])]: one
    [UPDATE] of the row with the profile's key; it is an error when no
    row is affected. *)
Definition save_counters (pk : Z) (total won : assigned) : M unit :=
  table <- query lawyerprofile_table ;;
  if existsb (fun row => LawyerProfile.id row =? pk) table then
    update (fun db =>
      set_profiles db
        (List.map
           (fun row =>
              if LawyerProfile.id row =? pk
              then with_counters row (evaluate row total) (evaluate row won)
              else row)
           (lawyerprofile_table db)))
  else raise DatabaseError.

(** [profile.refresh_from_db()]. *)
Definition refresh_from_db (pk : Z) : M LawyerProfile.t :=
  table <- query lawyerprofile_table ;;
  match List.find (fun row => LawyerProfile.id row =? pk) table with
  | Some row => ret row
  | None => raise DoesNotExist
  end.

Definition won_flag_of (won : pyval) : bool :=
  str_in (str_lower (py_str won)) [lit "true"; lit "1"; lit "yes"].

(** [LawyerProfileViewSet.increment_cases]. *)
Definition increment_cases (request : Request) (pk : Z) : M Response :=
  _ <- IsAuthenticated request ;;
  let won := data_get request "won" in
  let won_flag := won_flag_of won in
  profile <- get_object request pk ;;
  let total_cases := F_plus LawyerProfile.total_cases 1 in
  let won_cases :=
    if won_flag then F_plus LawyerProfile.won_cases 1
    else Plain (LawyerProfile.won_cases profile) in
  save_counters (LawyerProfile.id profile) total_cases won_cases ;;;
  profile <- refresh_from_db (LawyerProfile.id profile) ;;
  ret (mkResponse HTTP_200_OK
         (JDict
            [(lit "total_cases",
                JInt (Z.of_N (LawyerProfile.total_cases profile)));
             (lit "won_cases",
                JInt (Z.of_N (LawyerProfile.won_cases profile)))])).

(** The value a [TextField] stores for what it is given. *)
Definition text_value (v : pyval) : option pystr :=
  match v with
  | PNone => None
  | _ => Some (py_str v)
  end.

(** [ContactRequest.objects.create(user=, lawyer=, message=)]: the row
    gets the default status and the current time; the insert fails
    with [IntegrityError] when [unique_user_lawyer_contact_once] would
    be violated. *)
Definition ContactRequest_create (user : User.t) (lawyer : LawyerProfile.t)
  (message : pyval) : M ContactRequest.t :=
  table <- query contactrequest_table ;;
  t <- query now ;;
  if existsb
       (fun r => (ContactRequest.user_id r =? User.id user)
                 && (ContactRequest.lawyer_id r =? LawyerProfile.id lawyer))
       table
  then raise IntegrityError
  else
    let cr :=
      ContactRequest.mk (fresh_id (List.map ContactRequest.id table))
        (User.id user) (LawyerProfile.id lawyer) (text_value message)
        (lit "pending") t in
    update (fun db =>
      set_contact_requests db (contactrequest_table db ++ [cr])) ;;;
    ret cr.

Definition is_IntegrityError (e : exn) : bool :=
  match e with IntegrityError => true | _ => false end.

(** [LawyerProfileViewSet.contact]. *)
Definition contact (request : Request) (pk : Z) : M Response :=
  user <- IsAuthenticated request ;;
  lawyer <- get_object request pk ;;
  let message :=
    match dict_get (req_data request) (lit "message") with
    | Some v => v
    | None => PStr []
    end in
  created <-
    try_except
      (cr <- ContactRequest_create user lawyer message ;; ret (Some cr))
      is_IntegrityError
      (ret None) ;;
  match created with
  | None =>
      ret (mkResponse HTTP_400_BAD_REQUEST (detail "Request already sent."))
  | Some cr =>
      ret (mkResponse HTTP_201_CREATED (ContactRequestSerializer cr))
  end.

Definition brief_list (qs : list Complaint.t) : M Response :=
  data <- query_result (fun _ => rmap ComplaintBriefSerializer qs) ;;
  ret (mkResponse HTTP_200_OK (JList data)).

(** [LawyerProfileViewSet.cases]. *)
Definition cases (request : Request) : M Response :=
  user <- IsAuthenticated request ;;
  found <- query (fun db => lawyer_profile_of db user) ;;
  match found with
  | None =>
      ret (mkResponse HTTP_403_FORBIDDEN (detail "Lawyer profile required."))
  | Some profile =>
      names <- query (fun db =>
        List.map City.name (service_cities db (LawyerProfile.id profile))) ;;
      qs <- query (fun db => complaints_in_cities db names) ;;
      brief_list qs
  end.

(** The names [search_cases] collects from its [cities] parameter. *)
Definition resolve_names (db : DB) (cities_param : option pystr)
  : Result (list pystr) :=
  if opt_truthy cities_param then
    let cities_param := match cities_param with Some s => s | None => [] end in
    let tokens :=
      List.filter str_truthy
        (List.map str_strip (split_on 44%N cities_param)) in
    rbind (rmap py_int (List.filter str_isdigit tokens)) (fun id_tokens =>
      let name_tokens :=
        List.filter (fun t => negb (str_isdigit t)) tokens in
      let names :=
        match id_tokens with
        | [] => []
        | _ =>
            List.map City.name
              (List.filter (fun c => zmem (City.id c) id_tokens)
                           (city_table db))
        end in
      Ok (names ++ name_tokens))
  else Ok [].

(** [LawyerProfileViewSet.search_cases]. *)
Definition search_cases (request : Request) : M Response :=
  _ <- IsAuthenticated request ;;
  names <- query_result (fun db =>
    resolve_names db (dict_get (query_params request) (lit "cities"))) ;;
  match names with
  | [] =>
      ret (mkResponse HTTP_400_BAD_REQUEST
             (detail "Provide cities by id or name."))
  | _ =>
      qs <- query (fun db => complaints_in_cities db names) ;;
      brief_list qs
  end.
End Actions.

(* ================================================================== *)
(** ** Creating and updating profiles *)

(** [serializer.validated_data]: each key may be absent.  The key
    [service_cities] is where the write-only field [service_city_ids]
    puts its cities; [vd_user] is the key [user] that
    [serializer.save(user=...)] adds. *)
Record ValidatedData := mkValidated {
  vd_user : option User.t;
  vd_service_cities : option (list City.t);
  vd_specialization : option pystr;
  vd_experience_years : option N;
  vd_license_number : option pystr;
  vd_bio : option (option pystr);
  vd_contact_number : option (option pystr);
  vd_address : option (option pystr);
  vd_rating : option float;
  vd_total_cases : option N;
  vd_won_cases : option N
}.

(** The body of a create or update request: the list given for
    [service_city_ids], when there is one, and the other entries. *)
Record Payload := mkPayload {
  service_city_ids : option (list pyval);
  other_entries : list (pystr * pyval)
}.

Definition or_default {A} (o : option A) (d : A) : A :=
  match o with Some a => a | None => d end.

Definition with_user (vd : ValidatedData) (u : User.t) : ValidatedData :=
  mkValidated (Some u) (vd_service_cities vd) (vd_specialization vd)
    (vd_experience_years vd) (vd_license_number vd) (vd_bio vd)
    (vd_contact_number vd) (vd_address vd) (vd_rating vd)
    (vd_total_cases vd) (vd_won_cases vd).

Definition with_service_cities (vd : ValidatedData) (cs : option (list City.t))
  : ValidatedData :=
  mkValidated (vd_user vd) cs (vd_specialization vd)
    (vd_experience_years vd) (vd_license_number vd) (vd_bio vd)
    (vd_contact_number vd) (vd_address vd) (vd_rating vd)
    (vd_total_cases vd) (vd_won_cases vd).

(** [setattr(instance, attr, value)] for every item. *)
Definition assign_fields (obj : LawyerProfile.t) (vd : ValidatedData)
  : LawyerProfile.t :=
  LawyerProfile.mk (LawyerProfile.id obj)
    (or_default (vd_user vd) (LawyerProfile.user obj))
    (or_default (vd_specialization vd) (LawyerProfile.specialization obj))
    (or_default (vd_experience_years vd) (LawyerProfile.experience_years obj))
    (or_default (vd_license_number vd) (LawyerProfile.license_number obj))
    (or_default (vd_bio vd) (LawyerProfile.bio obj))
    (or_default (vd_contact_number vd) (LawyerProfile.contact_number obj))
    (or_default (vd_address vd) (LawyerProfile.address obj))
    (or_default (vd_rating vd) (LawyerProfile.rating obj))
    (or_default (vd_total_cases vd) (LawyerProfile.total_cases obj))
    (or_default (vd_won_cases vd) (LawyerProfile.won_cases obj)).

Definition is_ValidationError (e : exn) : bool :=
  match e with ValidationError _ => true | _ => false end.

Section Profiles.
Context {P : Platform}.

(** Validation of the fields the serializer derives from the model
    (all but [service_city_ids]); it raises nothing but
    [ValidationError]. *)
Variable validate_model_fields :
  DB -> list (pystr * pyval) -> Result ValidatedData.

(** The two messages of [PrimaryKeyRelatedField]. *)
Definition does_not_exist (v : pyval) : exn :=
  ValidationError
    (JList [JStr (lit "Invalid pk " ++ [34%N] ++ py_str v ++ [34%N]
                  ++ lit " - object does not exist.")]).

Definition incorrect_type (v : pyval) : exn :=
  ValidationError
    (JList [JStr (lit "Incorrect type. Expected pk value, received "
                  ++ py_type_name v ++ lit ".")]).

(** One key of [service_city_ids] resolved against [City.objects.all()]
    by [PrimaryKeyRelatedField.to_internal_value]: a Boolean is refused;
    [None] is looked up as a null key, which no row has; any other value
    is converted by [int] for the lookup.  [TypeError] and [ValueError]
    of the conversion become the message "Incorrect type", a key without
    row the message "Invalid pk"; any other exception of the conversion
    (the [OverflowError] of an infinite float) is not caught.  (A key
    outside the range of the column matches no row.) *)
Definition related_city (db : DB) (v : pyval) : Result City.t :=
  match v with
  | PBool _ => Raise (incorrect_type v)
  | PNone => Raise (does_not_exist v)
  | _ =>
      match py_int_of v with
      | Ok pk =>
          match List.find (fun c => City.id c =? pk) (city_table db) with
          | Some c => Ok c
          | None => Raise (does_not_exist v)
          end
      | Raise TypeError => Raise (incorrect_type v)
      | Raise ValueError => Raise (incorrect_type v)
      | Raise e => Raise e
      end
  end.

(** The field [service_city_ids]: its keys resolved, then
    [validate_service_city_ids]. *)
Definition service_city_ids_field (db : DB) (ids : list pyval)
  : Result (list City.t) :=
  rbind (rmap (related_city db) ids) validate_service_city_ids.

(** The errors of the model's fields with the error of
    [service_city_ids], the last writable field, added. *)
Definition with_field_error (errors : json) (field : string) (d : json)
  : json :=
  match errors with
  | JDict l => JDict (l ++ [(lit field, d)])
  | _ => JDict [(lit field, d)]
  end.

(** [serializer.is_valid(raise_exception=True)].  The fields are
    validated in turn, [service_city_ids] after the model's fields; the
    validation errors are gathered under the fields' names and raised
    together at the end, while any other exception leaves at once. *)
Definition is_valid (db : DB) (payload : Payload) : Result ValidatedData :=
  let cities :=
    match service_city_ids payload with
    | None => Ok None
    | Some ids => rbind (service_city_ids_field db ids) (fun cs => Ok (Some cs))
    end in
  match validate_model_fields db (other_entries payload) with
  | Ok vd =>
      match cities with
      | Ok cs => Ok (with_service_cities vd cs)
      | Raise (ValidationError d) =>
          Raise (ValidationError (JDict [(lit "service_city_ids", d)]))
      | Raise e => Raise e
      end
  | Raise (ValidationError errors) =>
      match cities with
      | Ok _ => Raise (ValidationError errors)
      | Raise (ValidationError d) =>
          Raise (ValidationError
                   (with_field_error errors "service_city_ids" d))
      | Raise e => Raise e
      end
  | Raise e => Raise e
  end.

(** [LawyerProfile.objects.create(user=user, **validated_data)].  A
    [user] key in [validated_data] clashes with the explicit keyword;
    the insert fails when the owner or the license number is taken. *)
Definition LawyerProfile_create (user : User.t) (vd : ValidatedData)
  : M LawyerProfile.t :=
  match vd_user vd with
  | Some _ => raise TypeError
  | None =>
      table <- query lawyerprofile_table ;;
      let license := or_default (vd_license_number vd) [] in
      if existsb
           (fun r => (User.id (LawyerProfile.user r) =? User.id user)
                     || pystr_eqb (LawyerProfile.license_number r) license)
           table
      then raise IntegrityError
      else
        let profile :=
          LawyerProfile.mk (fresh_id (List.map LawyerProfile.id table)) user
            (or_default (vd_specialization vd) (lit "other"))
            (or_default (vd_experience_years vd) 0%N)
            license
            (or_default (vd_bio vd) None)
            (or_default (vd_contact_number vd) None)
            (or_default (vd_address vd) None)
            (or_default (vd_rating vd) float_zero)
            (or_default (vd_total_cases vd) 0%N)
            (or_default (vd_won_cases vd) 0%N) in
        update (fun db =>
          set_profiles db (lawyerprofile_table db ++ [profile])) ;;;
        ret profile
  end.

Definition set_service_cities (pk : Z) (cities : list City.t) : M unit :=
  update (fun db =>
    set_through db
      (m2m_set (service_cities_table db) pk (List.map City.id cities))).

(** [LawyerProfileSerializer.create]. *)
Definition serializer_create (request : Request) (validated_data : ValidatedData)
  : M LawyerProfile.t :=
  let cities := or_default (vd_service_cities validated_data) [] in
  let validated_data := with_service_cities validated_data None in
  match req_user request with
  | None =>
      raise (ValidationError (detail "Authentication required to create a profile."))
  | Some user =>
      exists_ <- query (fun db => has_lawyer_profile db user) ;;
      if (exists_ : bool) then
        raise (ValidationError (detail "Profile already exists for this user."))
      else
        profile <- LawyerProfile_create user validated_data ;;
        match cities with
        | [] => ret profile
        | _ =>
            set_service_cities (LawyerProfile.id profile) cities ;;;
            ret profile
        end
  end.

(** [instance.save()]: the row with the instance's key is rewritten, or
    inserted when there is none; it fails when another row has the same
    owner or license number. *)
Definition save_profile (instance : LawyerProfile.t) : M unit :=
  table <- query lawyerprofile_table ;;
  if existsb
       (fun r =>
          negb (LawyerProfile.id r =? LawyerProfile.id instance)
          && ((User.id (LawyerProfile.user r)
                 =? User.id (LawyerProfile.user instance))
              || pystr_eqb (LawyerProfile.license_number r)
                           (LawyerProfile.license_number instance)))
       table
  then raise IntegrityError
  else if existsb (fun r => LawyerProfile.id r =? LawyerProfile.id instance)
                  table
  then
    update (fun db =>
      set_profiles db
        (List.map
           (fun row =>
              if LawyerProfile.id row =? LawyerProfile.id instance
              then instance else row)
           (lawyerprofile_table db)))
  else
    update (fun db => set_profiles db (lawyerprofile_table db ++ [instance])).

(** [LawyerProfileSerializer.update]. *)
Definition serializer_update (instance : LawyerProfile.t)
  (validated_data : ValidatedData) : M LawyerProfile.t :=
  let cities := vd_service_cities validated_data in
  let instance := assign_fields instance validated_data in
  save_profile instance ;;;
  match cities with
  | Some cs =>
      set_service_cities (LawyerProfile.id instance) cs ;;; ret instance
  | None => ret instance
  end.

(** [LawyerProfileViewSet.perform_create]; [serializer.save(user=user)]
    hands [create] the validated data with the key [user] added. *)
Definition perform_create (request : Request) (validated_data : ValidatedData)
  : M LawyerProfile.t :=
  match req_user request with
  | None => raise (ValidationError (detail "Authentication required."))
  | Some user =>
      exists_ <- query (fun db => has_lawyer_profile db user) ;;
      if (exists_ : bool) then
        raise (ValidationError (detail "Profile already exists for this user."))
      else serializer_create request (with_user validated_data user)
  end.

(** The create action, a POST under the view set's
    [IsAuthenticatedOrReadOnly]: the caller is checked, the body
    validated, then [perform_create], and the answer is 201. *)
Definition create (request : Request) (payload : Payload) : M Response :=
  _ <- IsAuthenticated request ;;
  validated_data <- query_result (fun db => is_valid db payload) ;;
  profile <- perform_create request validated_data ;;
  body <- query_result (fun db => LawyerProfileSerializer db profile) ;;
  ret (mkResponse HTTP_201_CREATED body).

(** The update of the caller's own profile ([me] with PUT or PATCH on
    an existing profile): validate, [update], answer 200. *)
Definition update_profile (instance : LawyerProfile.t) (payload : Payload)
  : M Response :=
  validated_data <- query_result (fun db => is_valid db payload) ;;
  profile <- serializer_update instance validated_data ;;
  body <- query_result (fun db => LawyerProfileSerializer db profile) ;;
  ret (mkResponse HTTP_200_OK body).
End Profiles.

(* ================================================================== *)
(** ** A concrete platform *)

Definition latin1_lower (c : codepoint) : codepoint :=
  if ((65 <=? c) && (c <=? 90))%N then (c + 32)%N
  else if ((192 <=? c) && (c <=? 222) && negb (c =? 215))%N then (c + 32)%N
  else c.

(** Digits of Latin-1: the ASCII digits and the superscripts two, three
    and one, which are digits without a decimal value. *)
Definition latin1_isdigit (c : codepoint) : bool :=
  match ascii_digit c with
  | Some _ => true
  | None => ((c =? 178) || (c =? 179) || (c =? 185))%N
  end.

Definition latin1_isspace (c : codepoint) : bool :=
  (ascii_space c || (c =? 133) || (c =? 160))%N.

(** CPython on the Latin-1 range, SQLite's ASCII-only case folding, and
    a current release of the serializer framework.  The instance agrees
    with the interpreter on the code points U+0000 to U+00FF and is used
    on such text only; above that range it takes every character for a
    caseless letter, which the interpreter does not. *)
#[export] Instance latin1_sqlite : Platform.
Proof.
  refine
    {| str_lower := List.map latin1_lower;
       cp_isdigit := latin1_isdigit;
       cp_decimal := ascii_digit;
       cp_isspace := latin1_isspace;
       db_fold := List.map ascii_lower;
       none_short_circuit := false |}.
  - intros s H. apply map_ext_in. intros c Hc.
    rewrite forallb_forall in H. specialize (H c Hc).
    unfold is_ascii in H. apply N.ltb_lt in H.
    unfold latin1_lower, ascii_lower.
    destruct ((65 <=? c) && (c <=? 90))%N; [reflexivity|].
    replace (192 <=? c)%N with false; [reflexivity|].
    symmetry. apply N.leb_gt. lia.
  - reflexivity.
  - intros c H. unfold is_ascii in H. apply N.ltb_lt in H.
    unfold latin1_isdigit. destruct (ascii_digit c); [reflexivity|].
    replace (c =? 178)%N with false by (symmetry; apply N.eqb_neq; lia).
    replace (c =? 179)%N with false by (symmetry; apply N.eqb_neq; lia).
    replace (c =? 185)%N with false by (symmetry; apply N.eqb_neq; lia).
    reflexivity.
  - intros c H. unfold is_ascii in H. apply N.ltb_lt in H.
    unfold latin1_isspace.
    replace (c =? 133)%N with false by (symmetry; apply N.eqb_neq; lia).
    replace (c =? 160)%N with false by (symmetry; apply N.eqb_neq; lia).
    rewrite !orb_false_r. reflexivity.
  - intros c d H. unfold latin1_isdigit. rewrite H. reflexivity.
  - intros c d. unfold ascii_digit.
    destruct ((48 <=? c) && (c <=? 57))%N eqn:E; [|discriminate].
    intros H. injection H as <-.
    apply andb_prop in E. destruct E as [E1 E2].
    apply N.leb_le in E1. apply N.leb_le in E2. lia.
  - intros c. unfold latin1_isdigit, latin1_isspace, ascii_digit, ascii_space.
    repeat match goal with
    | |- context [(?a <=? ?b)%N] =>
        destruct (N.leb_spec a b); try lia
    | |- context [(?a =? ?b)%N] =>
        destruct (N.eqb_spec a b); try lia
    end; cbn; congruence.
  - reflexivity.
Defined.

(* ================================================================== *)
(** ** The specification's formulas and sample data *)

(** The win rate as the specification writes it:
    [round((won_cases / total_cases) * 100, 2)]. *)
Definition win_rate_formula (won_cases total_cases : N) : Result float :=
  rbind (int_truediv (Z.of_N won_cases) (Z.of_N total_cases)) (fun q =>
    Ok (py_round (float_mul q (float_of_int 100)) 2)).

(** The largest value of a [PositiveBigIntegerField] column. *)
Definition BIGINT_MAX : N := 9223372036854775807.

(** The largest value of a [PositiveIntegerField] column that is safe
    in every backend. *)
Definition INTEGER_MAX : N := 2147483647.

Definition asha : User.t := User.mk 1 (lit "asha") (lit "Asha") (lit "Rao").
Definition ravi : User.t := User.mk 2 (lit "ravi") (lit "Ravi") (lit "Mehta").

Definition profile_of (id : Z) (u : User.t) (spec : string) (years total won : N)
  : LawyerProfile.t :=
  LawyerProfile.mk id u (lit spec) years (lit "LIC-" ++ int_str id) None None None
    float_zero total won.

(** *** The directory filter, in the specification's words *)

Section DirectorySpec.
Context {P : Platform}.

(** A query parameter is given when it is present and not empty. *)
Definition given (request : Request) (key : string) : option pystr :=
  match dict_get (query_params request) (lit key) with
  | Some s => if str_truthy s then Some s else None
  | None => None
  end.

Definition serves_city_id (db : DB) (p : LawyerProfile.t) (n : Z) : bool :=
  existsb (Z.eqb n)
    (linked_ids (service_cities_table db) (LawyerProfile.id p)).

Definition serves_city_named (db : DB) (p : LawyerProfile.t) (s : pystr)
  : bool :=
  existsb (city_named db s)
    (linked_ids (service_cities_table db) (LawyerProfile.id p)).

(** Specialization: exact match. *)
Definition specialization_matches (p : LawyerProfile.t) (o : option pystr)
  : bool :=
  match o with
  | Some s => pystr_eqb (LawyerProfile.specialization p) s
  | None => true
  end.

(** City: a parameter made of digits is a city id, matched exactly; any
    other is a city name, matched exactly up to case. *)
Definition city_matches (db : DB) (p : LawyerProfile.t) (o : option pystr)
  : bool :=
  match o with
  | Some c =>
      if str_isdigit c then
        match py_int c with
        | Ok n => serves_city_id db p n
        | Raise _ => false
        end
      else serves_city_named db p c
  | None => true
  end.

(** Experience: at least [min_experience], when that is a number. *)
Definition experience_matches (p : LawyerProfile.t) (o : option pystr)
  : bool :=
  match o with
  | Some m =>
      if str_isdigit m then
        match py_int m with
        | Ok n => n <=? Z.of_N (LawyerProfile.experience_years p)
        | Raise _ => false
        end
      else true
  | None => true
  end.

(** Free text: a substring, up to case, of the first name, the last
    name, the bio or the license number. *)
Definition text_matches (p : LawyerProfile.t) (o : option pystr) : bool :=
  match o with
  | Some t =>
      icontains (Some (User.first_name (LawyerProfile.user p))) t
      || icontains (Some (User.last_name (LawyerProfile.user p))) t
      || icontains (LawyerProfile.bio p) t
      || icontains (Some (LawyerProfile.license_number p)) t
  | None => true
  end.

(** The conjunction over the four parameter categories. *)
Definition directory_match (db : DB) (request : Request)
  (p : LawyerProfile.t) : bool :=
  specialization_matches p (given request "specialization")
  && city_matches db p (given request "city")
  && experience_matches p (given request "min_experience")
  && text_matches p (given request "q").

(** The value of a string of decimal digits, [None] when a character
    has no decimal value. *)
Fixpoint decimal_value (s : pystr) (acc : Z) : option Z :=
  match s with
  | [] => Some acc
  | c :: s' =>
      match cp_decimal c with
      | Some d => decimal_value s' (10 * acc + Z.of_N d)
      | None => None
      end
  end.

(** A numeric parameter is well formed when [int] accepts it. *)
Definition parses (o : option pystr) : Prop :=
  forall s, o = Some s -> str_isdigit s = true -> exists n, py_int s = Ok n.

(** The stages of [get_queryset], one per parameter. *)
Definition by_specialization (o : option pystr) (qs : list LawyerProfile.t)
  : list LawyerProfile.t :=
  match o with
  | Some s =>
      List.filter (fun p => pystr_eqb (LawyerProfile.specialization p) s) qs
  | None => qs
  end.

Definition by_city (db : DB) (o : option pystr) (qs : list LawyerProfile.t)
  : Result (list LawyerProfile.t) :=
  match o with
  | Some c =>
      if str_isdigit c then
        rbind (py_int c) (fun n => Ok (join_service_cities db (Z.eqb n) qs))
      else Ok (join_service_cities db (city_named db c) qs)
  | None => Ok qs
  end.

Definition by_experience (o : option pystr) (qs : list LawyerProfile.t)
  : Result (list LawyerProfile.t) :=
  match o with
  | Some m =>
      if str_isdigit m then
        rbind (py_int m) (fun n =>
          Ok (List.filter
                (fun p => n <=? Z.of_N (LawyerProfile.experience_years p)) qs))
      else Ok qs
  | None => Ok qs
  end.

Definition by_text (o : option pystr) (qs : list LawyerProfile.t)
  : list LawyerProfile.t :=
  match o with
  | Some _ => List.filter (fun p => text_matches p o) qs
  | None => qs
  end.
End DirectorySpec.

(** *** Sample data *)

Definition delhi : City.t := City.mk 1 (lit "Delhi").
Definition mumbai : City.t := City.mk 2 (lit "Mumbai").
Definition pune : City.t := City.mk 3 (lit "Pune").
Definition jaipur : City.t := City.mk 4 (lit "Jaipur").
Definition surat : City.t := City.mk 5 (lit "Surat").

Definition lawyer_asha : LawyerProfile.t := profile_of 7 asha "family" 6 3 1.
Definition lawyer_ravi : LawyerProfile.t := profile_of 8 ravi "criminal" 2 0 0.

Definition incident_in (city : string) : option IncidentLocation.t :=
  Some (IncidentLocation.mk 1 (lit city) (lit "State") (lit "Market") None).

Definition residence_in (city : string) : option Residential.t :=
  Some (Residential.mk 1 (lit "12") None (lit city) (lit "State") (lit "110001")).

Definition complaint_of (id : Z) (title : string)
  (incident : option IncidentLocation.t) (residence : option Residential.t)
  (created_at : Z) : Complaint.t :=
  Complaint.mk id 3 (lit "Kiran Das") (lit "9999999999") (lit "ID-1") 0
    (lit title) (lit "what happened") 0 residence incident
    None None None None LAWYERS_ONLY created_at.

(** Two lawyers; Asha serves Delhi and Mumbai.  Four complaints: in
    Delhi, in Mumbai by residence only, in lower-case "delhi", and in
    Pune. *)
Definition sample_db : DB :=
  mkDB [delhi; mumbai; pune; jaipur; surat]
       [lawyer_asha; lawyer_ravi]
       [(7, 1); (7, 2)]
       []
       [ complaint_of 1 "theft" (incident_in "Delhi") (residence_in "Pune") 10;
         complaint_of 2 "fraud" None (residence_in "Mumbai") 30;
         complaint_of 3 "noise" (incident_in "delhi") None 20;
         complaint_of 4 "dispute" (incident_in "Pune") (residence_in "Pune") 40 ]
       1000.

Definition post (u : User.t) (body : list (pystr * pyval)) : Request :=
  mkRequest (Some u) (lit "POST") [] body.

Definition get_with (u : option User.t) (params : list (pystr * pystr))
  : Request :=
  mkRequest u (lit "GET") params [].

(** *** Histories of calls *)

(** One call of the interface: the actions written in [views.py],
    [create] and the update of a profile.  The actions the view set
    only inherits (list, retrieve, destroy) are not among them. *)
Inductive call :=
| Contact (request : Request) (pk : Z)
| AddCity (request : Request) (pk : Z)
| RemoveCity (request : Request) (pk : Z)
| IncrementCases (request : Request) (pk : Z)
| Cases (request : Request)
| SearchCases (request : Request)
| Create (request : Request) (payload : Payload)
| UpdateProfile (instance : LawyerProfile.t) (payload : Payload).

Section Histories.
Context {P : Platform}.
Variable validate_model_fields :
  DB -> list (pystr * pyval) -> Result ValidatedData.

Definition perform (c : call) : M Response :=
  match c with
  | Contact request pk => contact request pk
  | AddCity request pk => add_city request pk
  | RemoveCity request pk => remove_city request pk
  | IncrementCases request pk => increment_cases request pk
  | Cases request => cases request
  | SearchCases request => search_cases request
  | Create request payload => create validate_model_fields request payload
  | UpdateProfile instance payload =>
      update_profile validate_model_fields instance payload
  end.

(** The database after a history of calls, whatever each answered. *)
Definition run (calls : list call) (db : DB) : DB :=
  fold_left (fun db c => snd (perform c db)) calls db.
End Histories.

(** The pairs (account, lawyer) of the contact requests on file. *)
Definition contact_pairs (db : DB) : list (Z * Z) :=
  List.map (fun r => (ContactRequest.user_id r, ContactRequest.lawyer_id r))
           (contactrequest_table db).


(** Number of service cities of a profile. *)
Definition city_count (db : DB) (pk : Z) : nat :=
  List.length (linked_ids (service_cities_table db) pk).

(** *** Auxiliary notions of the proofs *)

(** [preserves R c]: the database after [c] is related by [R] to the one
    before, whether [c] returns or raises. *)
Definition preserves {A} (R : DB -> DB -> Prop) (c : M A) : Prop :=
  forall db, R db (snd (c db)).

(** [unchanged f]: the component [f] of the database stays as it was. *)
Definition unchanged {A} (f : DB -> A) : DB -> DB -> Prop :=
  fun db db' => f db' = f db.

Definition same_pair (user : User.t) (lawyer : LawyerProfile.t)
  (r : ContactRequest.t) : bool :=
  (ContactRequest.user_id r =? User.id user)
  && (ContactRequest.lawyer_id r =? LawyerProfile.id lawyer).

(** The row a first request inserts. *)
Definition new_request (db : DB) (user : User.t) (lawyer : LawyerProfile.t)
  (message : pyval) : ContactRequest.t :=
  ContactRequest.mk
    (fresh_id (List.map ContactRequest.id (contactrequest_table db)))
    (User.id user) (LawyerProfile.id lawyer) (text_value message)
    (lit "pending") (now db).

(** [request.data.get("message", "")]. *)
Definition message_of (request : Request) : pyval :=
  match dict_get (req_data request) (lit "message") with
  | Some v => v
  | None => PStr []
  end.

Definition prod_Z_eq_dec (x y : Z * Z) : {x = y} + {x <> y}.
Proof. decide equality; apply Z.eq_dec. Defined.

(** Validation of the model's fields that accepts any body and keeps no
    field, for running the examples. *)
Definition accept_all (db : DB) (body : list (pystr * pyval))
  : Result ValidatedData :=
  Ok (mkValidated None None None None None None None None None None None).

(** The sample database with Asha's limit of four cities reached. *)
Definition full_db : DB :=
  set_through sample_db [(7, 1); (7, 2); (7, 3); (7, 4)].

Definition added (city : City.t) : Response :=
  mkResponse HTTP_200_OK
    (JDict [(lit "status", JStr (lit "added"));
            (lit "city", CitySerializer city)]).

Definition removed (city : City.t) : Response :=
  mkResponse HTTP_200_OK
    (JDict [(lit "status", JStr (lit "removed"));
            (lit "city", CitySerializer city)]).

(** *** The brief view of a complaint *)

Definition newest_first (l : list Complaint.t) : Prop :=
  StronglySorted
    (fun a b => Complaint.created_at b <= Complaint.created_at a) l.

Definition brief_keys : list pystr :=
  [lit "id"; lit "title"; lit "created_at"; lit "privacy_option";
   lit "incident_city"; lit "residential_city"].

(** A city entry of the brief view: the city when the complaint has the
    location, and otherwise no key or a null. *)
Definition city_entry (city : option pystr) (entry : option json) : Prop :=
  match city with
  | Some s => entry = Some (JStr s)
  | None => entry = None \/ entry = Some JNull
  end.

(** [j] is the brief view of [c]: the six fields and nothing else. *)
Definition is_brief (c : Complaint.t) (j : json) : Prop :=
  exists d,
    j = JDict d /\
    dict_get d (lit "id") = Some (JInt (Complaint.id c)) /\
    dict_get d (lit "title") = Some (JStr (Complaint.title c)) /\
    dict_get d (lit "created_at") = Some (JDateTime (Complaint.created_at c)) /\
    dict_get d (lit "privacy_option")
      = Some (JStr (privacy_value (Complaint.privacy_option c))) /\
    city_entry (city_of_incident c) (dict_get d (lit "incident_city")) /\
    city_entry (city_of_residence c) (dict_get d (lit "residential_city")) /\
    incl (dict_keys d) brief_keys /\
    dict_get d (lit "full_name") = None /\
    dict_get d (lit "govt_id") = None /\
    dict_get d (lit "description") = None /\
    dict_get d (lit "crime_description") = None.

(** The complaint matches one of [names] by its incident city or by its
    residential city, letter for letter. *)
Definition in_one_of (names : list pystr) (c : Complaint.t) : Prop :=
  exists n, In n names /\
            (city_of_incident c = Some n \/ city_of_residence c = Some n).

(** [briefs] lists, newest first and in the brief view, exactly the
    complaints of the database that match [names]. *)
Definition listing (db : DB) (names : list pystr) (briefs : list json) : Prop :=
  exists qs,
    Forall2 is_brief qs briefs /\
    newest_first qs /\
    Permutation qs (List.filter (in_cities names) (complaint_table db)) /\
    forall c, In c qs <-> In c (complaint_table db) /\ in_one_of names c.

(** The tokens of a [cities] parameter: its comma-separated pieces,
    stripped, the empty ones dropped. *)
Definition tokens_of {P : Platform} (cities_param : pystr) : list pystr :=
  List.filter str_truthy (List.map str_strip (split_on 44%N cities_param)).

(** [n] is resolved from the tokens: it is the name of the city whose id
    a numeric token gives, or it is itself a token that is not numeric. *)
Definition resolved_from {P : Platform} (db : DB) (tokens : list pystr)
  (n : pystr) : Prop :=
  (exists t pk c,
     In t tokens /\ str_isdigit t = true /\ py_int t = Ok pk /\
     In c (city_table db) /\ City.id c = pk /\ City.name c = n)
  \/ (In n tokens /\ str_isdigit n = false).

(** Two strings that differ, and only in letter case as the database
    folds it. *)
Definition differs_only_in_case {P : Platform} (a b : pystr) : Prop :=
  a <> b /\ db_fold a = db_fold b.

(** [int(v)] raises nothing but [TypeError] and [ValueError], the two
    exceptions a related field turns into a validation error. *)
Definition converts {P : Platform} (v : pyval) : Prop :=
  forall e, py_int_of v = Raise e -> e = TypeError \/ e = ValueError.

(** The keys a 64-bit key column can be asked for. *)
Definition key_in_range (n : Z) : Prop := - 2 ^ 63 <= n < 2 ^ 63.

(** A value usable as a key in a lookup: [int] raises at most
    [TypeError] or [ValueError] on it, and what it returns is in the
    column's range. *)
Definition usable_key {P : Platform} (v : pyval) : Prop :=
  converts v /\ forall n, py_int_of v = Ok n -> key_in_range n.

(** A complaint about an incident in "delhi", filed by a resident of
    "Mumbai", and the sample database holding it alone. *)
Definition mixed_complaint : Complaint.t :=
  complaint_of 5 "mixed" (incident_in "delhi") (residence_in "Mumbai") 50.

Definition mixed_db : DB :=
  mkDB (city_table sample_db) (lawyerprofile_table sample_db)
       (service_cities_table sample_db) (contactrequest_table sample_db)
       [mixed_complaint] (now sample_db).

(** The complaint is located in the city named [n], by incident or by
    residence. *)
Definition located_in (n : pystr) (c : Complaint.t) : Prop :=
  city_of_incident c = Some n \/ city_of_residence c = Some n.


(* ================================================================== *)
(** ** The remaining actions of the view set *)

From Stdlib Require DecimalPos DecimalN.

(** [SPECIALIZATIONS] of [lawyer/models.py]: keys and labels. *)
Definition SPECIALIZATIONS : list (string * string) :=
  [ ("civil", "Civil Law");
    ("criminal", "Criminal Law");
    ("family", "Family Law");
    ("property", "Property / Real Estate Law");
    ("corporate", "Corporate Law");
    ("business", "Commercial / Business Law");
    ("contract", "Contract Law");
    ("banking", "Banking & Finance Law");
    ("competition", "Competition Law");
    ("insolvency", "Insolvency / Bankruptcy Law");
    ("administrative", "Administrative Law");
    ("constitutional", "Constitutional Law");
    ("human_rights", "Human Rights / Public Interest Law");
    ("environmental", "Environmental Law");
    ("international", "International Law / Trade Law");
    ("immigration", "Immigration Law");
    ("intellectual_property", "Intellectual Property Rights (IPR)");
    ("cyber", "Cyber Law / Data Privacy");
    ("technology", "Technology / IT Law");
    ("fintech", "Fintech, Blockchain & Emerging Tech");
    ("media_entertainment", "Media & Entertainment Law");
    ("labour_employment", "Labour & Employment Law");
    ("tax", "Taxation Law");
    ("consumer_protection", "Consumer Protection Law");
    ("insurance", "Insurance Law");
    ("maritime", "Maritime / Admiralty Law");
    ("personal_injury", "Personal Injury / Tort Law");
    ("space_air", "Space & Air Law");
    ("defense_military", "Military / Armed Forces / Defence Law");
    ("other", "Other") ]%string.

(** [LawyerProfileViewSet.list_specializations]. *)
Definition list_specializations (request : Request) : M Response :=
  ret (mkResponse HTTP_200_OK
         (JList
            (List.map
               (fun kv =>
                  JDict [(lit "key", JStr (lit (fst kv)));
                         (lit "label", JStr (lit (snd kv)))])
               SPECIALIZATIONS))).

(** [a] comes strictly before [b] under
    [order_by("-rating", "-won_cases")]: a higher rating, or the same
    rating and more cases won.  Ratings are compared as the numbers they
    are. *)
Definition ranks_before (a b : LawyerProfile.t) : bool :=
  SFltb (LawyerProfile.rating b) (LawyerProfile.rating a)
  || (SFeqb (LawyerProfile.rating b) (LawyerProfile.rating a)
      && (LawyerProfile.won_cases b <? LawyerProfile.won_cases a)%N).

Fixpoint insert_ranked (p : LawyerProfile.t) (l : list LawyerProfile.t)
  : list LawyerProfile.t :=
  match l with
  | [] => [p]
  | x :: l' =>
      if ranks_before p x then p :: x :: l' else x :: insert_ranked p l'
  end.

(** [order_by("-rating", "-won_cases")], ties kept in queryset order. *)
Definition order_by_rating_won (l : list LawyerProfile.t)
  : list LawyerProfile.t :=
  fold_right insert_ranked [] l.

Section MoreActions.
Context {P : Platform}.
Variable validate_model_fields :
  DB -> list (pystr * pyval) -> Result ValidatedData.

(** The same validation under [partial=True]. *)
Variable validate_model_fields_partial :
  DB -> list (pystr * pyval) -> Result ValidatedData.

(** [LawyerProfileViewSet.top_lawyers]. *)
Definition top_lawyers (request : Request) : M Response :=
  qs <- query_result (fun db => get_queryset db request) ;;
  let qs := firstn 10 (order_by_rating_won qs) in
  data <- query_result (fun db => rmap (LawyerProfileSerializer db) qs) ;;
  ret (mkResponse HTTP_200_OK (JList data)).

Definition is_write (method : pystr) : bool :=
  pystr_eqb method (lit "PUT") || pystr_eqb method (lit "PATCH").

(** [LawyerProfileViewSet.me]; the route admits GET, PUT and PATCH.
    Without a profile, a write validates the body in full and saves
    with [user=request.user]; with one, a write validates (partially for
    PATCH) and saves the instance. *)
Definition me (request : Request) (payload : Payload) : M Response :=
  user <- IsAuthenticated request ;;
  found <- query (fun db => lawyer_profile_of db user) ;;
  match found with
  | None =>
      if is_write (req_method request) then
        validated_data <-
          query_result (fun db => is_valid validate_model_fields db payload) ;;
        profile <- serializer_create request (with_user validated_data user) ;;
        body <- query_result (fun db => LawyerProfileSerializer db profile) ;;
        ret (mkResponse HTTP_201_CREATED body)
      else
        ret (mkResponse HTTP_404_NOT_FOUND (detail "Profile not found."))
  | Some instance =>
      if pystr_eqb (req_method request) (lit "GET") then
        body <- query_result (fun db => LawyerProfileSerializer db instance) ;;
        ret (mkResponse HTTP_200_OK body)
      else
        let partial := pystr_eqb (req_method request) (lit "PATCH") in
        validated_data <-
          query_result (fun db =>
            is_valid
              (if partial then validate_model_fields_partial
               else validate_model_fields)
              db payload) ;;
        profile <- serializer_update instance validated_data ;;
        body <- query_result (fun db => LawyerProfileSerializer db profile) ;;
        ret (mkResponse HTTP_200_OK body)
  end.
End MoreActions.

(** *** Auxiliary notions of the further properties *)

(** The dictionary [d] without the key [k]. *)
Definition without {V} (k : pystr) (d : list (pystr * V)) : list (pystr * V) :=
  List.filter (fun kv => negb (pystr_eqb (fst kv) k)) d.

(** The request with its query parameters replaced. *)
Definition with_params (request : Request) (params : list (pystr * pystr))
  : Request :=
  mkRequest (req_user request) (req_method request) params (req_data request).


(** [a] may stand before [b] under [order_by("-rating", "-won_cases")]:
    [b] does not rank strictly before [a]. *)
Definition rank_order (a b : LawyerProfile.t) : Prop :=
  ranks_before b a = false.

(** The names of the service cities of profile [pk], as [cases] reads
    them. *)
Definition service_city_names (db : DB) (pk : Z) : list pystr :=
  List.map City.name (service_cities db pk).


(** A parameter made of digits is short when it has at most 18 of them:
    its number then fits a 64-bit column, and the literal stays far
    below the interpreter's cap on the digits [int] converts. *)
Definition short_number {P : Platform} (s : pystr) : Prop :=
  str_isdigit s = true -> (List.length s <= 18)%nat.

(* ================================================================== *)
(** * Verification *)

Unset Implicit Arguments.

(** ** Strings *)

Lemma pystr_eqb_eq (a b : pystr) : pystr_eqb a b = true <-> a = b.
Proof.
  revert b. induction a as [|x a IH]; intros [|y b]; cbn; split;
    try congruence; try discriminate.
  - intros H. apply andb_prop in H. destruct H as [H1 H2].
    apply N.eqb_eq in H1. apply IH in H2. congruence.
  - intros H. injection H as -> ->. rewrite N.eqb_refl. cbn.
    apply IH. reflexivity.
Qed.

Lemma pystr_eqb_refl (a : pystr) : pystr_eqb a a = true.
Proof. apply pystr_eqb_eq. reflexivity. Qed.

Lemma str_in_In (x : pystr) (l : list pystr) : str_in x l = true <-> In x l.
Proof.
  unfold str_in. rewrite existsb_exists. split.
  - intros [y [Hy He]]. apply pystr_eqb_eq in He. subst. assumption.
  - intros H. exists x. split; [assumption | apply pystr_eqb_refl].
Qed.

(* ------------------------------------------------------------------ *)
(** ** Floats: the quotient of two column values is finite *)

Lemma digits2_pos_bounds (p : positive) :
  2 ^ (Zpos (digits2_pos p) - 1) <= Zpos p < 2 ^ Zpos (digits2_pos p).
Proof.
  induction p as [p IH | p IH | ]; cbn [digits2_pos].
  - rewrite Pos2Z.inj_succ.
    replace (Z.succ (Zpos (digits2_pos p)) - 1) with (Z.succ (Zpos (digits2_pos p) - 1)) by lia.
    rewrite !Z.pow_succ_r by lia. lia.
  - rewrite Pos2Z.inj_succ.
    replace (Z.succ (Zpos (digits2_pos p)) - 1) with (Z.succ (Zpos (digits2_pos p) - 1)) by lia.
    rewrite !Z.pow_succ_r by lia. lia.
  - cbn. lia.
Qed.

Lemma Zdigits2_upper (m k : Z) : 0 <= m < 2 ^ k -> 0 <= k -> Zdigits2 m <= k.
Proof.
  intros [H0 Hm] Hk. destruct m as [|p|p]; cbn [Zdigits2]; try lia.
  destruct (Z_le_gt_dec (Zpos (digits2_pos p)) k) as [|Hgt]; [assumption|].
  pose proof (digits2_pos_bounds p) as [Hlo _].
  assert (2 ^ k <= 2 ^ (Zpos (digits2_pos p) - 1)) by (apply Z.pow_le_mono_r; lia).
  lia.
Qed.

Lemma Zdigits2_lt (m : Z) : 0 <= m -> m < 2 ^ Zdigits2 m.
Proof.
  intros H. destruct m as [|p|p]; cbn [Zdigits2]; try lia.
  apply digits2_pos_bounds.
Qed.

Lemma Zdigits2_nonneg (m : Z) : 0 <= Zdigits2 m.
Proof. destruct m; cbn; lia. Qed.

Lemma shr_1_half (mrs : shr_record) :
  0 <= shr_m mrs -> shr_m (shr_1 mrs) = shr_m mrs / 2.
Proof.
  destruct mrs as [m r s]. cbn [shr_m]. intros H.
  destruct m as [|[p|p|]|p]; cbn [shr_1 shr_m]; try lia; try reflexivity.
  - apply Z.div_unique with (r := 1); lia.
  - apply Z.div_unique with (r := 0); lia.
Qed.

Lemma iter_shr_1 (p : positive) : forall mrs,
  0 <= shr_m mrs ->
  shr_m (iter_pos shr_1 p mrs) = shr_m mrs / 2 ^ Zpos p.
Proof.
  induction p as [p IH | p IH | ]; intros mrs H; cbn [iter_pos].
  - assert (H1 : 0 <= shr_m (shr_1 mrs)).
    { rewrite shr_1_half by assumption. apply Z.div_pos; lia. }
    assert (H2 : 0 <= shr_m (iter_pos shr_1 p (shr_1 mrs))).
    { rewrite IH by assumption. apply Z.div_pos; [assumption|]. apply Z.pow_pos_nonneg; lia. }
    rewrite IH, IH, shr_1_half by assumption.
    assert (Hp : 0 < 2 ^ Zpos p) by (apply Z.pow_pos_nonneg; lia).
    rewrite !Z.div_div by lia.
    f_equal.
    replace (Zpos p~1) with (1 + Zpos p + Zpos p) by lia.
    rewrite !Z.pow_add_r by lia. lia.
  - assert (H2 : 0 <= shr_m (iter_pos shr_1 p mrs)).
    { rewrite IH by assumption. apply Z.div_pos; [assumption|]. apply Z.pow_pos_nonneg; lia. }
    rewrite IH, IH by assumption.
    assert (Hp : 0 < 2 ^ Zpos p) by (apply Z.pow_pos_nonneg; lia).
    rewrite !Z.div_div by lia.
    f_equal.
    replace (Zpos p~0) with (Zpos p + Zpos p) by lia.
    rewrite !Z.pow_add_r by lia. lia.
  - rewrite shr_1_half by assumption. reflexivity.
Qed.

Lemma shr_record_of_loc_m (m : Z) (l : location) :
  shr_m (shr_record_of_loc m l) = m.
Proof. destruct l as [|[]]; reflexivity. Qed.

Lemma fexp_eq (x : Z) : fexp prec emax x = Z.max (x - 53) (-1074).
Proof. reflexivity. Qed.

Lemma shr_fexp_spec (m e : Z) (l : location) :
  0 <= m ->
  let r := shr_fexp prec emax m e l in
  snd r = Z.max e (fexp prec emax (Zdigits2 m + e)) /\
  shr_m (fst r) = m / 2 ^ (snd r - e).
Proof.
  intros Hm. unfold shr_fexp, shr.
  destruct (fexp prec emax (Zdigits2 m + e) - e) as [|n|n] eqn:Hn; cbn [fst snd].
  - split; [lia|]. rewrite shr_record_of_loc_m.
    replace (e - e) with 0 by lia. rewrite Z.pow_0_r, Z.div_1_r. reflexivity.
  - split; [lia|]. rewrite iter_shr_1 by (rewrite shr_record_of_loc_m; assumption).
    rewrite shr_record_of_loc_m. f_equal. f_equal. lia.
  - split; [lia|]. rewrite shr_record_of_loc_m.
    replace (e - e) with 0 by lia. rewrite Z.pow_0_r, Z.div_1_r. reflexivity.
Qed.

Lemma round_nearest_even_bounds (m : Z) (l : location) :
  m <= round_nearest_even m l <= m + 1.
Proof.
  destruct l as [|[]]; cbn [round_nearest_even]; try lia.
  destruct (Z.even m); lia.
Qed.

Lemma binary_round_aux_finite (s : bool) (mx ex : Z) (lx : location) :
  0 <= mx -> Zdigits2 mx + ex <= 1023 -> ex <= 971 ->
  is_inf (binary_round_aux prec emax s mx ex lx) = false.
Proof.
  intros Hm Hd He. unfold binary_round_aux.
  pose proof (shr_fexp_spec mx ex lx Hm) as S1. cbv zeta in S1.
  destruct (shr_fexp prec emax mx ex lx) as [mrs1 e1]. cbn [fst snd] in S1.
  destruct S1 as [E1 M1].
  set (m2 := round_nearest_even (shr_m mrs1) (loc_of_shr_record mrs1)).
  pose proof (round_nearest_even_bounds (shr_m mrs1) (loc_of_shr_record mrs1)) as B2.
  fold m2 in B2.
  pose proof (Zdigits2_lt mx Hm) as Hlt.
  pose proof (Zdigits2_nonneg mx) as Hd0.
  rewrite fexp_eq in E1.
  assert (Hk : 0 <= e1 - ex) by lia.
  assert (Hpk : 0 < 2 ^ (e1 - ex)) by (apply Z.pow_pos_nonneg; lia).
  assert (Hm1 : 0 <= shr_m mrs1) by (rewrite M1; apply Z.div_pos; lia).
  assert (Hm2 : 0 <= m2) by lia.
  assert (Hdig : Zdigits2 m2 + e1 <= 1024).
  { destruct (Z_le_gt_dec (e1 - ex) (Zdigits2 mx)) as [Hle|Hgt].
    - assert (shr_m mrs1 < 2 ^ (Zdigits2 mx - (e1 - ex))).
      { rewrite M1. apply Z.div_lt_upper_bound; [lia|].
        rewrite <- Z.pow_add_r by lia.
        replace (e1 - ex + (Zdigits2 mx - (e1 - ex))) with (Zdigits2 mx) by lia.
        assumption. }
      assert (Zdigits2 m2 <= Zdigits2 mx - (e1 - ex) + 1).
      { apply Zdigits2_upper; [|lia]. split; [lia|].
        rewrite Z.pow_add_r by lia. change (2 ^ 1) with 2. lia. }
      lia.
    - assert (shr_m mrs1 = 0).
      { rewrite M1. apply Z.div_small. split; [lia|].
        apply Z.lt_le_trans with (1 := Hlt). apply Z.pow_le_mono_r; lia. }
      assert (Zdigits2 m2 <= 1).
      { apply Zdigits2_upper; [|lia]. change (2 ^ 1) with 2. lia. }
      lia. }
  pose proof (shr_fexp_spec m2 e1 loc_Exact Hm2) as S2. cbv zeta in S2.
  destruct (shr_fexp prec emax m2 e1 loc_Exact) as [mrs2 e2]. cbn [fst snd] in S2.
  destruct S2 as [E2 _]. rewrite fexp_eq in E2.
  destruct (shr_m mrs2); try reflexivity.
  replace (e2 <=? emax - prec) with true; [reflexivity|].
  symmetry. apply Z.leb_le. change (emax - prec) with 971. lia.
Qed.

Lemma SFdiv_int_finite (a b : positive) :
  Zpos a < 2 ^ 64 ->
  is_inf (SFdiv prec emax (S754_finite false a 0) (S754_finite false b 0)) = false.
Proof.
  intros Ha. unfold SFdiv, SFdiv_core_binary.
  set (d1 := Zdigits2 (Zpos a)). set (d2 := Zdigits2 (Zpos b)).
  set (e' := Z.min (fexp prec emax (d1 + 0 - (d2 + 0))) (0 - 0)).
  assert (Hd1 : 0 <= d1 <= 64).
  { split; [apply Zdigits2_nonneg|]. apply Zdigits2_upper; lia. }
  assert (Hd2 : 1 <= d2) by (unfold d2; cbn; lia).
  assert (He' : -1074 <= e' <= 0).
  { unfold e'. rewrite fexp_eq. lia. }
  set (m' := match 0 - 0 - e' with
             | Z0 => Zpos a | Zpos _ => Z.shiftl (Zpos a) (0 - 0 - e') | Zneg _ => 0 end).
  assert (Hm' : m' = Zpos a * 2 ^ (- e')).
  { unfold m'. destruct (0 - 0 - e') eqn:Hs.
    - replace (- e') with 0 by lia. rewrite Z.pow_0_r. lia.
    - rewrite Z.shiftl_mul_pow2 by lia. f_equal. f_equal. lia.
    - lia. }
  pose proof (Z_div_mod m' (Zpos b) ltac:(lia)) as Hdm.
  destruct (Z.div_eucl m' (Zpos b)) as [q r].
  destruct Hdm as [Hq Hr].
  assert (Hp : 0 < 2 ^ (- e')) by (apply Z.pow_pos_nonneg; lia).
  assert (Hm'0 : 0 <= m') by (rewrite Hm'; lia).
  assert (Hq0 : 0 <= q) by nia.
  assert (Hqm : q <= m') by nia.
  apply binary_round_aux_finite; [assumption| |lia].
  assert (Zdigits2 q <= d1 + - e'); [|lia].
  apply Zdigits2_upper; [|lia]. split; [lia|].
  rewrite Z.pow_add_r by lia.
  pose proof (Zdigits2_lt (Zpos a) ltac:(lia)) as Hlt. fold d1 in Hlt.
  nia.
Qed.

Lemma int_truediv_nonzero (a b : Z) :
  b <> 0 -> int_truediv a b <> Raise ZeroDivisionError.
Proof.
  intros Hb. unfold int_truediv.
  destruct (b =? 0) eqn:E; [apply Z.eqb_eq in E; contradiction|].
  destruct (is_inf _); discriminate.
Qed.

Lemma int_truediv_total (a b : N) :
  (a <= BIGINT_MAX)%N -> (0 < b)%N ->
  exists q, int_truediv (Z.of_N a) (Z.of_N b) = Ok q.
Proof.
  intros Ha Hb. unfold int_truediv.
  destruct (Z.of_N b =? 0) eqn:E; [apply Z.eqb_eq in E; lia|].
  destruct b as [|pb]; [lia|]. destruct a as [|pa]; cbn [Z.of_N exact_int].
  - eexists. reflexivity.
  - rewrite SFdiv_int_finite; [eexists; reflexivity|].
    unfold BIGINT_MAX in Ha. lia.
Qed.

(* ------------------------------------------------------------------ *)
(** ** C1: the win rate *)

(** C1.  For every profile whose [won_cases] lies in its column's range,
    the win rate is computed from the two counters and stored nowhere:
    it is exactly [0.0] when [total_cases = 0]; when [total_cases > 0]
    the quotient exists and the win rate is
    [round((won_cases / total_cases) * 100, 2)]; in both cases a float is
    returned, no exception, and that float is the [win_rate] entry of the
    serialized profile. *)
Theorem C1_win_rate (db : DB) (obj : LawyerProfile.t) :
  (LawyerProfile.won_cases obj <= BIGINT_MAX)%N ->
  (LawyerProfile.total_cases obj = 0%N -> get_win_rate obj = Ok float_zero) /\
  ((0 < LawyerProfile.total_cases obj)%N ->
     get_win_rate obj =
       win_rate_formula (LawyerProfile.won_cases obj)
                        (LawyerProfile.total_cases obj)) /\
  exists w,
    get_win_rate obj = Ok w /\
    exists d,
      LawyerProfileSerializer db obj = Ok (JDict d) /\
      dict_get d (lit "win_rate") = Some (JFloat w).
Proof.
  intros Hrange.
  assert (Hzero : LawyerProfile.total_cases obj = 0%N ->
                  get_win_rate obj = Ok float_zero).
  { intros H. unfold get_win_rate. rewrite H. reflexivity. }
  assert (Hpos : (0 < LawyerProfile.total_cases obj)%N ->
                 get_win_rate obj =
                   win_rate_formula (LawyerProfile.won_cases obj)
                                    (LawyerProfile.total_cases obj)).
  { intros H. unfold get_win_rate, win_rate_formula.
    destruct (Z.of_N (LawyerProfile.total_cases obj) =? 0) eqn:E;
      [apply Z.eqb_eq in E; lia|].
    cbn [negb].
    destruct (int_truediv_total _ _ Hrange H) as [q Hq].
    rewrite Hq. reflexivity. }
  assert (Hval : exists w, get_win_rate obj = Ok w).
  { destruct (N.eq_dec (LawyerProfile.total_cases obj) 0) as [H0|Hn0].
    - exists float_zero. auto.
    - assert (H : (0 < LawyerProfile.total_cases obj)%N) by lia.
      rewrite (Hpos H). unfold win_rate_formula.
      destruct (int_truediv_total _ _ Hrange H) as [q Hq].
      rewrite Hq. eexists. reflexivity. }
  split; [assumption|]. split; [assumption|].
  destruct Hval as [w Hw]. exists w. split; [assumption|].
  unfold LawyerProfileSerializer. rewrite Hw. cbn [rbind].
  eexists. split; reflexivity.
Qed.

(** One win out of three cases is 33.33; one out of eight is 12.5; one
    out of thirty-two, 3.125 exactly, rounds to the even neighbour 3.12;
    no case at all is 0.0. *)
Example win_rate_samples :
  get_win_rate (profile_of 1 asha "family" 5 3 1)
    = Ok (S754_finite false 4690780486883082 (-47)) /\
  get_win_rate (profile_of 1 asha "family" 5 8 1)
    = Ok (S754_finite false 7036874417766400 (-49)) /\
  get_win_rate (profile_of 1 asha "family" 5 32 1)
    = Ok (S754_finite false 7025615418697974 (-51)) /\
  get_win_rate (profile_of 1 asha "family" 5 0 0) = Ok float_zero.
Proof. vm_compute. repeat split. Qed.

Lemma C1_win_rate_witness :
  (LawyerProfile.won_cases (profile_of 1 asha "family" 5 3 1) <= BIGINT_MAX)%N /\
  get_win_rate (profile_of 1 asha "family" 5 3 1)
    = win_rate_formula 1 3.
Proof.
  assert (R : (LawyerProfile.won_cases (profile_of 1 asha "family" 5 3 1)
               <= BIGINT_MAX)%N) by (vm_compute; discriminate).
  split; [exact R|].
  exact (proj1 (proj2 (C1_win_rate (mkDB [] [] [] [] [] 0)
                         (profile_of 1 asha "family" 5 3 1) R)) eq_refl).
Defined.

(* ------------------------------------------------------------------ *)
(** ** [isdigit] and [int] *)

Section TextFacts.
Context {P : Platform}.

Lemma lstrip_nonspace (c : codepoint) (s : pystr) :
  cp_isspace c = false -> lstrip (c :: s) = c :: s.
Proof. intros H. cbn. rewrite H. reflexivity. Qed.

Lemma lstrip_digits (s : pystr) :
  forallb cp_isdigit s = true -> lstrip s = s.
Proof.
  destruct s as [|c s]; [reflexivity|]. cbn [forallb]. intros H.
  apply andb_prop in H. destruct H as [H _].
  apply lstrip_nonspace, cp_isdigit_not_space, H.
Qed.

Lemma forallb_rev {A} (f : A -> bool) (l : list A) :
  forallb f l = true -> forallb f (rev l) = true.
Proof.
  rewrite !forallb_forall. intros H x Hx. apply H, in_rev, Hx.
Qed.

Lemma str_strip_digits (s : pystr) :
  forallb cp_isdigit s = true -> str_strip s = s.
Proof.
  intros H. unfold str_strip.
  rewrite (lstrip_digits s H), (lstrip_digits _ (forallb_rev _ _ H)).
  apply rev_involutive.
Qed.

(** A character of a digit class is none of [+], [-] and [_]. *)
Lemma digit_not_sign (c : codepoint) :
  cp_isdigit c = true -> c <> 43%N /\ c <> 45%N /\ c <> 95%N.
Proof.
  intros H. repeat split; intros ->;
    rewrite cp_isdigit_ascii in H by reflexivity; discriminate.
Qed.

Lemma int_digits_decimal_aux (s : pystr) : forall acc b,
  forallb cp_isdigit s = true ->
  (s = [] -> b = true) ->
  int_digits s acc b = decimal_value s acc.
Proof.
  induction s as [|c s IH]; intros acc b H Hb.
  - cbn. rewrite Hb by reflexivity. reflexivity.
  - cbn [forallb] in H. apply andb_prop in H. destruct H as [Hc Hs].
    destruct (digit_not_sign c Hc) as [_ [_ Hu]].
    cbn [int_digits decimal_value].
    destruct (N.eqb_spec c 95); [contradiction|].
    destruct (cp_decimal c); [|reflexivity].
    apply IH; auto.
Qed.

Lemma int_digits_decimal (s : pystr) (acc : Z) :
  forallb cp_isdigit s = true -> s <> [] ->
  int_digits s acc false = decimal_value s acc.
Proof.
  intros H Hne. apply int_digits_decimal_aux; [assumption|].
  intros; contradiction.
Qed.

(** On a string that passes [isdigit], [int] returns the decimal value
    when every character has one and raises [ValueError] otherwise. *)
Lemma py_int_isdigit (s : pystr) :
  str_isdigit s = true ->
  py_int s = match decimal_value s 0 with
             | Some n => Ok n
             | None => Raise ValueError
             end.
Proof.
  intros H. unfold str_isdigit in H.
  destruct s as [|c r] eqn:Es; [discriminate|]. rewrite <- Es in *.
  assert (Hne : s <> []) by (rewrite Es; discriminate).
  unfold py_int. rewrite (str_strip_digits _ H).
  assert (Hc : cp_isdigit c = true).
  { rewrite Es in H. cbn [forallb] in H. apply andb_prop in H. tauto. }
  destruct (digit_not_sign c Hc) as [Hp [Hm _]].
  assert (E : match s with
              | 43%N :: r => int_digits r 0 false
              | 45%N :: r => option_map Z.opp (int_digits r 0 false)
              | _ => int_digits s 0 false
              end = int_digits s 0 false).
  { rewrite Es. clear - Hp Hm.
    destruct c as [|p]; [reflexivity|].
    do 6 (destruct p as [p|p|]; try reflexivity); try congruence. }
  rewrite E, (int_digits_decimal s 0 H Hne). reflexivity.
Qed.

Lemma decimal_value_some (s : pystr) : forall acc,
  forallb (fun c => match cp_decimal c with Some _ => true | None => false end) s
    = true ->
  exists n, decimal_value s acc = Some n.
Proof.
  induction s as [|c s IH]; intros acc H; cbn in *.
  - eexists; reflexivity.
  - destruct (cp_decimal c); [|discriminate]. apply IH, H.
Qed.

Lemma decimal_value_none (s : pystr) : forall acc,
  existsb (fun c => match cp_decimal c with Some _ => false | None => true end) s
    = true ->
  decimal_value s acc = None.
Proof.
  induction s as [|c s IH]; intros acc H; cbn in *.
  - discriminate.
  - destruct (cp_decimal c); [|reflexivity]. apply IH, H.
Qed.

(** Parameters written with ASCII characters always parse. *)
Lemma parses_ascii (o : option pystr) :
  (forall s, o = Some s -> forallb is_ascii s = true) -> parses o.
Proof.
  intros Ha s Hs Hd. rewrite (py_int_isdigit s Hd).
  destruct (decimal_value_some s 0) as [n Hn]; [|rewrite Hn; eauto].
  specialize (Ha s Hs). unfold str_isdigit in Hd.
  destruct s as [|c0 r0] eqn:Es; [discriminate|]. rewrite <- Es in *.
  clear Es c0 r0 Hs.
  rewrite forallb_forall in *. intros c Hc.
  specialize (Ha c Hc). specialize (Hd c Hc).
  rewrite cp_isdigit_ascii in Hd by assumption.
  rewrite cp_decimal_ascii by assumption.
  destruct (ascii_digit c); [reflexivity|discriminate].
Qed.
End TextFacts.

(* ------------------------------------------------------------------ *)
(** ** The directory queryset *)

Section DirectoryFacts.
Context {P : Platform}.

Lemma get_queryset_stages (db : DB) (request : Request) :
  get_queryset db request =
    rbind (by_city db (given request "city")
             (by_specialization (given request "specialization")
                (lawyerprofile_table db))) (fun qs =>
    rbind (by_experience (given request "min_experience") qs) (fun qs =>
    Ok (nodup LawyerProfile_eq_dec (by_text (given request "q") qs)))).
Proof.
  unfold get_queryset, given.
  destruct (dict_get (query_params request) (lit "specialization")) as [s|];
    [destruct (str_truthy s)|];
  (destruct (dict_get (query_params request) (lit "city")) as [c|];
    [destruct (str_truthy c)|]);
  (destruct (dict_get (query_params request) (lit "min_experience")) as [m|];
    [destruct (str_truthy m)|]);
  (destruct (dict_get (query_params request) (lit "q")) as [t|];
    [destruct (str_truthy t)|]);
  cbn [by_specialization by_city by_experience by_text andb];
  try reflexivity.
Qed.

Lemma join_service_cities_In (db : DB) (sel : Z -> bool)
  (qs : list LawyerProfile.t) (p : LawyerProfile.t) :
  In p (join_service_cities db sel qs) <->
  In p qs /\
  existsb sel (linked_ids (service_cities_table db) (LawyerProfile.id p))
    = true.
Proof.
  unfold join_service_cities. rewrite in_flat_map. split.
  - intros [x [Hx Hin]]. apply in_map_iff in Hin.
    destruct Hin as [cid [Heq Hcid]]. subst x.
    apply filter_In in Hcid. destruct Hcid as [Hl Hs].
    split; [assumption|]. apply existsb_exists. exists cid. auto.
  - intros [Hp Hex]. apply existsb_exists in Hex.
    destruct Hex as [cid [Hl Hs]]. exists p. split; [assumption|].
    apply in_map_iff. exists cid. split; [reflexivity|].
    apply filter_In. auto.
Qed.

Lemma by_specialization_In (o : option pystr) (qs : list LawyerProfile.t)
  (p : LawyerProfile.t) :
  In p (by_specialization o qs) <->
  In p qs /\ specialization_matches p o = true.
Proof.
  destruct o as [s|]; cbn [by_specialization specialization_matches].
  - apply filter_In.
  - tauto.
Qed.

Lemma by_city_In (db : DB) (o : option pystr)
  (qs qs' : list LawyerProfile.t) (p : LawyerProfile.t) :
  by_city db o qs = Ok qs' ->
  (In p qs' <-> In p qs /\ city_matches db p o = true).
Proof.
  destruct o as [c|]; cbn [by_city city_matches].
  - destruct (str_isdigit c).
    + destruct (py_int c) as [n|e]; cbn [rbind]; [|discriminate].
      intros H. injection H as <-. apply join_service_cities_In.
    + intros H. injection H as <-. apply join_service_cities_In.
  - intros H. injection H as <-. tauto.
Qed.

Lemma by_experience_In (o : option pystr)
  (qs qs' : list LawyerProfile.t) (p : LawyerProfile.t) :
  by_experience o qs = Ok qs' ->
  (In p qs' <-> In p qs /\ experience_matches p o = true).
Proof.
  destruct o as [m|]; cbn [by_experience experience_matches].
  - destruct (str_isdigit m).
    + destruct (py_int m) as [n|e]; cbn [rbind]; [|discriminate].
      intros H. injection H as <-. apply filter_In.
    + intros H. injection H as <-. tauto.
  - intros H. injection H as <-. tauto.
Qed.

Lemma by_text_In (o : option pystr) (qs : list LawyerProfile.t)
  (p : LawyerProfile.t) :
  In p (by_text o qs) <-> In p qs /\ text_matches p o = true.
Proof.
  destruct o as [t|]; cbn [by_text].
  - apply filter_In.
  - cbn. tauto.
Qed.

(** Whatever [get_queryset] returns holds no profile twice and holds
    exactly the profiles of the table that pass the four filters. *)
Lemma get_queryset_spec (db : DB) (request : Request)
  (qs : list LawyerProfile.t) :
  get_queryset db request = Ok qs ->
  NoDup qs /\
  forall p, In p qs <->
    In p (lawyerprofile_table db) /\ directory_match db request p = true.
Proof.
  rewrite get_queryset_stages.
  destruct (by_city db (given request "city") _) as [q1|e] eqn:E1;
    cbn [rbind]; [|discriminate].
  destruct (by_experience (given request "min_experience") q1) as [q2|e] eqn:E2;
    cbn [rbind]; [|discriminate].
  intros H. injection H as <-. split; [apply NoDup_nodup|].
  intros p. rewrite nodup_In, by_text_In, (by_experience_In _ _ _ p E2),
    (by_city_In _ _ _ _ p E1), by_specialization_In.
  unfold directory_match. rewrite !andb_true_iff. tauto.
Qed.

(** [get_queryset] returns whenever [int] accepts the numeric
    parameters. *)
Lemma get_queryset_total (db : DB) (request : Request) :
  parses (given request "city") ->
  parses (given request "min_experience") ->
  exists qs, get_queryset db request = Ok qs.
Proof.
  intros Hc Hm. rewrite get_queryset_stages.
  assert (E1 : exists q1,
    by_city db (given request "city")
      (by_specialization (given request "specialization")
         (lawyerprofile_table db)) = Ok q1).
  { unfold by_city. destruct (given request "city") as [c|];
      [|eexists; reflexivity].
    destruct (str_isdigit c) eqn:D; [|eexists; reflexivity].
    destruct (Hc c eq_refl D) as [n Hn]. rewrite Hn.
    eexists; reflexivity. }
  destruct E1 as [q1 E1]. rewrite E1. cbn [rbind].
  assert (E2 : exists q2,
    by_experience (given request "min_experience") q1 = Ok q2).
  { unfold by_experience. destruct (given request "min_experience") as [m|];
      [|eexists; reflexivity].
    destruct (str_isdigit m) eqn:D; [|eexists; reflexivity].
    destruct (Hm m eq_refl D) as [n Hn]. rewrite Hn.
    eexists; reflexivity. }
  destruct E2 as [q2 E2]. rewrite E2. cbn [rbind].
  eexists; reflexivity.
Qed.

(** A request without query parameters leaves the table unfiltered. *)
Lemma get_queryset_no_params (db : DB) (request : Request) :
  query_params request = [] ->
  get_queryset db request
    = Ok (nodup LawyerProfile_eq_dec (lawyerprofile_table db)).
Proof.
  intros H. rewrite get_queryset_stages. unfold given. rewrite H.
  reflexivity.
Qed.
End DirectoryFacts.

(* ------------------------------------------------------------------ *)
(** ** Running computations *)

Lemma bind_ok {A B} (c : M A) (k : A -> M B) (db db' : DB) (a : A) :
  c db = (Ok a, db') -> bind c k db = k a db'.
Proof. intros H. unfold bind. rewrite H. reflexivity. Qed.

Lemma bind_raise {A B} (c : M A) (k : A -> M B) (db db' : DB) (e : exn) :
  c db = (Raise e, db') -> bind c k db = (Raise e, db').
Proof. intros H. unfold bind. rewrite H. reflexivity. Qed.

Lemma IsAuthenticated_ok (request : Request) (user : User.t) (db : DB) :
  req_user request = Some user -> IsAuthenticated request db = (Ok user, db).
Proof. intros H. unfold IsAuthenticated. rewrite H. reflexivity. Qed.

(* ------------------------------------------------------------------ *)
(** ** Looking up the object of a detail route *)

Section ObjectFacts.
Context {P : Platform}.

Lemma get_object_inv (request : Request) (pk : Z) (db db' : DB)
  (obj : LawyerProfile.t) :
  get_object request pk db = (Ok obj, db') ->
  db' = db /\
  In obj (lawyerprofile_table db) /\
  LawyerProfile.id obj = pk.
Proof.
  unfold get_object, bind, query_result.
  destruct (get_queryset db request) as [qs|e] eqn:Q; [|discriminate].
  destruct (find _ qs) as [o|] eqn:F; cbn; [|discriminate].
  intros H. injection H as -> ->.
  apply find_some in F. destruct F as [Hin Hid].
  apply Z.eqb_eq in Hid.
  apply (get_queryset_spec _ _ _ Q) in Hin. tauto.
Qed.

Lemma get_object_pure (request : Request) (pk : Z) (db db' : DB)
  (r : Result LawyerProfile.t) :
  get_object request pk db = (r, db') -> db' = db.
Proof.
  unfold get_object, bind, query_result.
  destruct (get_queryset db request) as [qs|e];
    [destruct (find _ qs)|]; cbn; intros H; injection H as _ <-; reflexivity.
Qed.

(** Without query parameters, a row of the table is found by its key
    when keys are unique. *)
Lemma get_object_found (request : Request) (db : DB) (obj : LawyerProfile.t) :
  query_params request = [] ->
  NoDup (List.map LawyerProfile.id (lawyerprofile_table db)) ->
  In obj (lawyerprofile_table db) ->
  get_object request (LawyerProfile.id obj) db = (Ok obj, db).
Proof.
  intros Hq Hk Hin. unfold get_object, bind, query_result.
  rewrite (get_queryset_no_params db request Hq).
  destruct (find _ _) as [o|] eqn:F.
  - apply find_some in F. destruct F as [Ho Hid].
    apply nodup_In in Ho. apply Z.eqb_eq in Hid.
    assert (o = obj); [|subst; reflexivity].
    clear - Hk Hin Ho Hid. induction (lawyerprofile_table db) as [|x l IH].
    + contradiction.
    + cbn in Hk. inversion Hk as [|? ? Hx Hl]; subst.
      destruct Hin as [->|Hin], Ho as [->|Ho]; auto.
      * exfalso. apply Hx. rewrite <- Hid. apply in_map. assumption.
      * exfalso. apply Hx. rewrite Hid. apply in_map. assumption.
  - assert (Hn : In obj (nodup LawyerProfile_eq_dec (lawyerprofile_table db)))
      by (apply nodup_In; assumption).
    pose proof (find_none _ _ F obj Hn) as Hf. cbn in Hf.
    rewrite Z.eqb_refl in Hf. discriminate.
Qed.
End ObjectFacts.

Lemma find_updated_row (table : list LawyerProfile.t) (pk : Z)
  (f : LawyerProfile.t -> LawyerProfile.t) (row : LawyerProfile.t) :
  (forall r, LawyerProfile.id (f r) = LawyerProfile.id r) ->
  NoDup (List.map LawyerProfile.id table) ->
  In row table -> LawyerProfile.id row = pk ->
  List.find (fun r => LawyerProfile.id r =? pk)
    (List.map (fun r => if LawyerProfile.id r =? pk then f r else r) table)
  = Some (f row).
Proof.
  intros Hf Hk Hin Hid. induction table as [|x l IH]; [contradiction|].
  cbn in Hk. inversion Hk as [|? ? Hx Hl]; subst.
  cbn [List.map List.find].
  destruct (LawyerProfile.id x =? LawyerProfile.id row) eqn:E.
  - rewrite Hf, E. apply Z.eqb_eq in E.
    destruct Hin as [->|Hin]; [reflexivity|].
    exfalso. apply Hx. rewrite E. apply in_map. assumption.
  - rewrite E. destruct Hin as [->|Hin]; [rewrite Z.eqb_refl in E; discriminate|].
    apply IH; assumption.
Qed.

Lemma existsb_key (table : list LawyerProfile.t) (row : LawyerProfile.t) :
  In row table ->
  existsb (fun r => LawyerProfile.id r =? LawyerProfile.id row) table = true.
Proof.
  intros H. apply existsb_exists. exists row. split; [assumption|].
  apply Z.eqb_refl.
Qed.

(* ------------------------------------------------------------------ *)
(** ** C2: counting a case *)

Lemma bool_cases (b : bool) : b = true \/ b = false.
Proof. destruct b; auto. Qed.

(** C2.  For every profile reached by an authenticated request, with
    counters below the maxima of their columns (so that the incremented
    values can be stored), and every value of [won]: [total_cases] grows
    by exactly 1; [won_cases] grows by exactly 1 if and only if
    [str(won).lower()] is one of ["true"], ["1"], ["yes"], and is
    unchanged otherwise; the response reports the two stored counters
    and no other table changes. *)
Theorem C2_increment_cases {P : Platform} (db : DB) (request : Request)
  (pk : Z) (user : User.t) (profile : LawyerProfile.t) :
  req_user request = Some user ->
  NoDup (List.map LawyerProfile.id (lawyerprofile_table db)) ->
  get_object request pk db = (Ok profile, db) ->
  (LawyerProfile.total_cases profile < INTEGER_MAX)%N ->
  (LawyerProfile.won_cases profile < BIGINT_MAX)%N ->
  let won := data_get request "won" in
  let truthy := In (str_lower (py_str won)) [lit "true"; lit "1"; lit "yes"] in
  exists db' row,
    increment_cases request pk db =
      (Ok (mkResponse HTTP_200_OK
             (JDict
                [(lit "total_cases", JInt (Z.of_N (LawyerProfile.total_cases row)));
                 (lit "won_cases", JInt (Z.of_N (LawyerProfile.won_cases row)))])),
       db') /\
    refresh_from_db pk db' = (Ok row, db') /\
    LawyerProfile.total_cases row = (LawyerProfile.total_cases profile + 1)%N /\
    (truthy ->
       LawyerProfile.won_cases row = (LawyerProfile.won_cases profile + 1)%N) /\
    (~ truthy ->
       LawyerProfile.won_cases row = LawyerProfile.won_cases profile) /\
    (LawyerProfile.won_cases row = (LawyerProfile.won_cases profile + 1)%N
       <-> truthy) /\
    service_cities_table db' = service_cities_table db /\
    contactrequest_table db' = contactrequest_table db /\
    complaint_table db' = complaint_table db /\
    (LawyerProfile.total_cases row <= INTEGER_MAX)%N /\
    (LawyerProfile.won_cases row <= BIGINT_MAX)%N.
Proof.
  intros Hu Hk Hobj Htmax Hwmax won truthy.
  destruct (get_object_inv _ _ _ _ _ Hobj) as [_ [Hin Hid]].
  set (flag := won_flag_of won).
  set (total := F_plus LawyerProfile.total_cases 1).
  set (wonv := if flag then F_plus LawyerProfile.won_cases 1
               else Plain (LawyerProfile.won_cases profile)).
  set (upd := fun row : LawyerProfile.t =>
                with_counters row (evaluate row total) (evaluate row wonv)).
  set (db' := set_profiles db
                (List.map (fun row => if LawyerProfile.id row =? pk
                                      then upd row else row)
                          (lawyerprofile_table db))).
  assert (Hfind : List.find (fun r => LawyerProfile.id r =? pk)
                    (lawyerprofile_table db') = Some (upd profile)).
  { unfold db'. cbn [lawyerprofile_table set_profiles].
    apply find_updated_row; auto. }
  assert (Hflag : flag = true <-> truthy).
  { unfold flag, won_flag_of, truthy. apply str_in_In. }
  exists db', (upd profile).
  assert (Hsave : save_counters (LawyerProfile.id profile) total wonv db
                  = (Ok tt, db')).
  { unfold save_counters, bind, query. rewrite (existsb_key _ _ Hin).
    unfold update. rewrite Hid. reflexivity. }
  assert (Hrefresh : refresh_from_db (LawyerProfile.id profile) db'
                     = (Ok (upd profile), db')).
  { unfold refresh_from_db, bind, query. rewrite Hid, Hfind. reflexivity. }
  split.
  { unfold increment_cases.
    rewrite (bind_ok _ _ _ _ _ (IsAuthenticated_ok _ _ db Hu)). cbv beta zeta.
    rewrite (bind_ok _ _ _ _ _ Hobj).
    fold won. fold flag. fold total. fold wonv.
    rewrite (bind_ok _ _ _ _ _ Hsave).
    rewrite (bind_ok _ _ _ _ _ Hrefresh). reflexivity. }
  split.
  { rewrite <- Hid. exact Hrefresh. }
  assert (Hwon_t : truthy ->
            LawyerProfile.won_cases (upd profile)
              = (LawyerProfile.won_cases profile + 1)%N).
  { intros Ht. apply Hflag in Ht. unfold upd, wonv. rewrite Ht. reflexivity. }
  assert (Hwon_f : ~ truthy ->
            LawyerProfile.won_cases (upd profile)
              = LawyerProfile.won_cases profile).
  { intros Ht. unfold upd, wonv. destruct flag eqn:E.
    - exfalso. apply Ht, Hflag. reflexivity.
    - reflexivity. }
  assert (Htot : LawyerProfile.total_cases (upd profile)
                 = (LawyerProfile.total_cases profile + 1)%N) by reflexivity.
  assert (Hin_range :
            (LawyerProfile.total_cases (upd profile) <= INTEGER_MAX)%N /\
            (LawyerProfile.won_cases (upd profile) <= BIGINT_MAX)%N).
  { split; [rewrite Htot; lia|].
    destruct (bool_cases flag) as [E|E].
    - rewrite (Hwon_t (proj1 Hflag E)). lia.
    - rewrite Hwon_f; [lia|]. intros Ht. apply Hflag in Ht. congruence. }
  destruct Hin_range as [Hr1 Hr2].
  repeat split; auto.
  intros Heq. destruct flag eqn:E; [apply Hflag; reflexivity|].
  assert (Hn : ~ truthy) by (intros Ht; apply Hflag in Ht; discriminate).
  rewrite (Hwon_f Hn) in Heq. lia.
Qed.

(** The flag on every platform: the three spellings, in any
    letter case, and the values [True] and [1] count as won; ["false"],
    [None], [0] and [1.0] do not. *)
Lemma won_flag_samples {P : Platform} :
  won_flag_of (PStr (lit "true")) = true /\
  won_flag_of (PStr (lit "TRUE")) = true /\
  won_flag_of (PStr (lit "1")) = true /\
  won_flag_of (PStr (lit "Yes")) = true /\
  won_flag_of (PBool true) = true /\
  won_flag_of (PInt 1) = true /\
  won_flag_of (PStr (lit "false")) = false /\
  won_flag_of PNone = false /\
  won_flag_of (PInt 0) = false /\
  won_flag_of (POther (lit "float") (lit "1.0") true (Ok 1)) = false.
Proof.
  unfold won_flag_of.
  repeat split; rewrite str_lower_ascii by reflexivity; reflexivity.
Qed.

Lemma sample_keys_unique :
  NoDup (List.map LawyerProfile.id (lawyerprofile_table sample_db)).
Proof.
  cbn. repeat constructor; cbn; intuition discriminate.
Defined.

(** From [total_cases = 3], [won_cases = 1]: [won = "true"] gives 4 and
    2, [won = "false"] gives 4 and 1. *)
Example increment_cases_samples :
  fst (increment_cases (post ravi [(lit "won", PStr (lit "true"))]) 7 sample_db)
    = Ok (mkResponse 200
            (JDict [(lit "total_cases", JInt 4); (lit "won_cases", JInt 2)])) /\
  fst (increment_cases (post ravi [(lit "won", PStr (lit "false"))]) 7 sample_db)
    = Ok (mkResponse 200
            (JDict [(lit "total_cases", JInt 4); (lit "won_cases", JInt 1)])).
Proof. split; vm_compute; reflexivity. Qed.

Lemma C2_increment_cases_witness :
  exists db' row,
    refresh_from_db 7 db' = (Ok row, db') /\
    fst (increment_cases (post ravi [(lit "won", PStr (lit "true"))]) 7 sample_db)
      = Ok (mkResponse 200
              (JDict [(lit "total_cases", JInt (Z.of_N (LawyerProfile.total_cases row)));
                      (lit "won_cases", JInt (Z.of_N (LawyerProfile.won_cases row)))])) /\
    LawyerProfile.total_cases row = 4%N /\
    LawyerProfile.won_cases row = 2%N.
Proof.
  destruct (C2_increment_cases sample_db
              (post ravi [(lit "won", PStr (lit "true"))]) 7 ravi lawyer_asha
              eq_refl sample_keys_unique eq_refl eq_refl eq_refl)
    as [db' [row [Hrun [Hrow [Htotal [Hwon _]]]]]].
  exists db', row. split; [exact Hrow|]. split; [rewrite Hrun; reflexivity|].
  split; [exact Htotal|].
  apply Hwon. cbn. left. reflexivity.
Defined.

(* ------------------------------------------------------------------ *)
(** ** What a computation leaves untouched *)

Section Preservation.
Variable R : DB -> DB -> Prop.
Hypothesis R_refl : forall db, R db db.
Hypothesis R_trans : forall a b c, R a b -> R b c -> R a c.

Lemma preserves_ret {A} (a : A) : preserves R (ret a).
Proof. intros db. apply R_refl. Qed.

Lemma preserves_raise {A} (e : exn) : preserves R (@raise A e).
Proof. intros db. apply R_refl. Qed.

Lemma preserves_query {A} (f : DB -> A) : preserves R (query f).
Proof. intros db. apply R_refl. Qed.

Lemma preserves_query_result {A} (f : DB -> Result A) :
  preserves R (query_result f).
Proof. intros db. apply R_refl. Qed.

Lemma preserves_bind {A B} (c : M A) (k : A -> M B) :
  preserves R c -> (forall a, preserves R (k a)) -> preserves R (bind c k).
Proof.
  intros Hc Hk db. unfold bind. specialize (Hc db).
  destruct (c db) as [[a|e] db1]; cbn in *.
  - apply R_trans with db1; [assumption|]. apply Hk.
  - assumption.
Qed.

Lemma preserves_try {A} (c h : M A) (catches : exn -> bool) :
  preserves R c -> preserves R h -> preserves R (try_except c catches h).
Proof.
  intros Hc Hh db. unfold try_except. specialize (Hc db).
  destruct (c db) as [[a|e] db1]; cbn in *; [assumption|].
  destruct (catches e); [|assumption].
  apply R_trans with db1; [assumption|]. apply Hh.
Qed.

Lemma preserves_update (f : DB -> DB) :
  (forall db, R db (f db)) -> preserves R (update f).
Proof. intros H db. apply H. Qed.
End Preservation.

(** Walks through a computation, leaving one goal per [update]. *)
Ltac preserve R_refl R_trans :=
  repeat
    match goal with
    | |- preserves _ (ret _) => apply (preserves_ret _ R_refl)
    | |- preserves _ (raise _) => apply (preserves_raise _ R_refl)
    | |- preserves _ (query _) => apply (preserves_query _ R_refl)
    | |- preserves _ (query_result _) =>
        apply (preserves_query_result _ R_refl)
    | |- preserves _ (bind _ _) =>
        apply (preserves_bind _ R_trans); [|intros ?]
    | |- preserves _ (try_except _ _ _) => apply (preserves_try _ R_trans)
    | |- preserves _ (update _) => apply preserves_update; intros ?
    | |- preserves _ (match ?x with _ => _ end) => destruct x
    | |- preserves _ (let _ := _ in _) => cbv zeta
    end.

Lemma unchanged_refl {A} (f : DB -> A) : forall db, unchanged f db db.
Proof. reflexivity. Qed.

Lemma unchanged_trans {A} (f : DB -> A) :
  forall a b c, unchanged f a b -> unchanged f b c -> unchanged f a c.
Proof. unfold unchanged. intros a b c H1 H2. congruence. Qed.

Ltac untouched f :=
  preserve (unchanged_refl f) (unchanged_trans f); try reflexivity.

Section Frames.
Context {P : Platform}.
Variable validate_model_fields :
  DB -> list (pystr * pyval) -> Result ValidatedData.

Lemma IsAuthenticated_preserves (R : DB -> DB -> Prop) (request : Request) :
  (forall db, R db db) -> preserves R (IsAuthenticated request).
Proof.
  intros H db. unfold IsAuthenticated. destruct (req_user request); apply H.
Qed.

Lemma add_city_contacts (request : Request) (pk : Z) :
  preserves (unchanged contactrequest_table) (add_city request pk).
Proof.
  unfold add_city, get_city_or_404, get_object, IsAuthenticated.
  untouched contactrequest_table.
Qed.

Lemma remove_city_contacts (request : Request) (pk : Z) :
  preserves (unchanged contactrequest_table) (remove_city request pk).
Proof.
  unfold remove_city, get_city_or_404, get_object, IsAuthenticated.
  untouched contactrequest_table.
Qed.

Lemma increment_cases_contacts (request : Request) (pk : Z) :
  preserves (unchanged contactrequest_table) (increment_cases request pk).
Proof.
  unfold increment_cases, save_counters, refresh_from_db, get_object,
    IsAuthenticated.
  untouched contactrequest_table.
Qed.

Lemma cases_contacts (request : Request) :
  preserves (unchanged contactrequest_table) (cases request).
Proof.
  unfold cases, brief_list, IsAuthenticated.
  untouched contactrequest_table.
Qed.

Lemma search_cases_contacts (request : Request) :
  preserves (unchanged contactrequest_table) (search_cases request).
Proof.
  unfold search_cases, brief_list, IsAuthenticated.
  untouched contactrequest_table.
Qed.

Lemma create_contacts (request : Request) (payload : Payload) :
  preserves (unchanged contactrequest_table)
    (create validate_model_fields request payload).
Proof.
  unfold create, perform_create, serializer_create, LawyerProfile_create,
    set_service_cities, IsAuthenticated.
  untouched contactrequest_table.
Qed.

Lemma update_profile_contacts (instance : LawyerProfile.t) (payload : Payload) :
  preserves (unchanged contactrequest_table)
    (update_profile validate_model_fields instance payload).
Proof.
  unfold update_profile, serializer_update, save_profile, set_service_cities.
  untouched contactrequest_table.
Qed.
End Frames.

(* ------------------------------------------------------------------ *)
(** ** C3: one contact request per account and lawyer *)

Lemma same_pair_In (user : User.t) (lawyer : LawyerProfile.t) (db : DB) :
  existsb (same_pair user lawyer) (contactrequest_table db) = true <->
  In (User.id user, LawyerProfile.id lawyer) (contact_pairs db).
Proof.
  unfold contact_pairs, same_pair. rewrite existsb_exists, in_map_iff. split.
  - intros [r [Hr H]]. exists r. split; [|assumption].
    apply andb_prop in H. destruct H as [H1 H2].
    apply Z.eqb_eq in H1. apply Z.eqb_eq in H2. congruence.
  - intros [r [H Hr]]. exists r. split; [assumption|].
    injection H as H1 H2. rewrite H1, H2, !Z.eqb_refl. reflexivity.
Qed.

Section ContactFacts.
Context {P : Platform}.

Lemma ContactRequest_create_new (db : DB) (user : User.t)
  (lawyer : LawyerProfile.t) (message : pyval) :
  ~ In (User.id user, LawyerProfile.id lawyer) (contact_pairs db) ->
  ContactRequest_create user lawyer message db =
    (Ok (new_request db user lawyer message),
     set_contact_requests db
       (contactrequest_table db ++ [new_request db user lawyer message])).
Proof.
  intros H. unfold ContactRequest_create, bind, query.
  fold (same_pair user lawyer).
  destruct (existsb _ _) eqn:E; [apply same_pair_In in E; contradiction|].
  reflexivity.
Qed.

Lemma ContactRequest_create_again (db : DB) (user : User.t)
  (lawyer : LawyerProfile.t) (message : pyval) :
  In (User.id user, LawyerProfile.id lawyer) (contact_pairs db) ->
  ContactRequest_create user lawyer message db = (Raise IntegrityError, db).
Proof.
  intros H. unfold ContactRequest_create, bind, query.
  fold (same_pair user lawyer).
  apply same_pair_In in H. rewrite H. reflexivity.
Qed.

Lemma contact_first (db : DB) (request : Request) (pk : Z) (user : User.t)
  (lawyer : LawyerProfile.t) :
  req_user request = Some user ->
  get_object request pk db = (Ok lawyer, db) ->
  ~ In (User.id user, LawyerProfile.id lawyer) (contact_pairs db) ->
  contact request pk db =
    (Ok (mkResponse HTTP_201_CREATED
           (ContactRequestSerializer
              (new_request db user lawyer (message_of request)))),
     set_contact_requests db
       (contactrequest_table db
          ++ [new_request db user lawyer (message_of request)])).
Proof.
  intros Hu Hobj Hnew. unfold contact.
  rewrite (bind_ok _ _ _ _ _ (IsAuthenticated_ok _ _ db Hu)).
  rewrite (bind_ok _ _ _ _ _ Hobj). cbv zeta. fold (message_of request).
  unfold bind at 1, try_except, bind at 1.
  rewrite (ContactRequest_create_new _ _ _ _ Hnew). reflexivity.
Qed.

Lemma contact_again (db : DB) (request : Request) (pk : Z) (user : User.t)
  (lawyer : LawyerProfile.t) :
  req_user request = Some user ->
  get_object request pk db = (Ok lawyer, db) ->
  In (User.id user, LawyerProfile.id lawyer) (contact_pairs db) ->
  contact request pk db =
    (Ok (mkResponse HTTP_400_BAD_REQUEST (detail "Request already sent.")), db).
Proof.
  intros Hu Hobj Hold. unfold contact.
  rewrite (bind_ok _ _ _ _ _ (IsAuthenticated_ok _ _ db Hu)).
  rewrite (bind_ok _ _ _ _ _ Hobj). cbv zeta. fold (message_of request).
  unfold bind at 1, try_except, bind at 1.
  rewrite (ContactRequest_create_again _ _ _ _ Hold). reflexivity.
Qed.


Lemma NoDup_snoc {A} (l : list A) (x : A) :
  NoDup l -> ~ In x l -> NoDup (l ++ [x]).
Proof.
  intros Hl Hx. induction Hl as [|y l Hy Hl IH]; cbn.
  - constructor; [intros []|constructor].
  - constructor.
    + rewrite in_app_iff. cbn. intros [H|[H|[]]]; [contradiction|].
      subst. apply Hx. left. reflexivity.
    + apply IH. intros H. apply Hx. right. assumption.
Qed.

End ContactFacts.


Section ContactInvariant.
Context {P : Platform}.
Variable validate_model_fields :
  DB -> list (pystr * pyval) -> Result ValidatedData.


End ContactInvariant.



(* ------------------------------------------------------------------ *)
(** ** The service-city links *)

Lemma zmem_In (x : Z) (l : list Z) : zmem x l = true <-> In x l.
Proof.
  unfold zmem. rewrite existsb_exists. split.
  - intros [y [Hy E]]. apply Z.eqb_eq in E. subst. assumption.
  - intros H. exists x. split; [assumption|apply Z.eqb_refl].
Qed.

Lemma linked_ids_In (through : list (Z * Z)) (pid cid : Z) :
  In cid (linked_ids through pid) <-> In (pid, cid) through.
Proof.
  unfold linked_ids. rewrite in_map_iff. split.
  - intros [[p c] [E H]]. apply filter_In in H. destruct H as [H Hp].
    cbn in *. apply Z.eqb_eq in Hp. subst. assumption.
  - intros H. exists (pid, cid). split; [reflexivity|].
    apply filter_In. split; [assumption|]. apply Z.eqb_refl.
Qed.

Lemma linked_ids_app (t1 t2 : list (Z * Z)) (pid : Z) :
  linked_ids (t1 ++ t2) pid = linked_ids t1 pid ++ linked_ids t2 pid.
Proof. unfold linked_ids. rewrite filter_app, map_app. reflexivity. Qed.

(** Adding a city that is linked already changes nothing. *)
Lemma m2m_add_present (through : list (Z * Z)) (pid cid : Z) :
  In cid (linked_ids through pid) -> m2m_add through pid [cid] = through.
Proof.
  intros H. unfold m2m_add. cbn.
  rewrite (proj2 (zmem_In _ _) H). cbn. apply app_nil_r.
Qed.

(** Adding a city that is not linked appends one link. *)
Lemma m2m_add_absent (through : list (Z * Z)) (pid cid : Z) :
  ~ In cid (linked_ids through pid) ->
  m2m_add through pid [cid] = through ++ [(pid, cid)].
Proof.
  intros H. unfold m2m_add. cbn.
  destruct (zmem cid (linked_ids through pid)) eqn:E;
    [apply zmem_In in E; contradiction|reflexivity].
Qed.

Lemma filter_all {A} (f : A -> bool) (l : list A) :
  (forall x, In x l -> f x = true) -> List.filter f l = l.
Proof.
  induction l as [|a l IH]; intros H; cbn; [reflexivity|].
  rewrite (H a (or_introl eq_refl)). f_equal. apply IH.
  intros x Hx. apply H. right. assumption.
Qed.

(** Removing a city that is not linked changes nothing. *)
Lemma m2m_remove_absent (through : list (Z * Z)) (pid cid : Z) :
  ~ In cid (linked_ids through pid) -> m2m_remove through pid [cid] = through.
Proof.
  intros H. unfold m2m_remove. apply filter_all. intros [p c] Hin. cbn.
  destruct (p =? pid) eqn:Ep; [|reflexivity].
  destruct (c =? cid) eqn:Ec; [|reflexivity].
  apply Z.eqb_eq in Ep. apply Z.eqb_eq in Ec. subst.
  exfalso. apply H, linked_ids_In, Hin.
Qed.

(** After a removal the city is not linked. *)
Lemma m2m_remove_not_linked (through : list (Z * Z)) (pid cid : Z) :
  ~ In cid (linked_ids (m2m_remove through pid [cid]) pid).
Proof.
  rewrite linked_ids_In. unfold m2m_remove. rewrite filter_In. cbn.
  rewrite !Z.eqb_refl. cbn. intros [_ H]. discriminate.
Qed.

(** After an addition the city is linked. *)
Lemma m2m_add_linked (through : list (Z * Z)) (pid cid : Z) :
  In cid (linked_ids (m2m_add through pid [cid]) pid).
Proof.
  destruct (in_dec Z.eq_dec cid (linked_ids through pid)) as [H|H].
  - rewrite (m2m_add_present _ _ _ H). assumption.
  - rewrite (m2m_add_absent _ _ _ H), linked_ids_In, in_app_iff.
    right. left. reflexivity.
Qed.

(** An addition never makes a link appear twice. *)
Lemma m2m_add_NoDup (through : list (Z * Z)) (pid cid : Z) :
  NoDup through -> NoDup (m2m_add through pid [cid]).
Proof.
  intros Hn. destruct (in_dec Z.eq_dec cid (linked_ids through pid)) as [H|H].
  - rewrite (m2m_add_present _ _ _ H). assumption.
  - rewrite (m2m_add_absent _ _ _ H). apply NoDup_snoc; [assumption|].
    intros Hin. apply H, linked_ids_In, Hin.
Qed.

(** Adding an unlinked city and removing it again restores the table. *)
Lemma m2m_add_remove (through : list (Z * Z)) (pid cid : Z) :
  ~ In cid (linked_ids through pid) ->
  m2m_remove (m2m_add through pid [cid]) pid [cid] = through.
Proof.
  intros H. rewrite (m2m_add_absent _ _ _ H). unfold m2m_remove.
  rewrite filter_app. cbn. rewrite !Z.eqb_refl. cbn. rewrite app_nil_r.
  apply (m2m_remove_absent _ _ _ H).
Qed.

Section CityActions.
Context {P : Platform}.

Lemma find_by_key (table : list City.t) (city : City.t) :
  NoDup (List.map City.id table) -> In city table ->
  List.find (fun c => City.id c =? City.id city) table = Some city.
Proof.
  intros Hk Hin. induction table as [|x l IH]; [contradiction|].
  cbn in Hk. inversion Hk as [|? ? Hx Hl]; subst. cbn [List.find].
  destruct (City.id x =? City.id city) eqn:E.
  - apply Z.eqb_eq in E. destruct Hin as [->|Hin]; [reflexivity|].
    exfalso. apply Hx. rewrite E. apply in_map. assumption.
  - destruct Hin as [->|Hin]; [rewrite Z.eqb_refl in E; discriminate|].
    apply IH; assumption.
Qed.

Lemma get_city_or_404_found (db : DB) (city : City.t) :
  NoDup (List.map City.id (city_table db)) -> In city (city_table db) ->
  get_city_or_404 (PInt (City.id city)) db = (Ok city, db).
Proof.
  intros Hk Hin. unfold get_city_or_404, bind, query_result, query. cbn.
  rewrite (find_by_key _ _ Hk Hin). reflexivity.
Qed.

Lemma add_city_run (db : DB) (request : Request) (pk : Z) (user : User.t)
  (city : City.t) (profile : LawyerProfile.t) :
  req_user request = Some user ->
  py_truthy (data_get request "city_id") = true ->
  get_city_or_404 (data_get request "city_id") db = (Ok city, db) ->
  get_object request pk db = (Ok profile, db) ->
  add_city request pk db =
    (Ok (added city),
     set_through db
       (m2m_add (service_cities_table db) (LawyerProfile.id profile)
                [City.id city])).
Proof.
  intros Hu Ht Hc Ho. unfold add_city.
  rewrite (bind_ok _ _ _ _ _ (IsAuthenticated_ok _ _ db Hu)). cbv zeta.
  rewrite Ht. cbn [negb].
  rewrite (bind_ok _ _ _ _ _ Hc), (bind_ok _ _ _ _ _ Ho). reflexivity.
Qed.

Lemma remove_city_run (db : DB) (request : Request) (pk : Z) (user : User.t)
  (city : City.t) (profile : LawyerProfile.t) :
  req_user request = Some user ->
  py_truthy (data_get request "city_id") = true ->
  get_city_or_404 (data_get request "city_id") db = (Ok city, db) ->
  get_object request pk db = (Ok profile, db) ->
  remove_city request pk db =
    (Ok (removed city),
     set_through db
       (m2m_remove (service_cities_table db) (LawyerProfile.id profile)
                   [City.id city])).
Proof.
  intros Hu Ht Hc Ho. unfold remove_city.
  rewrite (bind_ok _ _ _ _ _ (IsAuthenticated_ok _ _ db Hu)). cbv zeta.
  rewrite Ht. cbn [negb].
  rewrite (bind_ok _ _ _ _ _ Hc), (bind_ok _ _ _ _ _ Ho). reflexivity.
Qed.
End CityActions.

(* ------------------------------------------------------------------ *)
(** ** C7: adding and removing a service city *)

(** C7.  For every profile and every city of the database, addressed by
    an authenticated request that carries the city's id: [add_city]
    answers success and leaves the city linked, without a second link
    and without any change when it was linked already; [remove_city]
    answers success and leaves the city unlinked, without any change
    when it was not linked; and on a profile without service cities,
    [add_city] followed by [remove_city] for the same id leaves the
    profile without service cities again. *)
Theorem C7_add_remove_city {P : Platform} (db : DB) (request : Request)
  (user : User.t) (profile : LawyerProfile.t) (city : City.t) :
  req_user request = Some user ->
  query_params request = [] ->
  data_get request "city_id" = PInt (City.id city) ->
  City.id city <> 0 ->
  NoDup (List.map City.id (city_table db)) ->
  In city (city_table db) ->
  NoDup (List.map LawyerProfile.id (lawyerprofile_table db)) ->
  In profile (lawyerprofile_table db) ->
  let pk := LawyerProfile.id profile in
  let linked d := linked_ids (service_cities_table d) pk in
  exists db_added db_removed db_round,
    add_city request pk db = (Ok (added city), db_added) /\
    In (City.id city) (linked db_added) /\
    (In (City.id city) (linked db) ->
       service_cities_table db_added = service_cities_table db) /\
    (NoDup (service_cities_table db) -> NoDup (service_cities_table db_added)) /\
    remove_city request pk db = (Ok (removed city), db_removed) /\
    ~ In (City.id city) (linked db_removed) /\
    (~ In (City.id city) (linked db) ->
       service_cities_table db_removed = service_cities_table db) /\
    remove_city request pk db_added = (Ok (removed city), db_round) /\
    (linked db = [] -> linked db_round = [] /\ city_count db_round pk = 0%nat).
Proof.
  intros Hu Hq Hd Hnz Hck Hc Hpk Hp pk linked.
  assert (Ht : py_truthy (data_get request "city_id") = true).
  { rewrite Hd. cbn. apply negb_true_iff, Z.eqb_neq, Hnz. }
  assert (Hcity : forall d, city_table d = city_table db ->
            get_city_or_404 (data_get request "city_id") d = (Ok city, d)).
  { intros d E. rewrite Hd. apply get_city_or_404_found; rewrite E; assumption. }
  assert (Hobj : forall d, lawyerprofile_table d = lawyerprofile_table db ->
            get_object request pk d = (Ok profile, d)).
  { intros d E. apply get_object_found; [assumption| |]; rewrite E; assumption. }
  set (db_added := set_through db
         (m2m_add (service_cities_table db) pk [City.id city])).
  exists db_added,
    (set_through db (m2m_remove (service_cities_table db) pk [City.id city])),
    (set_through db_added
       (m2m_remove (service_cities_table db_added) pk [City.id city])).
  split.
  { apply add_city_run with (user := user); auto. }
  split.
  { apply m2m_add_linked. }
  split.
  { intros H. apply m2m_add_present, H. }
  split.
  { apply m2m_add_NoDup. }
  split.
  { apply remove_city_run with (user := user); auto. }
  split.
  { apply m2m_remove_not_linked. }
  split.
  { intros H. apply m2m_remove_absent, H. }
  split.
  { apply remove_city_run with (user := user); auto. }
  intros Hnone.
  assert (Hfresh : ~ In (City.id city) (linked db)) by (rewrite Hnone; intros []).
  unfold linked, city_count, db_added. cbn [service_cities_table set_through].
  rewrite (m2m_add_remove _ _ _ Hfresh). fold (linked db). rewrite Hnone.
  split; reflexivity.
Qed.

Lemma sample_city_keys_unique :
  NoDup (List.map City.id (city_table sample_db)).
Proof. cbn. repeat constructor; cbn; intuition discriminate. Defined.

Lemma C7_add_remove_city_witness :
  let request := post ravi [(lit "city_id", PInt 3)] in
  exists db_added db_round,
    add_city request 8 sample_db = (Ok (added pune), db_added) /\
    remove_city request 8 db_added = (Ok (removed pune), db_round) /\
    city_count db_round 8 = 0%nat.
Proof.
  intros request.
  destruct (C7_add_remove_city sample_db request ravi lawyer_ravi pune
              eq_refl eq_refl eq_refl ltac:(discriminate)
              sample_city_keys_unique ltac:(cbn; tauto)
              sample_keys_unique ltac:(cbn; tauto))
    as [da [dr [dd [H1 [_ [_ [_ [_ [_ [_ [H2 H3]]]]]]]]]]].
  exists da, dd. split; [exact H1|]. split; [exact H2|].
  apply H3. reflexivity.
Defined.

(** Removing a city the profile does not serve answers success and
    changes nothing; adding one it serves already does the same. *)
Example city_noop_samples :
  remove_city (post asha [(lit "city_id", PInt 5)]) 7 sample_db
    = (Ok (removed surat), sample_db) /\
  add_city (post asha [(lit "city_id", PInt 2)]) 7 sample_db
    = (Ok (added mumbai), sample_db).
Proof. split; vm_compute; reflexivity. Qed.

(* ------------------------------------------------------------------ *)
(** ** C4: the limit of four service cities *)

(** The serializer's check: a list passes exactly when it has at most
    four cities. *)
Lemma validate_service_city_ids_spec (value : list City.t) :
  (List.length value <= 4)%nat /\ validate_service_city_ids value = Ok value
  \/
  (4 < List.length value)%nat /\
  validate_service_city_ids value
    = Raise (ValidationError (JList [JStr (lit "You can select up to 4 cities.")])).
Proof.
  unfold validate_service_city_ids.
  destruct value as [|c value]; [left; split; [cbn; lia|reflexivity]|].
  destruct (4 <? Z.of_nat (List.length (c :: value))) eqn:E.
  - right. apply Z.ltb_lt in E. split; [lia|reflexivity].
  - left. apply Z.ltb_ge in E. split; [lia|reflexivity].
Qed.

Section CityLimit.
Context {P : Platform}.
Variable validate_model_fields :
  DB -> list (pystr * pyval) -> Result ValidatedData.

Lemma rmap_length {A B} (f : A -> Result B) (l : list A) (r : list B) :
  rmap f l = Ok r -> List.length r = List.length l.
Proof.
  revert r. induction l as [|a l IH]; intros r; cbn.
  - intros H. injection H as <-. reflexivity.
  - destruct (f a) as [b|e]; cbn; [|discriminate].
    destruct (rmap f l) as [bs|e]; cbn; [|discriminate].
    intros H. injection H as <-. cbn. f_equal. apply IH. reflexivity.
Qed.

Lemma related_city_error (db : DB) (v : pyval) (e : exn) :
  converts v ->
  related_city db v = Raise e -> is_ValidationError e = true.
Proof.
  intros Hc. unfold related_city, does_not_exist, incorrect_type.
  destruct v; try (intros H; injection H as <-; reflexivity);
    (destruct (py_int_of _) as [pk|e'] eqn:E;
     [destruct (find _ _); intros H; try discriminate;
      injection H as <-; reflexivity|]);
    (destruct (Hc e' E) as [-> | ->]; intros H; injection H as <-;
     reflexivity).
Qed.

Lemma rmap_error {A B} (f : A -> Result B) (l : list A) (e : exn)
  (Q : exn -> Prop) :
  (forall a e, In a l -> f a = Raise e -> Q e) -> rmap f l = Raise e -> Q e.
Proof.
  induction l as [|a l IH]; intros Hf; cbn; [discriminate|].
  destruct (f a) as [b|e1] eqn:E; cbn.
  - destruct (rmap f l) as [bs|e2]; cbn; [discriminate|].
    intros H. injection H as <-. apply IH; [|reflexivity].
    intros a0 e0 Hin. apply Hf. right. exact Hin.
  - intros H. injection H as <-. apply (Hf a); [left; reflexivity|exact E].
Qed.

(** More than four ids never pass the field [service_city_ids]: it
    raises, and what it raises is a validation error when [int] raises
    nothing but [TypeError] and [ValueError] on the ids. *)
Lemma service_city_ids_over_limit (db : DB) (ids : list pyval) :
  (4 < List.length ids)%nat ->
  exists e,
    service_city_ids_field db ids = Raise e /\
    ((forall v, In v ids -> converts v) -> is_ValidationError e = true).
Proof.
  intros H. unfold service_city_ids_field.
  destruct (rmap (related_city db) ids) as [cs|e] eqn:E; cbn.
  - apply rmap_length in E.
    destruct (validate_service_city_ids_spec cs) as [[Hl _]|[_ Hr]];
      [lia|]. rewrite Hr. eexists; split; reflexivity.
  - exists e. split; [reflexivity|]. intros Hc.
    apply (rmap_error _ _ _ (fun e => is_ValidationError e = true)) in E;
      [exact E|].
    intros v e0 Hin. apply related_city_error, Hc, Hin.
Qed.

Lemma service_city_ids_field_error (db : DB) (ids : list pyval) (e : exn) :
  (forall v, In v ids -> converts v) ->
  service_city_ids_field db ids = Raise e -> is_ValidationError e = true.
Proof.
  intros Hc. unfold service_city_ids_field.
  destruct (rmap (related_city db) ids) as [cs|e1] eqn:E; cbn.
  - destruct (validate_service_city_ids_spec cs) as [[_ Hr]|[_ Hr]];
      rewrite Hr; intros H; [discriminate|]. injection H as <-. reflexivity.
  - intros H. injection H as <-.
    apply (rmap_error _ _ _ (fun e => is_ValidationError e = true)) in E;
      [exact E|].
    intros v e0 Hin. apply related_city_error, Hc, Hin.
Qed.

(** What a passed validation holds: the model's fields as validated,
    and the cities of [service_city_ids] when the body has the key. *)
Lemma is_valid_ok (db : DB) (payload : Payload) (vd : ValidatedData) :
  is_valid validate_model_fields db payload = Ok vd ->
  exists vd0,
    validate_model_fields db (other_entries payload) = Ok vd0 /\
    ((service_city_ids payload = None /\ vd = with_service_cities vd0 None)
     \/ exists ids cs,
          service_city_ids payload = Some ids /\
          service_city_ids_field db ids = Ok cs /\
          vd = with_service_cities vd0 (Some cs)).
Proof.
  unfold is_valid. cbv zeta.
  destruct (validate_model_fields db (other_entries payload)) as [vd0|e].
  - destruct (service_city_ids payload) as [ids|].
    + destruct (service_city_ids_field db ids) as [cs|e] eqn:E; cbn [rbind].
      * intros H. injection H as <-. exists vd0. split; [reflexivity|].
        right. exists ids, cs. auto.
      * destruct e; discriminate.
    + intros H. injection H as <-. exists vd0. split; [reflexivity|].
      left. auto.
  - destruct e; try discriminate.
    destruct (service_city_ids payload) as [ids|]; [|discriminate].
    destruct (service_city_ids_field db ids) as [cs|e]; cbn [rbind];
      [discriminate|]. destruct e; discriminate.
Qed.

(** A body whose [service_city_ids] the field refuses does not pass. *)
Lemma is_valid_cities_raise (db : DB) (payload : Payload)
  (ids : list pyval) (e : exn) :
  service_city_ids payload = Some ids ->
  service_city_ids_field db ids = Raise e ->
  exists e', is_valid validate_model_fields db payload = Raise e'.
Proof.
  intros Hids He.
  destruct (is_valid validate_model_fields db payload) as [vd|e'] eqn:E;
    [|eexists; reflexivity].
  destruct (is_valid_ok _ _ _ E) as [vd0 [_ [[Hn _]|[ids' [cs [Hi [Hf _]]]]]]];
    congruence.
Qed.

(** Validation raises nothing but validation errors, when the
    validation of the model's fields does and [int] raises nothing but
    [TypeError] and [ValueError] on the ids. *)
Lemma is_valid_error (db : DB) (payload : Payload) (e : exn) :
  (forall body e, validate_model_fields db body = Raise e ->
                  is_ValidationError e = true) ->
  (forall ids v, service_city_ids payload = Some ids -> In v ids ->
                 converts v) ->
  is_valid validate_model_fields db payload = Raise e ->
  is_ValidationError e = true.
Proof.
  intros Hval Hc. unfold is_valid. cbv zeta.
  assert (Hf : forall ids e2, service_city_ids payload = Some ids ->
            service_city_ids_field db ids = Raise e2 ->
            is_ValidationError e2 = true).
  { intros ids e2 Hi. apply service_city_ids_field_error.
    intros v. apply (Hc ids v Hi). }
  destruct (validate_model_fields db (other_entries payload)) as [vd|e1] eqn:E1.
  - destruct (service_city_ids payload) as [ids|]; [|discriminate].
    destruct (service_city_ids_field db ids) as [cs|e2] eqn:E2;
      cbn [rbind]; [discriminate|].
    pose proof (Hf ids e2 eq_refl E2) as H2.
    destruct e2; try discriminate. intros H. injection H as <-. reflexivity.
  - pose proof (Hval _ _ E1) as H1. destruct e1; try discriminate.
    destruct (service_city_ids payload) as [ids|].
    + destruct (service_city_ids_field db ids) as [cs|e2] eqn:E2;
        cbn [rbind].
      * intros H. injection H as <-. reflexivity.
      * pose proof (Hf ids e2 eq_refl E2) as H2.
        destruct e2; try discriminate. intros H. injection H as <-.
        reflexivity.
    + intros H. injection H as <-. reflexivity.
Qed.

(** An update with more than four ids is rejected and writes nothing. *)
Lemma update_profile_over_limit (db : DB) (instance : LawyerProfile.t)
  (payload : Payload) (ids : list pyval) :
  service_city_ids payload = Some ids ->
  (4 < List.length ids)%nat ->
  exists e,
    update_profile validate_model_fields instance payload db = (Raise e, db).
Proof.
  intros Hids Hlen. unfold update_profile, bind, query_result.
  destruct (service_city_ids_over_limit db ids Hlen) as [e [He _]].
  destruct (is_valid_cities_raise db payload ids e Hids He) as [e' ->].
  eexists; reflexivity.
Qed.

(** Creating a profile through [perform_create] never gets past the
    insert: [save(user=user)] puts [user] among the validated data and
    [create] passes it a second time. *)
Lemma perform_create_clash (db : DB) (request : Request) (user : User.t)
  (validated_data : ValidatedData) :
  req_user request = Some user ->
  has_lawyer_profile db user = false ->
  perform_create request validated_data db
    = (Raise TypeError, db).
Proof.
  intros Hu Hn. unfold perform_create. rewrite Hu.
  unfold bind at 1, query. rewrite Hn.
  unfold serializer_create. rewrite Hu.
  unfold bind at 1, query. rewrite Hn. reflexivity.
Qed.
End CityLimit.

(** C4 (fails on the code).  [add_city] never looks at the number of
    service cities: on a profile that has four, an authenticated request
    for a fifth answers success and the profile then has five. *)
Theorem C4_add_city_beyond_four :
  city_count full_db 7 = 4%nat /\
  exists db',
    add_city (post asha [(lit "city_id", PInt 5)]) 7 full_db
      = (Ok (added surat), db') /\
    city_count db' 7 = 5%nat.
Proof.
  split; [reflexivity|]. eexists. split; vm_compute; reflexivity.
Qed.

(** With exactly four ids an update succeeds and links the four cities;
    with five it is rejected. *)
Example update_profile_samples :
  (exists body db',
     update_profile accept_all lawyer_ravi
       (mkPayload (Some [PInt 1; PInt 2; PInt 3; PInt 4]) []) sample_db
       = (Ok (mkResponse 200 body), db') /\
     linked_ids (service_cities_table db') 8 = [1; 2; 3; 4]) /\
  update_profile accept_all lawyer_ravi
    (mkPayload (Some [PInt 1; PInt 2; PInt 3; PInt 4; PInt 5]) []) sample_db
    = (Raise (ValidationError
                (JDict [(lit "service_city_ids",
                         JList [JStr (lit "You can select up to 4 cities.")])])),
       sample_db).
Proof.
  split.
  - eexists. eexists. split; vm_compute; reflexivity.
  - vm_compute. reflexivity.
Qed.

(* ------------------------------------------------------------------ *)
(** ** C8: one profile per account *)

(** C8 (as amended).  For every account that owns a profile:
    [perform_create], and [LawyerProfileSerializer.create] behind it,
    raise the validation error "Profile already exists for this user."
    before any insert, whatever the validated data.  The create action
    answers with that conflict for every payload that passes the
    serializer's validation, and with the error of the validation for a
    payload that does not; either way it ends in an exception and leaves
    the database as it was, so no second row for the account appears. *)
Theorem C8_second_profile_rejected {P : Platform}
  (validate_model_fields : DB -> list (pystr * pyval) -> Result ValidatedData)
  (db : DB) (request : Request) (user : User.t) (payload : Payload) :
  req_user request = Some user ->
  has_lawyer_profile db user = true ->
  let conflict :=
    ValidationError (detail "Profile already exists for this user.") in
  (forall validated_data,
     perform_create request validated_data db = (Raise conflict, db)) /\
  (forall validated_data,
     serializer_create request validated_data db = (Raise conflict, db)) /\
  (forall validated_data,
     is_valid validate_model_fields db payload = Ok validated_data ->
     create validate_model_fields request payload db = (Raise conflict, db)) /\
  (forall e,
     is_valid validate_model_fields db payload = Raise e ->
     create validate_model_fields request payload db = (Raise e, db)) /\
  (exists e,
     create validate_model_fields request payload db = (Raise e, db)) /\
  lawyerprofile_table (snd (create validate_model_fields request payload db))
    = lawyerprofile_table db.
Proof.
  intros Hu Hp conflict.
  assert (H1 : forall vd, perform_create request vd db = (Raise conflict, db)).
  { intros vd. unfold perform_create. rewrite Hu.
    unfold bind, query. rewrite Hp. reflexivity. }
  assert (H2 : forall vd, serializer_create request vd db = (Raise conflict, db)).
  { intros vd. unfold serializer_create. rewrite Hu.
    unfold bind, query. rewrite Hp. reflexivity. }
  assert (H3 : forall vd,
            is_valid validate_model_fields db payload = Ok vd ->
            create validate_model_fields request payload db
              = (Raise conflict, db)).
  { intros vd Hv. unfold create.
    rewrite (bind_ok _ _ _ _ _ (IsAuthenticated_ok _ _ db Hu)).
    rewrite (bind_ok _ _ db db vd) by (unfold query_result; rewrite Hv; reflexivity).
    rewrite (bind_raise _ _ _ _ _ (H1 vd)). reflexivity. }
  assert (H4 : forall e,
            is_valid validate_model_fields db payload = Raise e ->
            create validate_model_fields request payload db = (Raise e, db)).
  { intros e Hv. unfold create.
    rewrite (bind_ok _ _ _ _ _ (IsAuthenticated_ok _ _ db Hu)).
    apply bind_raise. unfold query_result. rewrite Hv. reflexivity. }
  assert (H5 : exists e,
            create validate_model_fields request payload db = (Raise e, db)).
  { destruct (is_valid validate_model_fields db payload) as [vd|e] eqn:Ev.
    - eexists. apply (H3 vd eq_refl).
    - eexists. apply (H4 e eq_refl). }
  repeat split; try assumption.
  destruct H5 as [e ->]. reflexivity.
Qed.

Lemma accept_all_errors (db : DB) (body : list (pystr * pyval)) (e : exn) :
  accept_all db body = Raise e -> is_ValidationError e = true.
Proof. discriminate. Defined.

Lemma C8_second_profile_rejected_witness :
  create accept_all
    (post asha [(lit "license_number", PStr (lit "NEW-1"))])
    (mkPayload (Some [PInt 1]) [(lit "license_number", PStr (lit "NEW-1"))])
    sample_db
  = (Raise (ValidationError (detail "Profile already exists for this user.")),
     sample_db).
Proof.
  exact (proj1 (proj2 (proj2
    (C8_second_profile_rejected accept_all sample_db
       (post asha [(lit "license_number", PStr (lit "NEW-1"))]) asha
       (mkPayload (Some [PInt 1]) [(lit "license_number", PStr (lit "NEW-1"))])
       eq_refl eq_refl)))
    _ eq_refl).
Defined.

(** C8 (the statement as first written fails).  The body is validated
    before the existence check: Asha, who owns a profile, posts five
    city ids and is answered with the error of the field
    [service_city_ids], not with the conflict. *)
Lemma C8_invalid_payload_not_conflict :
  let request := post asha [] in
  let payload :=
    mkPayload (Some [PInt 1; PInt 2; PInt 3; PInt 4; PInt 5]) [] in
  req_user request = Some asha /\
  has_lawyer_profile sample_db asha = true /\
  create accept_all request payload sample_db
    = (Raise (ValidationError
                (JDict [(lit "service_city_ids",
                         JList [JStr (lit "You can select up to 4 cities.")])])),
       sample_db) /\
  create accept_all request payload sample_db
    <> (Raise (ValidationError
                 (detail "Profile already exists for this user.")),
        sample_db).
Proof.
  intros request payload. split; [reflexivity|]. split; [reflexivity|].
  split; [vm_compute; reflexivity|].
  intros H. vm_compute in H. discriminate.
Qed.

(* ------------------------------------------------------------------ *)
(** ** C5: the directory filter *)

Section DirectoryBug.
Context {P : Platform}.

(** A numeric parameter that passes [isdigit] with a character that has
    no decimal value makes [get_queryset] raise [ValueError]. *)
Lemma get_queryset_city_value_error (db : DB) (request : Request) (c : pystr) :
  given request "city" = Some c ->
  str_isdigit c = true ->
  decimal_value c 0 = None ->
  get_queryset db request = Raise ValueError.
Proof.
  intros Hg Hd Hv. rewrite get_queryset_stages, Hg. unfold by_city.
  rewrite Hd, (py_int_isdigit c Hd), Hv. reflexivity.
Qed.

End DirectoryBug.

(** C5 (fails on the code).  The superscript two, U+00B2, passes
    [str.isdigit] and is refused by [int]: with [city] or
    [min_experience] set to it, [get_queryset] raises [ValueError]
    instead of returning a filtered set. *)
Theorem C5_directory_digit_crash :
  str_isdigit [178%N] = true /\
  py_int [178%N] = Raise ValueError /\
  get_queryset sample_db (get_with None [(lit "city", [178%N])])
    = Raise ValueError /\
  get_queryset sample_db (get_with None [(lit "min_experience", [178%N])])
    = Raise ValueError.
Proof. repeat split; vm_compute; reflexivity. Qed.

(** Filtering by specialization, and by specialization and experience
    together; a city by id and by name in another letter case. *)
Example directory_samples :
  get_queryset sample_db (get_with None [(lit "specialization", lit "family")])
    = Ok [lawyer_asha] /\
  get_queryset sample_db
    (get_with None [(lit "specialization", lit "family");
                    (lit "min_experience", lit "5")])
    = Ok [lawyer_asha] /\
  get_queryset sample_db
    (get_with None [(lit "specialization", lit "family");
                    (lit "min_experience", lit "7")])
    = Ok [] /\
  get_queryset sample_db (get_with None [(lit "city", lit "2")])
    = Ok [lawyer_asha] /\
  get_queryset sample_db (get_with None [(lit "city", lit "MUMBAI")])
    = Ok [lawyer_asha] /\
  get_queryset sample_db (get_with None [(lit "q", lit "meh")])
    = Ok [lawyer_ravi].
Proof. repeat split; vm_compute; reflexivity. Qed.

(* ------------------------------------------------------------------ *)
(** ** Ordering by creation time *)

Lemma insert_newest_perm (c : Complaint.t) (l : list Complaint.t) :
  Permutation (insert_newest c l) (c :: l).
Proof.
  induction l as [|x l IH]; cbn; [reflexivity|].
  destruct (Complaint.created_at x <? Complaint.created_at c); [reflexivity|].
  rewrite IH. apply perm_swap.
Qed.

Lemma order_by_created_at_desc_perm (l : list Complaint.t) :
  Permutation (order_by_created_at_desc l) l.
Proof.
  induction l as [|c l IH]; cbn; [reflexivity|].
  rewrite insert_newest_perm. apply perm_skip, IH.
Qed.

Lemma insert_newest_sorted (c : Complaint.t) (l : list Complaint.t) :
  newest_first l -> newest_first (insert_newest c l).
Proof.
  unfold newest_first. intros H. induction H as [|x l Hl IH Hx]; cbn.
  - constructor; constructor.
  - destruct (Complaint.created_at x <? Complaint.created_at c) eqn:E.
    + apply Z.ltb_lt in E. constructor; [constructor; assumption|].
      constructor; [lia|].
      rewrite Forall_forall in *. intros y Hy. specialize (Hx y Hy). lia.
    + apply Z.ltb_ge in E. constructor; [assumption|].
      rewrite Forall_forall in *. intros y Hy.
      apply (Permutation_in _ (insert_newest_perm c l)) in Hy.
      destruct Hy as [<-|Hy]; [assumption|apply Hx, Hy].
Qed.

Lemma order_by_created_at_desc_sorted (l : list Complaint.t) :
  newest_first (order_by_created_at_desc l).
Proof.
  induction l as [|c l IH]; cbn.
  - constructor.
  - apply insert_newest_sorted, IH.
Qed.

Lemma column_in_iff (col : option pystr) (names : list pystr) :
  column_in col names = true <-> exists n, In n names /\ col = Some n.
Proof.
  destruct col as [s|]; cbn.
  - rewrite str_in_In. split.
    + intros H. exists s. auto.
    + intros [n [H E]]. injection E as ->. assumption.
  - split; [discriminate|]. intros [n [_ E]]. discriminate.
Qed.

Lemma in_cities_iff (names : list pystr) (c : Complaint.t) :
  in_cities names c = true <-> in_one_of names c.
Proof.
  unfold in_cities, in_one_of. rewrite orb_true_iff, !column_in_iff. split.
  - intros [[n [H E]]|[n [H E]]]; exists n; auto.
  - intros [n [H [E|E]]]; [left|right]; exists n; auto.
Qed.

(** The query returns, newest first, exactly the matching complaints. *)
Lemma complaints_in_cities_spec (db : DB) (names : list pystr) :
  newest_first (complaints_in_cities db names) /\
  Permutation (complaints_in_cities db names)
              (List.filter (in_cities names) (complaint_table db)) /\
  forall c, In c (complaints_in_cities db names) <->
            In c (complaint_table db) /\ in_one_of names c.
Proof.
  unfold complaints_in_cities. split; [apply order_by_created_at_desc_sorted|].
  split; [apply order_by_created_at_desc_perm|].
  intros c. rewrite <- in_cities_iff, <- filter_In. split.
  - apply Permutation_in, order_by_created_at_desc_perm.
  - apply Permutation_in, Permutation_sym, order_by_created_at_desc_perm.
Qed.

(* ------------------------------------------------------------------ *)
(** ** C9: the brief view is total *)

Section Brief.
Context {P : Platform}.

Lemma ComplaintBriefSerializer_brief (c : Complaint.t) :
  exists j, ComplaintBriefSerializer c = Ok j /\ is_brief c j.
Proof.
  unfold ComplaintBriefSerializer, get_attribute, is_brief,
    city_of_incident, city_of_residence.
  destruct (Complaint.incident_location c) as [i|],
           (Complaint.residential_address c) as [r|],
           none_short_circuit;
    cbn; eexists; (split; [reflexivity|]); eexists;
    (split; [reflexivity|]);
    repeat split; auto;
    intros k Hk; cbn in Hk; unfold brief_keys; cbn; tauto.
Qed.

Lemma rmap_brief (qs : list Complaint.t) :
  exists briefs,
    rmap ComplaintBriefSerializer qs = Ok briefs /\
    Forall2 is_brief qs briefs.
Proof.
  induction qs as [|c qs [bs [Hbs Hf]]]; cbn.
  - exists []. split; [reflexivity|constructor].
  - destruct (ComplaintBriefSerializer_brief c) as [j [Hj Hb]].
    rewrite Hj, Hbs. cbn. exists (j :: bs). split; [reflexivity|].
    constructor; assumption.
Qed.

Lemma brief_list_run (db : DB) (qs : list Complaint.t) :
  exists briefs,
    brief_list qs db = (Ok (mkResponse HTTP_200_OK (JList briefs)), db) /\
    Forall2 is_brief qs briefs.
Proof.
  destruct (rmap_brief qs) as [bs [Hbs Hf]]. exists bs.
  split; [|assumption].
  unfold brief_list, bind, query_result. rewrite Hbs. reflexivity.
Qed.
End Brief.

(** C9.  Serializing the brief view never raises: for every complaint it
    yields a dictionary; a complaint without incident location (or
    without residential address) gets no [incident_city]
    ([residential_city]) key, or a null under releases that stop at
    [None], and a complaint with the location gets its city; so the whole
    list returned by the query of [cases] and [search_cases], for any
    set of names, is serialized. *)
Theorem C9_brief_view_total {P : Platform} (db : DB) (names : list pystr) :
  (forall c,
     exists d,
       ComplaintBriefSerializer c = Ok (JDict d) /\
       (Complaint.incident_location c = None ->
          dict_get d (lit "incident_city") = None \/
          dict_get d (lit "incident_city") = Some JNull) /\
       (Complaint.residential_address c = None ->
          dict_get d (lit "residential_city") = None \/
          dict_get d (lit "residential_city") = Some JNull) /\
       (forall i, Complaint.incident_location c = Some i ->
          dict_get d (lit "incident_city")
            = Some (JStr (IncidentLocation.city i))) /\
       (forall r, Complaint.residential_address c = Some r ->
          dict_get d (lit "residential_city")
            = Some (JStr (Residential.city r)))) /\
  exists briefs,
    rmap ComplaintBriefSerializer (complaints_in_cities db names) = Ok briefs /\
    Forall2 is_brief (complaints_in_cities db names) briefs /\
    brief_list (complaints_in_cities db names) db
      = (Ok (mkResponse HTTP_200_OK (JList briefs)), db).
Proof.
  split.
  - intros c. destruct (ComplaintBriefSerializer_brief c) as [j [Hj Hb]].
    destruct Hb as [d [-> [_ [_ [_ [_ [Hi [Hr _]]]]]]]].
    exists d. split; [assumption|].
    unfold city_of_incident, city_of_residence in *.
    repeat split.
    + intros E. rewrite E in Hi. exact Hi.
    + intros E. rewrite E in Hr. exact Hr.
    + intros i E. rewrite E in Hi. exact Hi.
    + intros r E. rewrite E in Hr. exact Hr.
  - destruct (rmap_brief (complaints_in_cities db names)) as [bs [Hbs Hf]].
    exists bs. repeat split; try assumption.
    unfold brief_list, bind, query_result. rewrite Hbs. reflexivity.
Qed.

Lemma C9_brief_view_total_witness :
  exists d,
    ComplaintBriefSerializer
      (complaint_of 2 "fraud" None (residence_in "Mumbai") 30) = Ok (JDict d) /\
    (dict_get d (lit "incident_city") = None \/
     dict_get d (lit "incident_city") = Some JNull) /\
    dict_get d (lit "residential_city") = Some (JStr (lit "Mumbai")).
Proof.
  destruct (proj1 (C9_brief_view_total sample_db [lit "Mumbai"])
              (complaint_of 2 "fraud" None (residence_in "Mumbai") 30))
    as [d [H1 [H2 [_ [_ H3]]]]].
  exists d. split; [exact H1|]. split; [exact (H2 eq_refl)|].
  exact (H3 _ eq_refl).
Defined.

(** On a current release the key of a missing location is absent. *)
Example brief_samples :
  ComplaintBriefSerializer
    (complaint_of 2 "fraud" None (residence_in "Mumbai") 30)
  = Ok (JDict [(lit "id", JInt 2); (lit "title", JStr (lit "fraud"));
               (lit "created_at", JDateTime 30);
               (lit "privacy_option", JStr (lit "LAWYERS_ONLY"));
               (lit "residential_city", JStr (lit "Mumbai"))]).
Proof. vm_compute. reflexivity. Qed.

(* ------------------------------------------------------------------ *)
(** ** C6: the complaints of a lawyer's cities *)

Section CaseSearch.
Context {P : Platform}.

Lemma cases_forbidden (db : DB) (request : Request) (user : User.t) :
  req_user request = Some user ->
  lawyer_profile_of db user = None ->
  cases request db =
    (Ok (mkResponse HTTP_403_FORBIDDEN (detail "Lawyer profile required.")),
     db).
Proof.
  intros Hu Hn. unfold cases.
  rewrite (bind_ok _ _ _ _ _ (IsAuthenticated_ok _ _ db Hu)).
  unfold bind, query. rewrite Hn. reflexivity.
Qed.

Lemma cases_run (db : DB) (request : Request) (user : User.t)
  (profile : LawyerProfile.t) :
  req_user request = Some user ->
  lawyer_profile_of db user = Some profile ->
  cases request db =
    brief_list
      (complaints_in_cities db
         (List.map City.name (service_cities db (LawyerProfile.id profile))))
      db.
Proof.
  intros Hu Hp. unfold cases.
  rewrite (bind_ok _ _ _ _ _ (IsAuthenticated_ok _ _ db Hu)).
  unfold bind at 1, query. rewrite Hp. reflexivity.
Qed.

Lemma search_cases_empty (db : DB) (request : Request) (user : User.t) :
  req_user request = Some user ->
  resolve_names db (dict_get (query_params request) (lit "cities")) = Ok [] ->
  search_cases request db =
    (Ok (mkResponse HTTP_400_BAD_REQUEST
           (detail "Provide cities by id or name.")), db).
Proof.
  intros Hu Hr. unfold search_cases.
  rewrite (bind_ok _ _ _ _ _ (IsAuthenticated_ok _ _ db Hu)).
  unfold bind, query_result. rewrite Hr. reflexivity.
Qed.

Lemma search_cases_run (db : DB) (request : Request) (user : User.t)
  (names : list pystr) :
  req_user request = Some user ->
  resolve_names db (dict_get (query_params request) (lit "cities"))
    = Ok names ->
  names <> [] ->
  search_cases request db = brief_list (complaints_in_cities db names) db.
Proof.
  intros Hu Hr Hne. unfold search_cases.
  rewrite (bind_ok _ _ _ _ _ (IsAuthenticated_ok _ _ db Hu)).
  unfold bind at 1, query_result. rewrite Hr.
  destruct names; [contradiction|reflexivity].
Qed.

Lemma rmap_In {A B} (f : A -> Result B) (l : list A) (r : list B) :
  rmap f l = Ok r ->
  forall y, In y r <-> exists x, In x l /\ f x = Ok y.
Proof.
  revert r. induction l as [|a l IH]; intros r; cbn.
  - intros H. injection H as <-. intros y. split; [intros []|].
    intros [x [[] _]].
  - destruct (f a) as [b|e] eqn:Ea; cbn; [|discriminate].
    destruct (rmap f l) as [bs|e]; cbn; [|discriminate].
    intros H. injection H as <-. intros y. cbn. rewrite (IH bs eq_refl y).
    split.
    + intros [<-|[x [Hx Hy]]]; [exists a; auto|exists x; auto].
    + intros [x [[<-|Hx] Hy]].
      * left. congruence.
      * right. exists x. auto.
Qed.

(** The names [search_cases] works with are exactly those resolved from
    the tokens of its parameter. *)
Lemma resolve_names_spec (db : DB) (cities_param : pystr)
  (names : list pystr) :
  str_truthy cities_param = true ->
  resolve_names db (Some cities_param) = Ok names ->
  forall n, In n names <-> resolved_from db (tokens_of cities_param) n.
Proof.
  intros Ht. unfold resolve_names, opt_truthy. rewrite Ht.
  fold (tokens_of cities_param).
  destruct (rmap py_int (List.filter str_isdigit (tokens_of cities_param)))
    as [ids|e] eqn:E; cbn [rbind]; [|discriminate].
  intros H. injection H as <-. intros n.
  pose proof (rmap_In _ _ _ E) as Hids.
  assert (Hnames :
    In n (match ids with
          | [] => []
          | _ => List.map City.name
                   (List.filter (fun c => zmem (City.id c) ids) (city_table db))
          end) <->
    exists c, In c (city_table db) /\ In (City.id c) ids /\ City.name c = n).
  { assert (G : In n (List.map City.name
                        (List.filter (fun c => zmem (City.id c) ids)
                                     (city_table db))) <->
                exists c, In c (city_table db) /\ In (City.id c) ids
                          /\ City.name c = n).
    { rewrite in_map_iff. split.
      - intros [c [Hn Hc]]. apply filter_In in Hc. destruct Hc as [Hc Hz].
        apply zmem_In in Hz. exists c. auto.
      - intros [c [Hc [Hz Hn]]]. exists c. split; [assumption|].
        apply filter_In. split; [assumption|]. apply zmem_In, Hz. }
    destruct ids as [|i ids']; [|exact G].
    split; [intros []|]. intros [c [_ [[] _]]]. }
  rewrite in_app_iff, Hnames, filter_In. unfold resolved_from. split.
  - intros [[c [Hc [Hi Hn]]]|[Hn Hd]].
    + apply Hids in Hi. destruct Hi as [t [Ht' Hp]].
      apply filter_In in Ht'. destruct Ht' as [Ht1 Ht2].
      left. exists t, (City.id c), c. auto 10.
    + right. split; [assumption|]. apply negb_true_iff, Hd.
  - intros [[t [pk [c [Ht1 [Ht2 [Hp [Hc [Hi Hn]]]]]]]]|[Hn Hd]].
    + left. exists c. split; [assumption|]. split; [|assumption].
      apply Hids. exists t. split; [apply filter_In; auto|]. congruence.
    + right. split; [assumption|]. rewrite Hd. reflexivity.
Qed.

Lemma brief_list_listing (db : DB) (names : list pystr) :
  exists briefs,
    brief_list (complaints_in_cities db names) db
      = (Ok (mkResponse HTTP_200_OK (JList briefs)), db) /\
    listing db names briefs.
Proof.
  destruct (brief_list_run db (complaints_in_cities db names))
    as [bs [Hrun Hf]].
  exists bs. split; [assumption|].
  exists (complaints_in_cities db names). split; [assumption|].
  apply complaints_in_cities_spec.
Qed.
End CaseSearch.

(** C6 (as amended).  [cases] answers 403 when the caller has no
    profile; otherwise it answers 200 with, newest first and in the
    brief view (the six fields, none of the sensitive ones), exactly the
    complaints whose incident or residential city is one of the names of
    the caller's service cities.  [search_cases], once its parameter has
    yielded a list of names (the names of the cities its numeric tokens
    identify and its other tokens), answers 400 when the list is empty
    and otherwise the same listing for those names. *)
Theorem C6_cases_listing {P : Platform} (db : DB) (request : Request)
  (user : User.t) :
  req_user request = Some user ->
  (lawyer_profile_of db user = None ->
     cases request db =
       (Ok (mkResponse HTTP_403_FORBIDDEN (detail "Lawyer profile required.")),
        db)) /\
  (forall profile,
     lawyer_profile_of db user = Some profile ->
     exists briefs,
       cases request db = (Ok (mkResponse HTTP_200_OK (JList briefs)), db) /\
       listing db
         (List.map City.name (service_cities db (LawyerProfile.id profile)))
         briefs) /\
  (forall names,
     resolve_names db (dict_get (query_params request) (lit "cities"))
       = Ok names ->
     (forall cities_param,
        dict_get (query_params request) (lit "cities") = Some cities_param ->
        str_truthy cities_param = true ->
        forall n, In n names <-> resolved_from db (tokens_of cities_param) n) /\
     (names = [] ->
        search_cases request db =
          (Ok (mkResponse HTTP_400_BAD_REQUEST
                 (detail "Provide cities by id or name.")), db)) /\
     (names <> [] ->
        exists briefs,
          search_cases request db
            = (Ok (mkResponse HTTP_200_OK (JList briefs)), db) /\
          listing db names briefs)).
Proof.
  intros Hu. split; [|split].
  - apply cases_forbidden, Hu.
  - intros profile Hp. rewrite (cases_run db request user profile Hu Hp).
    apply brief_list_listing.
  - intros names Hr. split; [|split].
    + intros cities_param Hc Ht. rewrite Hc in Hr.
      apply (resolve_names_spec db cities_param names Ht Hr).
    + intros ->. apply (search_cases_empty db request user Hu Hr).
    + intros Hne. rewrite (search_cases_run db request user names Hu Hr Hne).
      apply brief_list_listing.
Qed.

Lemma C6_cases_listing_witness :
  let request := get_with (Some asha) [(lit "cities", lit "Delhi,2")] in
  resolve_names sample_db (Some (lit "Delhi,2")) = Ok [lit "Mumbai"; lit "Delhi"] /\
  (exists briefs,
     cases request sample_db = (Ok (mkResponse 200 (JList briefs)), sample_db) /\
     listing sample_db [lit "Delhi"; lit "Mumbai"] briefs) /\
  (exists briefs,
     search_cases request sample_db
       = (Ok (mkResponse 200 (JList briefs)), sample_db) /\
     listing sample_db [lit "Mumbai"; lit "Delhi"] briefs).
Proof.
  intros request.
  pose proof (C6_cases_listing sample_db request asha eq_refl) as [_ [Hc Hs]].
  split; [reflexivity|]. split.
  - exact (Hc lawyer_asha eq_refl).
  - refine (proj2 (proj2 (Hs [lit "Mumbai"; lit "Delhi"] eq_refl)) _).
    discriminate.
Defined.

(** [search-cases?cities=Delhi,2]: the complaints of Delhi and Mumbai,
    newest first, in the brief view; the caller's own [cases] gives the
    same two. *)
Example search_cases_samples :
  let delhi_mumbai :=
    JList
      [ JDict [(lit "id", JInt 2); (lit "title", JStr (lit "fraud"));
               (lit "created_at", JDateTime 30);
               (lit "privacy_option", JStr (lit "LAWYERS_ONLY"));
               (lit "residential_city", JStr (lit "Mumbai"))];
        JDict [(lit "id", JInt 1); (lit "title", JStr (lit "theft"));
               (lit "created_at", JDateTime 10);
               (lit "privacy_option", JStr (lit "LAWYERS_ONLY"));
               (lit "incident_city", JStr (lit "Delhi"));
               (lit "residential_city", JStr (lit "Pune"))] ] in
  fst (search_cases (get_with (Some ravi) [(lit "cities", lit "Delhi,2")])
         sample_db)
    = Ok (mkResponse 200 delhi_mumbai) /\
  fst (cases (get_with (Some asha) []) sample_db)
    = Ok (mkResponse 200 delhi_mumbai) /\
  fst (cases (get_with (Some ravi) []) sample_db)
    = Ok (mkResponse 200 (JList [])) /\
  fst (cases (get_with (Some (User.mk 9 (lit "x") (lit "X") (lit "Y"))) [])
         sample_db)
    = Ok (mkResponse 403 (detail "Lawyer profile required.")).
Proof. repeat split; vm_compute; reflexivity. Qed.

(** C6 (the statement as first written fails).  With [cities=99], an id
    of no city, the resolved set is empty and no complaint matches it;
    [search_cases] does not answer with that empty listing but with the
    error 400. *)
Lemma C6_search_cases_empty_set :
  let request := get_with (Some asha) [(lit "cities", lit "99")] in
  resolve_names sample_db (dict_get (query_params request) (lit "cities"))
    = Ok [] /\
  search_cases request sample_db
    = (Ok (mkResponse 400 (detail "Provide cities by id or name.")),
       sample_db) /\
  ~ exists briefs,
      search_cases request sample_db
        = (Ok (mkResponse 200 (JList briefs)), sample_db) /\
      listing sample_db [] briefs.
Proof.
  intros request. split; [reflexivity|]. split; [reflexivity|].
  intros [briefs [H _]]. vm_compute in H. discriminate.
Qed.

(** The same slip as in the directory: a token such as the superscript
    two passes [isdigit] and is refused by [int]. *)
Example search_cases_digit_crash :
  fst (search_cases (get_with (Some asha) [(lit "cities", [178%N])]) sample_db)
    = Raise ValueError.
Proof. vm_compute. reflexivity. Qed.

(* ------------------------------------------------------------------ *)
(** ** C10: letter case in the two city matches *)

(** C10 (as amended).  In the query of [cases] and [search_cases] a
    city matches a name only letter for letter: a complaint is returned
    exactly when its incident city or its residential city is literally
    one of the names.  So a city that differs from a name only in letter
    case does not make the complaint match: unless one of its cities is
    literally among the names, the complaint is not returned.  [cases]
    and [search_cases] answer with the brief views of that query.  The
    directory's city filter, in contrast, does return a profile serving
    a city whose name differs from the parameter only in letter case. *)
Theorem C10_case_sensitive_cities {P : Platform} (db : DB)
  (names : list pystr) :
  (forall c,
     In c (complaints_in_cities db names) <->
     In c (complaint_table db) /\
     exists n, In n names /\ located_in n c) /\
  (forall c,
     (exists n s, In n names /\ located_in s c /\ differs_only_in_case s n) ->
     (forall s, located_in s c -> ~ In s names) ->
     ~ In c (complaints_in_cities db names)) /\
  (forall request user profile,
     req_user request = Some user ->
     lawyer_profile_of db user = Some profile ->
     names = List.map City.name (service_cities db (LawyerProfile.id profile)) ->
     cases request db = brief_list (complaints_in_cities db names) db) /\
  (forall request user,
     req_user request = Some user ->
     resolve_names db (dict_get (query_params request) (lit "cities"))
       = Ok names ->
     names <> [] ->
     search_cases request db = brief_list (complaints_in_cities db names) db) /\
  (forall request p city s,
     given request "city" = Some s ->
     str_isdigit s = false ->
     given request "specialization" = None ->
     given request "min_experience" = None ->
     given request "q" = None ->
     In p (lawyerprofile_table db) ->
     In city (city_table db) ->
     In (LawyerProfile.id p, City.id city) (service_cities_table db) ->
     differs_only_in_case (City.name city) s ->
     exists qs, get_queryset db request = Ok qs /\ In p qs).
Proof.
  assert (H0 : forall c,
     In c (complaints_in_cities db names) <->
     In c (complaint_table db) /\
     exists n, In n names /\ located_in n c).
  { intros c. apply (proj2 (proj2 (complaints_in_cities_spec db names))). }
  split; [exact H0|]. split; [|split; [|split]].
  - intros c _ Hno Hin. apply H0 in Hin.
    destruct Hin as [_ [n [Hn Hc]]]. exact (Hno n Hc Hn).
  - intros request user profile Hu Hp ->. apply cases_run with (user := user);
      assumption.
  - intros request user Hu Hr Hne.
    apply search_cases_run with (user := user); assumption.
  - intros request p city s Hcity Hd Hspec Hexp Hq Hp Hc Hl [_ Hfold].
    destruct (get_queryset_total db request) as [qs Hqs].
    { intros s0 E. rewrite Hcity in E. injection E as <-. congruence. }
    { rewrite Hexp. intros s0 E. discriminate. }
    exists qs. split; [exact Hqs|].
    apply (get_queryset_spec _ _ _ Hqs). split; [assumption|].
    unfold directory_match. rewrite Hcity, Hspec, Hexp, Hq. cbn.
    rewrite Hd. unfold serves_city_named. rewrite !andb_true_r.
    apply existsb_exists.
    exists (City.id city). split; [apply linked_ids_In, Hl|].
    unfold city_named. apply existsb_exists. exists city.
    split; [assumption|]. rewrite Z.eqb_refl. cbn.
    unfold iexact. apply pystr_eqb_eq, Hfold.
Qed.

Lemma C10_case_sensitive_cities_witness :
  ~ In (complaint_of 3 "noise" (incident_in "delhi") None 20)
       (complaints_in_cities sample_db [lit "Delhi"; lit "Mumbai"]) /\
  exists qs,
    get_queryset sample_db (get_with None [(lit "city", lit "MUMBAI")])
      = Ok qs /\
    In lawyer_asha qs.
Proof.
  pose proof (C10_case_sensitive_cities sample_db [lit "Delhi"; lit "Mumbai"])
    as [_ [Hquery [_ [_ Hdir]]]].
  split.
  - apply Hquery.
    + exists (lit "Delhi"), (lit "delhi"). split; [left; reflexivity|].
      split; [left; reflexivity|]. split; [discriminate|reflexivity].
    + intros s [E|E]; [|discriminate].
      injection E as <-. cbn. intros [H|[H|[]]]; discriminate.
  - apply (Hdir (get_with None [(lit "city", lit "MUMBAI")])
             lawyer_asha mumbai (lit "MUMBAI"));
      try reflexivity.
    + cbn. tauto.
    + cbn. tauto.
    + cbn. tauto.
    + split; [discriminate|reflexivity].
Defined.

(** C10 (the statement as first written fails).  Asha serves Delhi and
    Mumbai.  The complaint about an incident in "delhi", a city that
    differs from her service city "Delhi" only in letter case, is
    returned all the same, because it was filed by a resident of
    "Mumbai". *)
Lemma C10_other_city_matches :
  differs_only_in_case (lit "delhi") (lit "Delhi") /\
  city_of_incident mixed_complaint = Some (lit "delhi") /\
  List.map City.name (service_cities mixed_db (LawyerProfile.id lawyer_asha))
    = [lit "Delhi"; lit "Mumbai"] /\
  In mixed_complaint
     (complaints_in_cities mixed_db [lit "Delhi"; lit "Mumbai"]) /\
  exists brief,
    cases (get_with (Some asha) []) mixed_db
      = (Ok (mkResponse HTTP_200_OK (JList [brief])), mixed_db) /\
    is_brief mixed_complaint brief.
Proof.
  split; [split; [discriminate|reflexivity]|].
  split; [reflexivity|]. split; [reflexivity|].
  split; [left; reflexivity|].
  destruct (ComplaintBriefSerializer_brief mixed_complaint) as [j [Hj Hb]].
  exists j. split; [|exact Hb].
  vm_compute in Hj. injection Hj as <-. vm_compute. reflexivity.
Qed.

(** Asha serves "Delhi": the complaint filed in "delhi" is not among her
    cases, while the directory finds her under "delhi". *)
Example letter_case_samples :
  List.map Complaint.id
    (complaints_in_cities sample_db [lit "Delhi"; lit "Mumbai"]) = [2; 1] /\
  List.map Complaint.id (complaints_in_cities sample_db [lit "delhi"]) = [3] /\
  get_queryset sample_db (get_with None [(lit "city", lit "delhi")])
    = Ok [lawyer_asha].
Proof. repeat split; vm_compute; reflexivity. Qed.


(* ================================================================== *)
(** * Further properties of the code *)

(* ------------------------------------------------------------------ *)
(** ** What the actions leave alone *)

Section Untouched.
Context {P : Platform}.
Variable validate_model_fields :
  DB -> list (pystr * pyval) -> Result ValidatedData.
Variable validate_model_fields_partial :
  DB -> list (pystr * pyval) -> Result ValidatedData.

Lemma perform_unchanged {A} (f : DB -> A) (c : call) :
  (forall db t, f (set_through db t) = f db) ->
  (forall db t, f (set_profiles db t) = f db) ->
  (forall db t, f (set_contact_requests db t) = f db) ->
  preserves (unchanged f) (perform validate_model_fields c).
Proof.
  intros H1 H2 H3.
  destruct c; cbn [perform];
    unfold contact, ContactRequest_create, add_city, remove_city,
      increment_cases, save_counters, refresh_from_db, cases, search_cases,
      brief_list, create, perform_create, serializer_create,
      LawyerProfile_create, update_profile, serializer_update, save_profile,
      set_service_cities, get_city_or_404, get_object, IsAuthenticated;
    preserve (unchanged_refl f) (unchanged_trans f);
    unfold unchanged; auto.
Qed.

Lemma run_unchanged {A} (f : DB -> A) (calls : list call) :
  (forall db t, f (set_through db t) = f db) ->
  (forall db t, f (set_profiles db t) = f db) ->
  (forall db t, f (set_contact_requests db t) = f db) ->
  forall db, f (run validate_model_fields calls db) = f db.
Proof.
  intros H1 H2 H3. unfold run.
  induction calls as [|c calls IH]; intros db; cbn [fold_left].
  - reflexivity.
  - rewrite IH. apply (perform_unchanged f c H1 H2 H3).
Qed.

(** No history of calls to the lawyer endpoints changes a complaint, a
    city or the clock: whatever the calls and their outcomes, the
    complaint table and the city table are those of the start. *)
Theorem X_history_keeps_complaints_and_cities (calls : list call) (db : DB) :
  complaint_table (run validate_model_fields calls db) = complaint_table db /\
  city_table (run validate_model_fields calls db) = city_table db /\
  now (run validate_model_fields calls db) = now db.
Proof.
  repeat split.
  - apply (run_unchanged complaint_table); reflexivity.
  - apply (run_unchanged city_table); reflexivity.
  - apply (run_unchanged now); reflexivity.
Qed.

(** The reading actions write nothing: after [cases], [search_cases],
    [top_lawyers] and [list_specializations] the database is the one
    before, whether they answer or raise. *)
Theorem X_reads_write_nothing (request : Request) (db : DB) :
  snd (cases request db) = db /\
  snd (search_cases request db) = db /\
  snd (top_lawyers request db) = db /\
  snd (list_specializations request db) = db.
Proof.
  assert (R : forall db0 : DB, unchanged (fun d => d) db0 db0) by reflexivity.
  assert (T : forall a b c : DB, unchanged (fun d => d) a b ->
                unchanged (fun d => d) b c -> unchanged (fun d => d) a c)
    by (unfold unchanged; intros; congruence).
  repeat split.
  - revert db. change (preserves (unchanged (fun d => d)) (cases request)).
    unfold cases, brief_list, IsAuthenticated. preserve R T.
  - revert db. change (preserves (unchanged (fun d => d)) (search_cases request)).
    unfold search_cases, brief_list, IsAuthenticated. preserve R T.
  - revert db. change (preserves (unchanged (fun d => d)) (top_lawyers request)).
    unfold top_lawyers. preserve R T.
Qed.
End Untouched.

(* ------------------------------------------------------------------ *)
(** ** Who may call *)

Section Callers.
Context {P : Platform}.
Variable validate_model_fields :
  DB -> list (pystr * pyval) -> Result ValidatedData.
Variable validate_model_fields_partial :
  DB -> list (pystr * pyval) -> Result ValidatedData.

(** An anonymous caller is turned away by every action that requires
    authentication, before anything is read or written. *)
Theorem X_anonymous_rejected (request : Request) (pk : Z) (payload : Payload)
  (db : DB) :
  req_user request = None ->
  add_city request pk db = (Raise NotAuthenticated, db) /\
  remove_city request pk db = (Raise NotAuthenticated, db) /\
  increment_cases request pk db = (Raise NotAuthenticated, db) /\
  contact request pk db = (Raise NotAuthenticated, db) /\
  cases request db = (Raise NotAuthenticated, db) /\
  search_cases request db = (Raise NotAuthenticated, db) /\
  me validate_model_fields validate_model_fields_partial request payload db
    = (Raise NotAuthenticated, db).
Proof.
  intros H.
  assert (A : IsAuthenticated request db = (Raise NotAuthenticated, db))
    by (unfold IsAuthenticated; rewrite H; reflexivity).
  repeat split;
    unfold add_city, remove_city, increment_cases, contact, cases,
      search_cases, me;
    apply bind_raise, A.
Qed.

(** The caller's identity plays no part in [add_city], [remove_city],
    [increment_cases] and [search_cases]: with the same body and query
    parameters, any two authenticated callers get the same answer and
    leave the same database.  In particular nothing ties the profile
    being changed to the caller. *)
Theorem X_any_authenticated_caller (request : Request) (pk : Z)
  (user other : User.t) (db : DB) :
  req_user request = Some user ->
  let request' :=
    mkRequest (Some other) (req_method request) (query_params request)
              (req_data request) in
  add_city request' pk db = add_city request pk db /\
  remove_city request' pk db = remove_city request pk db /\
  increment_cases request' pk db = increment_cases request pk db /\
  search_cases request' db = search_cases request db.
Proof.
  intros Hu request'.
  assert (A : IsAuthenticated request db = (Ok user, db))
    by (apply IsAuthenticated_ok, Hu).
  assert (A' : IsAuthenticated request' db = (Ok other, db)) by reflexivity.
  repeat split;
    unfold add_city, remove_city, increment_cases, search_cases;
    rewrite (bind_ok _ _ _ _ _ A), (bind_ok _ _ _ _ _ A'); reflexivity.
Qed.
End Callers.

Lemma X_anonymous_rejected_witness :
  contact (mkRequest None (lit "POST") [] []) 7 sample_db
    = (Raise NotAuthenticated, sample_db).
Proof.
  exact (proj1 (proj2 (proj2 (proj2
    (X_anonymous_rejected accept_all accept_all
       (mkRequest None (lit "POST") [] []) 7 (mkPayload None []) sample_db
       eq_refl))))).
Defined.

Lemma X_any_authenticated_caller_witness :
  add_city (post ravi [(lit "city_id", PInt 3)]) 7 sample_db
    = add_city (post asha [(lit "city_id", PInt 3)]) 7 sample_db.
Proof.
  exact (proj1
    (X_any_authenticated_caller (post asha [(lit "city_id", PInt 3)]) 7
       asha ravi sample_db eq_refl)).
Defined.

(* ------------------------------------------------------------------ *)
(** ** The directory on well-formed requests *)

Section DirectoryMore.
Context {P : Platform}.



Lemma dict_get_without {V} (k k' : pystr) (d : list (pystr * V)) :
  dict_get (without k d) k' = if pystr_eqb k k' then None else dict_get d k'.
Proof.
  unfold without. induction d as [|[k0 v] d IH]; cbn [filter dict_get fst].
  - destruct (pystr_eqb k k'); reflexivity.
  - destruct (pystr_eqb k0 k) eqn:E0; cbn [negb dict_get].
    + apply pystr_eqb_eq in E0. subst k0. rewrite IH.
      destruct (pystr_eqb k k'); reflexivity.
    + rewrite IH. destruct (pystr_eqb k0 k') eqn:E1; [|reflexivity].
      apply pystr_eqb_eq in E1. subst k0.
      destruct (pystr_eqb k k') eqn:E2; [|reflexivity].
      apply pystr_eqb_eq in E2. subst k'. rewrite pystr_eqb_refl in E0.
      discriminate.
Qed.

(** An empty parameter, and a [min_experience] that is not made of
    digits, count as absent: the directory answers as if the parameter
    had not been sent, and reports no error. *)
Theorem X_directory_unusable_parameters (db : DB) (request : Request)
  (k v : pystr) :
  dict_get (query_params request) k = Some v ->
  v = [] \/ (k = lit "min_experience" /\ str_isdigit v = false) ->
  get_queryset db request
    = get_queryset db (with_params request (without k (query_params request))).
Proof.
  intros Hk Hv. rewrite !get_queryset_stages.
  assert (G : forall key : string,
    (k = lit key -> v <> [] -> False) ->
    given (with_params request (without k (query_params request))) key
      = given request key).
  { intros key Hn. unfold given, with_params. cbn [query_params].
    rewrite dict_get_without. destruct (pystr_eqb k (lit key)) eqn:E;
      [|reflexivity].
    apply pystr_eqb_eq in E. rewrite <- E, Hk.
    destruct v as [|c r]; [reflexivity|].
    exfalso. apply Hn; [assumption|discriminate]. }
  destruct Hv as [->|[-> Hd]].
  - rewrite !G by (intros _ H; apply H; reflexivity). reflexivity.
  - rewrite (G "specialization"%string), (G "city"%string), (G "q"%string)
      by (intros H; vm_compute in H; discriminate).
    assert (E : given (with_params request
                         (without (lit "min_experience") (query_params request)))
                      "min_experience" = None).
    { unfold given, with_params. cbn [query_params].
      rewrite dict_get_without, pystr_eqb_refl. reflexivity. }
    rewrite E. unfold given at 3. rewrite Hk.
    destruct (str_truthy v); cbn [by_experience]; [rewrite Hd|]; reflexivity.
Qed.

(** The routes that address one profile look it up in the filtered
    directory: when the request carries query parameters that the
    profile with key [pk] does not pass, the profile is not found, and
    nothing is written. *)
Theorem X_detail_routes_apply_filters (db : DB) (request : Request) (pk : Z)
  (user : User.t) (qs : list LawyerProfile.t) :
  req_user request = Some user ->
  get_queryset db request = Ok qs ->
  (forall p, In p (lawyerprofile_table db) -> LawyerProfile.id p = pk ->
             directory_match db request p = false) ->
  get_object request pk db = (Raise Http404, db) /\
  contact request pk db = (Raise Http404, db) /\
  increment_cases request pk db = (Raise Http404, db).
Proof.
  intros Hu Hq Hno.
  assert (O : get_object request pk db = (Raise Http404, db)).
  { unfold get_object, bind, query_result. rewrite Hq.
    destruct (find _ qs) as [o|] eqn:F; [|reflexivity].
    apply find_some in F. destruct F as [Hin Hid]. apply Z.eqb_eq in Hid.
    apply (get_queryset_spec _ _ _ Hq) in Hin. destruct Hin as [Hin Hm].
    rewrite (Hno o Hin Hid) in Hm. discriminate. }
  split; [exact O|].
  split; unfold contact, increment_cases;
    rewrite (bind_ok _ _ _ _ _ (IsAuthenticated_ok _ _ db Hu)); cbv zeta;
    apply bind_raise, O.
Qed.
End DirectoryMore.


Lemma X_directory_unusable_parameters_witness :
  get_queryset sample_db
    (get_with None
       [(lit "specialization", lit "family"); (lit "min_experience", lit "six")])
  = get_queryset sample_db
      (get_with None [(lit "specialization", lit "family")]).
Proof.
  exact (X_directory_unusable_parameters sample_db
    (get_with None
       [(lit "specialization", lit "family"); (lit "min_experience", lit "six")])
    (lit "min_experience") (lit "six") eq_refl
    (or_intror (conj eq_refl eq_refl))).
Defined.

Lemma X_detail_routes_apply_filters_witness :
  contact
    (mkRequest (Some ravi) (lit "POST")
       [(lit "specialization", lit "criminal")] []) 7 sample_db
  = (Raise Http404, sample_db).
Proof.
  refine (proj1 (proj2
    (X_detail_routes_apply_filters sample_db
       (mkRequest (Some ravi) (lit "POST")
          [(lit "specialization", lit "criminal")] []) 7 ravi
       [lawyer_ravi] eq_refl eq_refl _))).
  intros p [<-|[<-|[]]] H; [reflexivity|discriminate H].
Defined.

(* ------------------------------------------------------------------ *)
(** ** Numbers written as text *)

Section RoundTrip.
Context {P : Platform}.

Lemma uint_codepoints_isdigit (u : Decimal.uint) :
  forallb cp_isdigit (uint_codepoints u) = true.
Proof.
  induction u; cbn [uint_codepoints forallb]; [reflexivity|..];
    rewrite cp_isdigit_ascii by reflexivity; exact IHu.
Qed.

Lemma decimal_value_uint_acc (u : Decimal.uint) : forall acc : positive,
  decimal_value (uint_codepoints u) (Zpos acc)
    = Some (Zpos (Pos.of_uint_acc u acc)).
Proof.
  induction u; intros acc;
    cbn [uint_codepoints decimal_value Pos.of_uint_acc]; [reflexivity|..];
    rewrite cp_decimal_ascii by reflexivity;
    match goal with
    | |- context [ascii_digit ?c] =>
        let v := eval vm_compute in (ascii_digit c) in
        change (ascii_digit c) with v
    end; cbv beta iota;
    match goal with
    | |- context [decimal_value _ ?z] =>
        match goal with
        | |- context [Pos.of_uint_acc _ ?q] =>
            replace z with (Zpos q) by lia
        end
    end; apply IHu.
Qed.

Lemma decimal_value_uint (u : Decimal.uint) :
  decimal_value (uint_codepoints u) 0 = Some (Z.of_N (Pos.of_uint u)).
Proof.
  induction u; cbn [uint_codepoints decimal_value Pos.of_uint];
    [reflexivity|..];
    rewrite cp_decimal_ascii by reflexivity;
    match goal with
    | |- context [ascii_digit ?c] =>
        let v := eval vm_compute in (ascii_digit c) in
        change (ascii_digit c) with v
    end; cbv beta iota;
    [exact IHu|..];
    match goal with
    | |- context [decimal_value _ ?z] =>
        match goal with
        | |- context [Pos.of_uint_acc _ ?q] =>
            replace z with (Zpos q) by lia
        end
    end; rewrite decimal_value_uint_acc; reflexivity.
Qed.

Lemma uint_codepoints_nil (u : Decimal.uint) :
  uint_codepoints u = [] -> u = Decimal.Nil.
Proof. destruct u; cbn; [reflexivity|discriminate..]. Qed.

Lemma pos_to_uint_digits (p : positive) :
  exists c r, uint_codepoints (Pos.to_uint p) = c :: r.
Proof.
  destruct (uint_codepoints (Pos.to_uint p)) as [|c r] eqn:E; [|eauto].
  apply uint_codepoints_nil in E.
  pose proof (DecimalPos.Unsigned.of_to p) as H. rewrite E in H.
  discriminate.
Qed.

Lemma py_int_digits_of (u : Decimal.uint) :
  uint_codepoints u <> [] ->
  py_int (uint_codepoints u) = Ok (Z.of_N (Pos.of_uint u)).
Proof.
  intros Hne. rewrite py_int_isdigit, decimal_value_uint; [reflexivity|].
  unfold str_isdigit. destruct (uint_codepoints u) eqn:E; [contradiction|].
  rewrite <- E. apply uint_codepoints_isdigit.
Qed.

(** [int(str(z)) == z] for every integer. *)
Lemma py_int_int_str (z : Z) : py_int (int_str z) = Ok z.
Proof.
  destruct z as [|p|p]; cbn [int_str Z.to_N N.to_uint].
  - rewrite py_int_digits_of by discriminate. reflexivity.
  - destruct (pos_to_uint_digits p) as [c [r E]].
    rewrite py_int_digits_of by (rewrite E; discriminate).
    rewrite DecimalPos.Unsigned.of_to. reflexivity.
  - destruct (pos_to_uint_digits p) as [c [r E]].
    pose proof (uint_codepoints_isdigit (Pos.to_uint p)) as Hd.
    set (s := uint_codepoints (Pos.to_uint p)) in *.
    assert (Hs : str_strip (45%N :: s) = 45%N :: s).
    { unfold str_strip.
      rewrite (lstrip_nonspace 45%N s)
        by (rewrite cp_isspace_ascii by reflexivity; reflexivity).
      cbn [rev]. pose proof (forallb_rev _ _ Hd) as Hr.
      destruct (rev s) as [|c' r'] eqn:Er.
      - apply (f_equal (@rev _)) in Er. rewrite rev_involutive in Er.
        rewrite E in Er. discriminate.
      - cbn [app]. cbn [forallb] in Hr. apply andb_prop in Hr.
        rewrite (lstrip_nonspace c' (r' ++ [45%N]))
          by (apply cp_isdigit_not_space; tauto).
        change (c' :: r' ++ [45%N]) with ((c' :: r') ++ [45%N]).
        rewrite <- Er, rev_app_distr, rev_involutive. reflexivity. }
    unfold py_int. rewrite Hs.
    cbv beta iota zeta.
    rewrite (int_digits_decimal s 0 Hd) by (rewrite E; discriminate).
    unfold s. rewrite decimal_value_uint, DecimalPos.Unsigned.of_to.
    reflexivity.
Qed.





Lemma int_text_truth (z : Z) :
  z <> 0 -> py_truthy (PStr (int_str z)) = py_truthy (PInt z).
Proof.
  intros Hz. cbn [py_truthy].
  destruct (Z.eqb_spec z 0); [contradiction|].
  destruct z as [|p|p]; [contradiction|..]; cbn [int_str Z.to_N N.to_uint negb].
  - destruct (pos_to_uint_digits p) as [c [r ->]]. reflexivity.
  - reflexivity.
Qed.

End RoundTrip.


(* ------------------------------------------------------------------ *)
(** ** Adding and removing service cities: errors and reach *)

Lemma linked_pair_m2m_add (through : list (Z * Z)) (pid cid p c : Z) :
  In (p, c) (m2m_add through pid [cid]) <->
  In (p, c) through \/ (p = pid /\ c = cid).
Proof.
  destruct (in_dec Z.eq_dec cid (linked_ids through pid)) as [H|H].
  - rewrite (m2m_add_present _ _ _ H). split; [auto|].
    intros [Hin|[-> ->]]; [assumption|]. apply linked_ids_In, H.
  - rewrite (m2m_add_absent _ _ _ H), in_app_iff. cbn.
    split; intros [Hin|Hin]; auto.
    + destruct Hin as [E|[]]. injection E as <- <-. auto.
    + destruct Hin as [-> ->]. auto.
Qed.

Lemma linked_pair_m2m_remove (through : list (Z * Z)) (pid cid p c : Z) :
  In (p, c) (m2m_remove through pid [cid]) <->
  In (p, c) through /\ ~ (p = pid /\ c = cid).
Proof.
  unfold m2m_remove. rewrite filter_In. cbn.
  destruct (Z.eqb_spec p pid) as [->|Hp]; cbn.
  - destruct (Z.eqb_spec c cid) as [->|Hc]; cbn.
    + split; [intros [_ H]; discriminate|intros [_ H]; exfalso; auto].
    + split; intros [Hin _]; (split; [assumption|]); [|reflexivity].
      intros [_ E]. contradiction.
  - split; intros [Hin _]; (split; [assumption|]); [|reflexivity].
    intros [E _]. contradiction.
Qed.

Section CityReach.
Context {P : Platform}.

Lemma get_city_or_404_inv (city_id : pyval) (db db' : DB)
  (r : Result City.t) :
  get_city_or_404 city_id db = (r, db') ->
  db' = db /\
  forall city, r = Ok city ->
    In city (city_table db) /\ py_int_of city_id = Ok (City.id city).
Proof.
  unfold get_city_or_404, bind, query_result, query.
  destruct (py_int_of city_id) as [n|e]; cbn.
  - destruct (find _ (city_table db)) as [c|] eqn:F; cbn;
      intros H; injection H as <- <-; (split; [reflexivity|]);
      intros city E; [|discriminate].
    injection E as <-. apply find_some in F. destruct F as [Hin Hid].
    apply Z.eqb_eq in Hid. subst n. auto.
  - intros H. injection H as <- <-. split; [reflexivity|]. discriminate.
Qed.

Lemma get_object_same_params (r1 r2 : Request) (pk : Z) (db : DB) :
  query_params r1 = query_params r2 ->
  get_object r1 pk db = get_object r2 pk db.
Proof.
  intros H. unfold get_object, bind, query_result, get_queryset.
  rewrite H. reflexivity.
Qed.

(** Without a true [city_id] in the body (the key missing, null, zero
    or empty), [add_city] and [remove_city] answer 400 and look up
    neither the city nor the profile. *)
Theorem X_city_id_required (db : DB) (request : Request) (pk : Z)
  (user : User.t) :
  req_user request = Some user ->
  py_truthy (data_get request "city_id") = false ->
  add_city request pk db
    = (Ok (mkResponse HTTP_400_BAD_REQUEST (detail "city_id is required.")),
       db) /\
  remove_city request pk db
    = (Ok (mkResponse HTTP_400_BAD_REQUEST (detail "city_id is required.")),
       db).
Proof.
  intros Hu Ht. unfold add_city, remove_city.
  rewrite !(bind_ok _ _ _ _ _ (IsAuthenticated_ok _ _ db Hu)). cbv zeta.
  rewrite Ht. split; reflexivity.
Qed.

(** A [city_id] that names no city makes [add_city] and [remove_city]
    raise [Http404], whether or not the profile exists, and nothing is
    written. *)
Theorem X_city_not_found (db : DB) (request : Request) (pk n : Z)
  (user : User.t) :
  req_user request = Some user ->
  py_truthy (data_get request "city_id") = true ->
  py_int_of (data_get request "city_id") = Ok n ->
  (forall city, In city (city_table db) -> City.id city <> n) ->
  add_city request pk db = (Raise Http404, db) /\
  remove_city request pk db = (Raise Http404, db).
Proof.
  intros Hu Ht Hn Hno.
  assert (C : get_city_or_404 (data_get request "city_id") db
              = (Raise Http404, db)).
  { unfold get_city_or_404, bind, query_result, query. rewrite Hn. cbn.
    destruct (find _ (city_table db)) as [c|] eqn:F; [|reflexivity].
    apply find_some in F. destruct F as [Hin Hid]. apply Z.eqb_eq in Hid.
    exfalso. exact (Hno c Hin Hid). }
  unfold add_city, remove_city.
  rewrite !(bind_ok _ _ _ _ _ (IsAuthenticated_ok _ _ db Hu)). cbv zeta.
  rewrite Ht. cbn [negb]. split; apply bind_raise, C.
Qed.

(** A [city_id] that [int] refuses, such as a word, is not answered
    with 400 or 404: the error of the conversion leaves [add_city] and
    [remove_city] as it is, and nothing is written. *)
Theorem X_city_id_not_a_number (db : DB) (request : Request) (pk : Z)
  (user : User.t) (e : exn) :
  req_user request = Some user ->
  py_truthy (data_get request "city_id") = true ->
  py_int_of (data_get request "city_id") = Raise e ->
  add_city request pk db = (Raise e, db) /\
  remove_city request pk db = (Raise e, db).
Proof.
  intros Hu Ht Hn.
  assert (C : get_city_or_404 (data_get request "city_id") db = (Raise e, db)).
  { unfold get_city_or_404, bind, query_result, query. rewrite Hn.
    reflexivity. }
  unfold add_city, remove_city.
  rewrite !(bind_ok _ _ _ _ _ (IsAuthenticated_ok _ _ db Hu)). cbv zeta.
  rewrite Ht. cbn [negb]. split; apply bind_raise, C.
Qed.

(** A city id sent as text names the same city as the number: with the
    same caller and query parameters, [add_city] and [remove_city]
    behave alike on ["city_id": "3"] and ["city_id": 3]. *)
Theorem X_city_id_as_text (db : DB) (r1 r2 : Request) (pk n : Z) :
  req_user r2 = req_user r1 ->
  query_params r2 = query_params r1 ->
  data_get r1 "city_id" = PInt n ->
  data_get r2 "city_id" = PStr (int_str n) ->
  n <> 0 ->
  add_city r2 pk db = add_city r1 pk db /\
  remove_city r2 pk db = remove_city r1 pk db.
Proof.
  intros Hu Hq H1 H2 Hn.
  assert (A : IsAuthenticated r2 = IsAuthenticated r1)
    by (unfold IsAuthenticated; rewrite Hu; reflexivity).
  assert (T : py_truthy (PStr (int_str n)) = py_truthy (PInt n))
    by (apply int_text_truth, Hn).
  split; unfold add_city, remove_city, bind; rewrite A;
    (destruct (IsAuthenticated r1 db) as [[u|e] db0]; [|reflexivity]);
    cbv zeta; rewrite H1, H2, T;
    (destruct (negb (py_truthy (PInt n))); [reflexivity|]);
    fold (get_city_or_404 (PStr (int_str n)) db0);
    assert (C0 : get_city_or_404 (PStr (int_str n)) db0
                 = get_city_or_404 (PInt n) db0)
      by (unfold get_city_or_404, bind, query_result; cbn [py_int_of];
          rewrite py_int_int_str; reflexivity);
    rewrite C0;
    (destruct (get_city_or_404 (PInt n) db0) as [[city|e] db1];
       [|reflexivity]);
    rewrite (get_object_same_params r2 r1 pk db1 Hq); reflexivity.
Qed.

(** [add_city] only adds: whatever it answers, every link on file
    stays, a link that appears belongs to the profile addressed and to a
    city of the database, and profiles and contact requests are as
    before. *)
Theorem X_add_city_only_adds (db : DB) (request : Request) (pk : Z) :
  let db' := snd (add_city request pk db) in
  lawyerprofile_table db' = lawyerprofile_table db /\
  contactrequest_table db' = contactrequest_table db /\
  (forall l, In l (service_cities_table db) -> In l (service_cities_table db')) /\
  (forall p c, In (p, c) (service_cities_table db') ->
     In (p, c) (service_cities_table db) \/
     (p = pk /\ exists city, In city (city_table db) /\ City.id city = c)).
Proof.
  cbv zeta. unfold add_city.
  destruct (IsAuthenticated request db) as [[u|e] db0] eqn:EA.
  2:{ rewrite (bind_raise _ _ _ _ _ EA).
      unfold IsAuthenticated in EA. destruct (req_user request); cbn in EA;
        injection EA as _ <-; cbn; auto. }
  assert (db0 = db) as ->.
  { unfold IsAuthenticated in EA. destruct (req_user request); cbn in EA;
      injection EA as _ <-; reflexivity. }
  rewrite (bind_ok _ _ _ _ _ EA). cbv zeta.
  destruct (negb (py_truthy (data_get request "city_id"))); [cbn; auto|].
  destruct (get_city_or_404 (data_get request "city_id") db)
    as [[city|e] db1] eqn:EC;
    destruct (get_city_or_404_inv _ _ _ _ EC) as [-> Hc];
    [|rewrite (bind_raise _ _ _ _ _ EC); cbn; auto].
  rewrite (bind_ok _ _ _ _ _ EC).
  destruct (get_object request pk db) as [[profile|e] db2] eqn:EO;
    pose proof (get_object_pure _ _ _ _ _ EO) as ->;
    [|rewrite (bind_raise _ _ _ _ _ EO); cbn; auto].
  rewrite (bind_ok _ _ _ _ _ EO).
  destruct (get_object_inv _ _ _ _ _ EO) as [_ [_ Hid]].
  destruct (Hc city eq_refl) as [Hin _].
  cbn. repeat split.
  - intros [p c] Hl. apply linked_pair_m2m_add. auto.
  - intros p c Hl. apply linked_pair_m2m_add in Hl.
    destruct Hl as [Hl|[-> ->]]; [auto|]. right. split; [exact Hid|].
    exists city. auto.
Qed.

(** [remove_city] only removes: whatever it answers, no link appears,
    the links of every other profile stay, and profiles and contact
    requests are as before. *)
Theorem X_remove_city_only_removes (db : DB) (request : Request) (pk : Z) :
  let db' := snd (remove_city request pk db) in
  lawyerprofile_table db' = lawyerprofile_table db /\
  contactrequest_table db' = contactrequest_table db /\
  (forall l, In l (service_cities_table db') -> In l (service_cities_table db)) /\
  (forall p c, In (p, c) (service_cities_table db) -> p <> pk ->
     In (p, c) (service_cities_table db')) /\
  (forall p c c', In (p, c) (service_cities_table db) ->
     ~ In (p, c) (service_cities_table db') ->
     In (p, c') (service_cities_table db) -> c' <> c ->
     In (p, c') (service_cities_table db')).
Proof.
  cbv zeta. unfold remove_city.
  destruct (IsAuthenticated request db) as [[u|e] db0] eqn:EA.
  2:{ rewrite (bind_raise _ _ _ _ _ EA).
      unfold IsAuthenticated in EA. destruct (req_user request); cbn in EA;
        injection EA as _ <-; cbn; intuition. }
  assert (db0 = db) as ->.
  { unfold IsAuthenticated in EA. destruct (req_user request); cbn in EA;
      injection EA as _ <-; reflexivity. }
  rewrite (bind_ok _ _ _ _ _ EA). cbv zeta.
  destruct (negb (py_truthy (data_get request "city_id")));
    [cbn; intuition|].
  destruct (get_city_or_404 (data_get request "city_id") db)
    as [[city|e] db1] eqn:EC;
    destruct (get_city_or_404_inv _ _ _ _ EC) as [-> Hc];
    [|rewrite (bind_raise _ _ _ _ _ EC); cbn; intuition].
  rewrite (bind_ok _ _ _ _ _ EC).
  destruct (get_object request pk db) as [[profile|e] db2] eqn:EO;
    pose proof (get_object_pure _ _ _ _ _ EO) as ->;
    [|rewrite (bind_raise _ _ _ _ _ EO); cbn; intuition].
  rewrite (bind_ok _ _ _ _ _ EO).
  destruct (get_object_inv _ _ _ _ _ EO) as [_ [_ Hid]].
  cbn. repeat split.
  - intros [p c] Hl. apply linked_pair_m2m_remove in Hl. tauto.
  - intros p c Hl Hp. apply linked_pair_m2m_remove. split; [assumption|].
    intros [E _]. apply Hp. congruence.
  - intros p c c' Hl Hgone Hl' Hne. apply linked_pair_m2m_remove.
    split; [assumption|]. intros [Ep Ec']. apply Hgone.
    apply linked_pair_m2m_remove. split; [assumption|].
    intros [_ Ec]. apply Hne. congruence.
Qed.
End CityReach.

Lemma X_city_id_required_witness :
  add_city (post asha [(lit "city_id", PInt 0)]) 7 sample_db
    = (Ok (mkResponse HTTP_400_BAD_REQUEST (detail "city_id is required.")),
       sample_db).
Proof.
  exact (proj1 (X_city_id_required sample_db
           (post asha [(lit "city_id", PInt 0)]) 7 asha eq_refl eq_refl)).
Defined.

Lemma X_city_not_found_witness :
  add_city (post asha [(lit "city_id", PInt 99)]) 7 sample_db
    = (Raise Http404, sample_db).
Proof.
  refine (proj1 (X_city_not_found sample_db
           (post asha [(lit "city_id", PInt 99)]) 7 99 asha
           eq_refl eq_refl eq_refl _)).
  intros city [<-|[<-|[<-|[<-|[<-|[]]]]]]; discriminate.
Defined.

Lemma X_city_id_not_a_number_witness :
  add_city (post asha [(lit "city_id", PStr (lit "Delhi"))]) 7 sample_db
    = (Raise ValueError, sample_db).
Proof.
  exact (proj1 (X_city_id_not_a_number sample_db
           (post asha [(lit "city_id", PStr (lit "Delhi"))]) 7 asha ValueError
           eq_refl eq_refl eq_refl)).
Defined.

Lemma X_city_id_as_text_witness :
  add_city (post asha [(lit "city_id", PStr (lit "3"))]) 7 sample_db
    = add_city (post asha [(lit "city_id", PInt 3)]) 7 sample_db.
Proof.
  exact (proj1 (X_city_id_as_text sample_db
           (post asha [(lit "city_id", PInt 3)])
           (post asha [(lit "city_id", PStr (lit "3"))]) 7 3
           eq_refl eq_refl eq_refl eq_refl ltac:(discriminate))).
Defined.

(* ------------------------------------------------------------------ *)
(** ** Counting a case: what else stays *)

Section Counters.
Context {P : Platform}.

(** The database after [increment_cases]: as before, or with the
    counters of the rows keyed [pk] rewritten. *)
Lemma increment_cases_db (db : DB) (request : Request) (pk : Z) :
  snd (increment_cases request pk db) = db \/
  exists profile,
    In profile (lawyerprofile_table db) /\
    LawyerProfile.id profile = pk /\
    snd (increment_cases request pk db)
      = set_profiles db
          (List.map
             (fun row =>
                if LawyerProfile.id row =? pk
                then with_counters row
                       (LawyerProfile.total_cases row + 1)%N
                       (if won_flag_of (data_get request "won")
                        then (LawyerProfile.won_cases row + 1)%N
                        else LawyerProfile.won_cases profile)
                else row)
             (lawyerprofile_table db)).
Proof.
  unfold increment_cases.
  destruct (req_user request) as [user|] eqn:Eu.
  2:{ left. unfold bind, IsAuthenticated. rewrite Eu. reflexivity. }
  rewrite (bind_ok _ _ _ _ _ (IsAuthenticated_ok _ _ db Eu)). cbv zeta.
  destruct (get_object request pk db) as [[profile|e] db1] eqn:EO;
    pose proof (get_object_pure _ _ _ _ _ EO) as ->.
  2:{ left. rewrite (bind_raise _ _ _ _ _ EO). reflexivity. }
  rewrite (bind_ok _ _ _ _ _ EO).
  destruct (get_object_inv _ _ _ _ _ EO) as [_ [Hin Hid]].
  right. exists profile. split; [assumption|]. split; [assumption|].
  unfold save_counters, refresh_from_db, bind, query, update.
  rewrite (existsb_key _ _ Hin). cbn [fst snd]. rewrite Hid.
  destruct (won_flag_of (data_get request "won")); cbn [evaluate];
    match goal with
    | |- context [List.find ?f ?l] => destruct (List.find f l)
    end; reflexivity.
Qed.

(** [increment_cases] touches nothing but the two counters of the
    profile addressed: the table keeps its rows in place, every other
    profile's row is as before, and no other column of any row changes;
    the links to cities stay too. *)
Theorem X_increment_cases_reach (db : DB) (request : Request) (pk : Z) :
  let db' := snd (increment_cases request pk db) in
  service_cities_table db' = service_cities_table db /\
  Forall2
    (fun old new =>
       new = with_counters old (LawyerProfile.total_cases new)
                               (LawyerProfile.won_cases new) /\
       (LawyerProfile.id old <> pk -> new = old))
    (lawyerprofile_table db) (lawyerprofile_table db').
Proof.
  cbv zeta.
  assert (Same : forall l : list LawyerProfile.t,
    Forall2
      (fun old new =>
         new = with_counters old (LawyerProfile.total_cases new)
                                 (LawyerProfile.won_cases new) /\
         (LawyerProfile.id old <> pk -> new = old)) l l).
  { induction l as [|x l IH]; constructor; [|assumption].
    split; [destruct x; reflexivity|reflexivity]. }
  destruct (increment_cases_db db request pk) as [->|[profile [_ [_ ->]]]].
  - split; [reflexivity|apply Same].
  - split; [reflexivity|]. cbn [lawyerprofile_table set_profiles].
    induction (lawyerprofile_table db) as [|x l IH]; cbn [List.map];
      constructor; [|assumption].
    destruct (Z.eqb_spec (LawyerProfile.id x) pk) as [E|E].
    + split; [reflexivity|contradiction].
    + split; [destruct x; reflexivity|reflexivity].
Qed.

(** [increment_cases] keeps the cases won within the cases handled:
    when keys are unique, the counters of the profile addressed are
    below the maxima of their columns, and no profile has more cases won
    than cases in total, the same holds afterwards. *)
Theorem X_increment_cases_won_within_total (db : DB) (request : Request)
  (pk : Z) :
  NoDup (List.map LawyerProfile.id (lawyerprofile_table db)) ->
  (forall row, In row (lawyerprofile_table db) -> LawyerProfile.id row = pk ->
     (LawyerProfile.total_cases row < INTEGER_MAX)%N /\
     (LawyerProfile.won_cases row < BIGINT_MAX)%N) ->
  (forall row, In row (lawyerprofile_table db) ->
     (LawyerProfile.won_cases row <= LawyerProfile.total_cases row)%N) ->
  forall row,
    In row (lawyerprofile_table (snd (increment_cases request pk db))) ->
    (LawyerProfile.won_cases row <= LawyerProfile.total_cases row)%N.
Proof.
  intros Hk _ Hle row.
  destruct (increment_cases_db db request pk)
    as [->|[profile [Hin [Hid ->]]]]; [apply Hle|].
  cbn [lawyerprofile_table set_profiles]. rewrite in_map_iff.
  intros [old [<- Hold]]. specialize (Hle old Hold).
  destruct (Z.eqb_spec (LawyerProfile.id old) pk) as [E|E]; [|assumption].
  assert (old = profile) as ->.
  { clear - Hk Hin Hold E Hid. rewrite <- Hid in E.
    induction (lawyerprofile_table db) as [|x l IH]; [contradiction|].
    cbn in Hk. inversion Hk as [|? ? Hx Hl]; subst.
    destruct Hin as [->|Hin], Hold as [->|Hold]; auto.
    - exfalso. apply Hx. rewrite <- E. apply in_map. assumption.
    - exfalso. apply Hx. rewrite E. apply in_map. assumption. }
  cbn [with_counters LawyerProfile.won_cases LawyerProfile.total_cases].
  destruct (won_flag_of (data_get request "won")); lia.
Qed.
End Counters.

Lemma X_increment_cases_won_within_total_witness :
  (LawyerProfile.won_cases (with_counters lawyer_asha 4 2)
   <= LawyerProfile.total_cases (with_counters lawyer_asha 4 2))%N.
Proof.
  apply (X_increment_cases_won_within_total sample_db
           (post ravi [(lit "won", PBool true)]) 7 sample_keys_unique).
  - intros row [<-|[<-|[]]] _; split; reflexivity.
  - intros row [<-|[<-|[]]]; vm_compute; discriminate.
  - left. reflexivity.
Defined.

(* ------------------------------------------------------------------ *)
(** ** Contact requests over a history of calls *)

Lemma fresh_id_above (ids : list Z) (x : Z) : In x ids -> x < fresh_id ids.
Proof.
  unfold fresh_id. induction ids as [|y l IH]; [contradiction|].
  cbn [fold_right]. intros [->|H]; [lia|]. specialize (IH H). lia.
Qed.

Lemma fresh_id_new (ids : list Z) : ~ In (fresh_id ids) ids.
Proof. intros H. apply fresh_id_above in H. lia. Qed.

Section ContactHistory.
Context {P : Platform}.
Variable validate_model_fields :
  DB -> list (pystr * pyval) -> Result ValidatedData.

(** The contact requests on file after [contact]: as before, or with
    one row added whose key is fresh and whose status is pending. *)
Lemma contact_table (db : DB) (request : Request) (pk : Z) :
  contactrequest_table (snd (contact request pk db)) = contactrequest_table db
  \/ exists cr,
       contactrequest_table (snd (contact request pk db))
         = contactrequest_table db ++ [cr] /\
       ContactRequest.id cr
         = fresh_id (List.map ContactRequest.id (contactrequest_table db)).
Proof.
  destruct (req_user request) as [user|] eqn:Eu.
  2:{ left. unfold contact, bind, IsAuthenticated. rewrite Eu. reflexivity. }
  destruct (get_object request pk db) as [[lawyer|e] db1] eqn:EO;
    pose proof (get_object_pure _ _ _ _ _ EO) as ->.
  2:{ left. unfold contact.
      rewrite (bind_ok _ _ _ _ _ (IsAuthenticated_ok _ _ db Eu)).
      rewrite (bind_raise _ _ _ _ _ EO). reflexivity. }
  destruct (in_dec prod_Z_eq_dec
              (User.id user, LawyerProfile.id lawyer) (contact_pairs db))
    as [Hold|Hnew].
  - left. rewrite (contact_again db request pk user lawyer Eu EO Hold).
    reflexivity.
  - right. rewrite (contact_first db request pk user lawyer Eu EO Hnew).
    eexists. split; reflexivity.
Qed.

Lemma perform_contact_table (c : call) (db : DB) :
  contactrequest_table (snd (perform validate_model_fields c db))
    = contactrequest_table db
  \/ exists cr,
       contactrequest_table (snd (perform validate_model_fields c db))
         = contactrequest_table db ++ [cr] /\
       ContactRequest.id cr
         = fresh_id (List.map ContactRequest.id (contactrequest_table db)).
Proof.
  destruct c; cbn [perform]; [apply contact_table|left..].
  - apply add_city_contacts.
  - apply remove_city_contacts.
  - apply increment_cases_contacts.
  - apply cases_contacts.
  - apply search_cases_contacts.
  - apply create_contacts.
  - apply update_profile_contacts.
Qed.

(** None of the calls [contact], [add_city], [remove_city],
    [increment_cases], [cases], [search_cases], [create] and the update
    of a profile deletes or rewrites a contact request: after any
    history of these calls the requests that were on file are still
    there, unchanged and in their order, followed by the new ones. *)
Theorem X_contact_requests_are_kept (calls : list call) (db : DB) :
  exists added,
    contactrequest_table (run validate_model_fields calls db)
      = contactrequest_table db ++ added.
Proof.
  revert db. unfold run.
  induction calls as [|c calls IH]; intros db; cbn [fold_left].
  - exists []. symmetry. apply app_nil_r.
  - destruct (IH (snd (perform validate_model_fields c db))) as [l ->].
    destruct (perform_contact_table c db) as [->|[cr [-> _]]].
    + exists l. reflexivity.
    + exists (cr :: l). rewrite <- app_assoc. reflexivity.
Qed.

(** Contact requests keep distinct keys over any history of calls. *)
Theorem X_contact_request_keys_unique (calls : list call) (db : DB) :
  NoDup (List.map ContactRequest.id (contactrequest_table db)) ->
  NoDup (List.map ContactRequest.id
           (contactrequest_table (run validate_model_fields calls db))).
Proof.
  revert db. unfold run.
  induction calls as [|c calls IH]; intros db H; cbn [fold_left];
    [exact H|].
  apply IH. destruct (perform_contact_table c db) as [->|[cr [-> Hid]]];
    [exact H|].
  rewrite map_app. cbn [List.map]. apply NoDup_snoc; [exact H|].
  rewrite Hid. apply fresh_id_new.
Qed.
End ContactHistory.

Lemma X_contact_request_keys_unique_witness :
  NoDup (List.map ContactRequest.id
           (contactrequest_table
              (run accept_all
                 [Contact (post ravi []) 7; Contact (post asha []) 7;
                  Contact (post ravi []) 7]
                 sample_db))).
Proof.
  apply (X_contact_request_keys_unique accept_all
           [Contact (post ravi []) 7; Contact (post asha []) 7;
            Contact (post ravi []) 7] sample_db).
  constructor.
Defined.

(* ------------------------------------------------------------------ *)
(** ** The link manager on lists of cities *)

Lemma dedup_ids_In (l : list Z) (x : Z) : In x (dedup_ids l) <-> In x l.
Proof.
  induction l as [|y l IH]; cbn [dedup_ids]; [tauto|].
  destruct (zmem y l) eqn:E; cbn [In]; rewrite IH; [|tauto].
  apply zmem_In in E. split; [auto|]. intros [<-|H]; assumption.
Qed.

Lemma dedup_ids_NoDup (l : list Z) : NoDup (dedup_ids l).
Proof.
  induction l as [|y l IH]; cbn [dedup_ids]; [constructor|].
  destruct (zmem y l) eqn:E; [assumption|]. constructor; [|assumption].
  rewrite dedup_ids_In. intros H. apply zmem_In in H. congruence.
Qed.

Lemma m2m_add_In (through : list (Z * Z)) (pid : Z) (ids : list Z) (p c : Z) :
  In (p, c) (m2m_add through pid ids) <->
  In (p, c) through \/ (p = pid /\ In c ids).
Proof.
  unfold m2m_add. cbv zeta. rewrite in_app_iff, in_map_iff. split.
  - intros [H|[x [E H]]]; [auto|]. injection E as <- <-.
    apply filter_In in H. destruct H as [H _]. apply (proj1 (dedup_ids_In _ _)) in H. auto.
  - intros [H|[-> H]]; [auto|].
    destruct (zmem c (linked_ids through pid)) eqn:E.
    + left. apply linked_ids_In, zmem_In, E.
    + right. exists c. split; [reflexivity|]. apply filter_In.
      rewrite dedup_ids_In, E. auto.
Qed.

Lemma m2m_add_list_NoDup (through : list (Z * Z)) (pid : Z) (ids : list Z) :
  NoDup through -> NoDup (m2m_add through pid ids).
Proof.
  intros H. unfold m2m_add. cbv zeta. apply NoDup_app; [assumption|..].
  - apply Finite.Injective_map_NoDup; [intros a b E; congruence|].
    apply NoDup_filter, dedup_ids_NoDup.
  - intros [p c] Hin Hnew. apply in_map_iff in Hnew.
    destruct Hnew as [x [E Hx]]. injection E as <- <-.
    apply filter_In in Hx. destruct Hx as [_ Hx].
    apply negb_true_iff in Hx.
    assert (zmem x (linked_ids through pid) = true)
      by (apply zmem_In, linked_ids_In, Hin).
    congruence.
Qed.

Lemma m2m_remove_In (through : list (Z * Z)) (pid : Z) (ids : list Z)
  (p c : Z) :
  In (p, c) (m2m_remove through pid ids) <->
  In (p, c) through /\ ~ (p = pid /\ In c ids).
Proof.
  unfold m2m_remove. rewrite filter_In. cbn [fst snd].
  destruct (Z.eqb_spec p pid) as [->|Hp]; cbn [andb].
  - destruct (zmem c ids) eqn:E; cbn [negb].
    + apply zmem_In in E. split; [intros [_ H]; discriminate|].
      intros [_ H]. exfalso. auto.
    + split; intros [Hin _]; (split; [assumption|]); [|reflexivity].
      intros [_ H]. apply zmem_In in H. congruence.
  - split; intros [Hin _]; (split; [assumption|]); [|reflexivity].
    intros [E _]. contradiction.
Qed.

(** [manager.set] leaves the profile with exactly the given cities and
    the other profiles with theirs. *)
Lemma m2m_set_In (through : list (Z * Z)) (pid : Z) (ids : list Z) (p c : Z) :
  In (p, c) (m2m_set through pid ids) <->
  (p <> pid /\ In (p, c) through) \/ (p = pid /\ In c ids).
Proof.
  unfold m2m_set. cbv zeta. rewrite m2m_add_In, m2m_remove_In, !filter_In.
  rewrite !negb_true_iff.
  destruct (Z.eq_dec p pid) as [->|Hp].
  - rewrite linked_ids_In.
    destruct (zmem c ids) eqn:Ei;
      destruct (zmem c (linked_ids through pid)) eqn:Eo.
    + apply zmem_In in Ei. apply zmem_In, linked_ids_In in Eo.
      split; [auto|]. intros _. left. split; [assumption|].
      intros [_ [_ H]]. discriminate.
    + apply zmem_In in Ei. split; [auto|]. intros _. right. auto.
    + apply zmem_In, linked_ids_In in Eo.
      assert (~ In c ids) by (intros H; apply zmem_In in H; congruence).
      split.
      * intros [[_ H1]|[_ [H1 _]]]; [|contradiction].
        exfalso. apply H1. auto.
      * intros [[H1 _]|[_ H1]]; [exfalso; auto|contradiction].
    + assert (~ In c ids) by (intros H; apply zmem_In in H; congruence).
      assert (~ In (pid, c) through)
        by (intros H0; apply linked_ids_In, zmem_In in H0; congruence).
      split.
      * intros [[H1 _]|[_ [H1 _]]]; contradiction.
      * intros [[H1 _]|[_ H1]]; [exfalso; auto|contradiction].
  - split.
    + intros [[H _]|[E _]]; [auto|contradiction].
    + intros [[_ H]|[E _]]; [|contradiction]. left. split; [assumption|].
      intros [E _]. contradiction.
Qed.

Lemma m2m_set_NoDup (through : list (Z * Z)) (pid : Z) (ids : list Z) :
  NoDup through -> NoDup (m2m_set through pid ids).
Proof.
  intros H. unfold m2m_set. cbv zeta. apply m2m_add_list_NoDup.
  unfold m2m_remove. apply NoDup_filter, H.
Qed.

Lemma linked_ids_NoDup (through : list (Z * Z)) (pid : Z) :
  NoDup through -> NoDup (linked_ids through pid).
Proof.
  intros H. unfold linked_ids.
  induction through as [|[p c] t IH]; cbn [filter fst]; [constructor|].
  inversion H as [|? ? Hx Ht]; subst.
  destruct (Z.eqb_spec p pid) as [->|Hp]; cbn [List.map snd]; [|auto].
  constructor; [|auto]. intros Hin.
  change (In c (linked_ids t pid)) in Hin. apply linked_ids_In in Hin.
  contradiction.
Qed.

(* ------------------------------------------------------------------ *)
(** ** Creating and updating a profile *)

Section ProfileCreation.
Context {P : Platform}.
Variable validate_model_fields :
  DB -> list (pystr * pyval) -> Result ValidatedData.
Variable validate_model_fields_partial :
  DB -> list (pystr * pyval) -> Result ValidatedData.

Lemma serializer_create_clash (db : DB) (request : Request) (user : User.t)
  (validated_data : ValidatedData) :
  req_user request = Some user ->
  has_lawyer_profile db user = false ->
  serializer_create request (with_user validated_data user) db
    = (Raise TypeError, db).
Proof.
  intros Hu Hn. unfold serializer_create. rewrite Hu.
  unfold bind at 1, query. rewrite Hn. reflexivity.
Qed.

(** No profile is ever created through the view set.  [create] always
    ends in an exception and writes nothing: the body is rejected, the
    caller is refused, or, for a caller entitled to a profile, the
    serializer's [create] hands [user] to [objects.create] twice.  The
    same holds for a write to [me] by a caller without a profile. *)
Theorem X_profile_creation_never_succeeds (db : DB) (request : Request)
  (payload : Payload) :
  (exists e,
     create validate_model_fields request payload db = (Raise e, db)) /\
  (forall user,
     req_user request = Some user ->
     lawyer_profile_of db user = None ->
     is_write (req_method request) = true ->
     exists e,
       me validate_model_fields validate_model_fields_partial request payload db
         = (Raise e, db)).
Proof.
  split.
  - unfold create.
    destruct (req_user request) as [user|] eqn:Eu.
    + rewrite (bind_ok _ _ _ _ _ (IsAuthenticated_ok _ _ db Eu)).
      unfold bind at 1, query_result.
      destruct (is_valid validate_model_fields db payload) as [vd|e];
        [|eexists; reflexivity].
      destruct (has_lawyer_profile db user) eqn:Eh.
      * unfold bind, perform_create. rewrite Eu. unfold bind, query.
        rewrite Eh. eexists; reflexivity.
      * rewrite (bind_raise _ _ _ _ _
                   (perform_create_clash db request user vd Eu Eh)).
        eexists; reflexivity.
    + unfold bind, IsAuthenticated. rewrite Eu. eexists; reflexivity.
  - intros user Hu Hnone Hw. unfold me.
    rewrite (bind_ok _ _ _ _ _ (IsAuthenticated_ok _ _ db Hu)).
    unfold bind at 1, query. rewrite Hnone, Hw.
    unfold bind at 1, query_result.
    destruct (is_valid validate_model_fields db payload) as [vd|e];
      [|eexists; reflexivity].
    assert (Eh : has_lawyer_profile db user = false)
      by (unfold has_lawyer_profile; rewrite Hnone; reflexivity).
    rewrite (bind_raise _ _ _ _ _
               (serializer_create_clash db request user vd Hu Eh)).
    eexists; reflexivity.
Qed.

End ProfileCreation.

Section ProfileUpdates.
Context {P : Platform}.
Variable validate_model_fields :
  DB -> list (pystr * pyval) -> Result ValidatedData.

(** The database after [save_profile]: as before when the save is
    refused, and otherwise with the instance in the table and every row
    of another key as it was. *)
Lemma save_profile_db (instance : LawyerProfile.t) (db : DB) :
  save_profile instance db = (Raise IntegrityError, db) \/
  exists table',
    save_profile instance db = (Ok tt, set_profiles db table') /\
    In instance table' /\
    forall row, LawyerProfile.id row <> LawyerProfile.id instance ->
      (In row table' <-> In row (lawyerprofile_table db)).
Proof.
  unfold save_profile, bind, query, update.
  destruct (existsb _ (lawyerprofile_table db)); [left; reflexivity|].
  right.
  destruct (existsb (fun r => LawyerProfile.id r =? LawyerProfile.id instance)
              (lawyerprofile_table db)) eqn:E;
    eexists; (split; [reflexivity|]).
  - split.
    + apply existsb_exists in E. destruct E as [r [Hr Hid]].
      apply in_map_iff. exists r. rewrite Hid. auto.
    + intros row Hrow. rewrite in_map_iff. split.
      * intros [r [Hr Hin]].
        destruct (Z.eqb_spec (LawyerProfile.id r) (LawyerProfile.id instance));
          subst; [contradiction|assumption].
      * intros Hin. exists row.
        destruct (Z.eqb_spec (LawyerProfile.id row) (LawyerProfile.id instance));
          [contradiction|auto].
  - split; [apply in_or_app; right; left; reflexivity|].
    intros row Hrow. rewrite in_app_iff. cbn. split; [|auto].
    intros [H|[H|[]]]; [assumption|]. subst. contradiction.
Qed.

Lemma update_profile_snd (instance : LawyerProfile.t) (payload : Payload)
  (db : DB) :
  snd (update_profile validate_model_fields instance payload db)
    = match is_valid validate_model_fields db payload with
      | Ok vd =>
          match save_profile (assign_fields instance vd) db with
          | (Ok _, db1) =>
              match vd_service_cities vd with
              | Some cs =>
                  set_through db1
                    (m2m_set (service_cities_table db1)
                       (LawyerProfile.id instance) (List.map City.id cs))
              | None => db1
              end
          | (Raise _, db1) => db1
          end
      | Raise _ => db
      end.
Proof.
  unfold update_profile, bind at 1, query_result.
  destruct (is_valid validate_model_fields db payload) as [vd|e];
    [|reflexivity].
  unfold serializer_update. cbv zeta.
  destruct (save_profile (assign_fields instance vd) db) as [[[]|e] db1] eqn:Es.
  - destruct (vd_service_cities vd) as [cs|];
      unfold bind, set_service_cities, update, ret, query_result;
      rewrite Es; cbn [fst snd];
      match goal with
      | |- context [LawyerProfileSerializer ?d ?p] =>
          destruct (LawyerProfileSerializer d p)
      end; reflexivity.
  - unfold bind. rewrite Es. reflexivity.
Qed.

(** The database after [update_profile]: as before, or with the
    instance saved and, when the body names cities, its links set. *)
Lemma update_profile_db (instance : LawyerProfile.t) (payload : Payload)
  (db : DB) :
  snd (update_profile validate_model_fields instance payload db) = db \/
  exists vd table',
    is_valid validate_model_fields db payload = Ok vd /\
    (forall row, LawyerProfile.id row <> LawyerProfile.id instance ->
       (In row table' <-> In row (lawyerprofile_table db))) /\
    snd (update_profile validate_model_fields instance payload db)
      = match vd_service_cities vd with
        | Some cs =>
            set_through (set_profiles db table')
              (m2m_set (service_cities_table db) (LawyerProfile.id instance)
                       (List.map City.id cs))
        | None => set_profiles db table'
        end.
Proof.
  rewrite update_profile_snd.
  destruct (is_valid validate_model_fields db payload) as [vd|e] eqn:Ev;
    [|left; reflexivity].
  destruct (save_profile_db (assign_fields instance vd) db)
    as [Es|[table' [Es [_ Hrows]]]]; rewrite Es.
  - left. reflexivity.
  - right. exists vd, table'. split; [reflexivity|]. split; [exact Hrows|].
    destruct (vd_service_cities vd); reflexivity.
Qed.

(** [update_profile] reaches one profile only: the rows and the city
    links of every other profile are as before, and so are the contact
    requests. *)
Theorem X_update_reaches_one_profile (instance : LawyerProfile.t)
  (payload : Payload) (db : DB) :
  let db' := snd (update_profile validate_model_fields instance payload db) in
  (forall row, LawyerProfile.id row <> LawyerProfile.id instance ->
     (In row (lawyerprofile_table db') <-> In row (lawyerprofile_table db))) /\
  (forall p c, p <> LawyerProfile.id instance ->
     (In (p, c) (service_cities_table db')
      <-> In (p, c) (service_cities_table db))) /\
  contactrequest_table db' = contactrequest_table db.
Proof.
  cbv zeta.
  destruct (update_profile_db instance payload db)
    as [->|[vd [table' [_ [Hrows ->]]]]]; [repeat split; tauto|].
  destruct (vd_service_cities vd) as [cs|];
    cbn [lawyerprofile_table service_cities_table contactrequest_table
         set_through set_profiles];
    (split; [exact Hrows|]); (split; [|reflexivity]).
  - intros p c Hp. rewrite m2m_set_In. split.
    + intros [[_ H]|[E _]]; [assumption|contradiction].
    + auto.
  - intros p c Hp. tauto.
Qed.

Lemma related_city_found (db : DB) (v : pyval) (city : City.t) :
  related_city db v = Ok city -> In city (city_table db).
Proof.
  unfold related_city.
  destruct v; try discriminate;
    (destruct (py_int_of _) as [pk|e]; [|destruct e; discriminate]);
    (destruct (find _ (city_table db)) as [c|] eqn:F; [|discriminate]);
    intros H; injection H as <-; apply find_some in F; tauto.
Qed.

(** What an update does to the service cities.  Without
    [service_city_ids] in the body the links stay.  With it, and links
    on file that hold no pair twice, either nothing is written or the
    profile is left with exactly the cities the field resolved, all of
    the database and at most four. *)
Theorem X_update_sets_service_cities (instance : LawyerProfile.t)
  (payload : Payload) (db : DB) :
  let db' := snd (update_profile validate_model_fields instance payload db) in
  (service_city_ids payload = None ->
     service_cities_table db' = service_cities_table db) /\
  (forall ids,
     service_city_ids payload = Some ids ->
     NoDup (service_cities_table db) ->
     db' = db \/
     exists cs,
       service_city_ids_field db ids = Ok cs /\
       (forall city, In city cs -> In city (city_table db)) /\
       (forall c, In c (linked_ids (service_cities_table db')
                          (LawyerProfile.id instance))
                  <-> In c (List.map City.id cs)) /\
       (city_count db' (LawyerProfile.id instance) <= 4)%nat).
Proof.
  cbv zeta.
  destruct (update_profile_db instance payload db)
    as [->|[vd [table' [Ev [_ ->]]]]]; [split; auto|].
  destruct (is_valid_ok _ _ _ _ Ev)
    as [vd0 [_ [[Hn ->]|[ids0 [cs [Hi [Ef ->]]]]]]].
  { split; [reflexivity|]. intros ids Hids. congruence. }
  split.
  - intros Hnone. congruence.
  - intros ids Hids Hnd. right.
    assert (ids0 = ids) as -> by congruence.
    exists cs. split; [exact Ef|].
    cbn [vd_service_cities with_service_cities service_cities_table
         set_through].
    unfold service_city_ids_field in Ef.
    destruct (rmap (related_city db) ids) as [cs0|e] eqn:Er;
      cbn [rbind] in Ef; [|discriminate].
    destruct (validate_service_city_ids_spec cs0) as [[Hlen Hv]|[_ Hv]];
      rewrite Hv in Ef; [|discriminate]. injection Ef as <-.
    assert (Hl : forall c,
      In c (linked_ids
              (m2m_set (service_cities_table db) (LawyerProfile.id instance)
                       (List.map City.id cs0))
              (LawyerProfile.id instance))
      <-> In c (List.map City.id cs0)).
    { intros c. rewrite linked_ids_In, m2m_set_In. split.
      - intros [[H _]|[_ H]]; [contradiction|assumption].
      - auto. }
    split; [|split; [exact Hl|]].
    + intros city Hc. apply (rmap_In _ _ _ Er) in Hc.
      destruct Hc as [v [_ Hv0]]. apply (related_city_found _ _ _ Hv0).
    + unfold city_count. cbn [service_cities_table set_through].
      rewrite <- (length_map City.id cs0) in Hlen.
      apply Nat.le_trans with (List.length (List.map City.id cs0));
        [|exact Hlen].
      apply NoDup_incl_length.
      * apply linked_ids_NoDup, m2m_set_NoDup, Hnd.
      * intros c Hc. apply Hl, Hc.
Qed.
End ProfileUpdates.

Lemma X_profile_creation_never_succeeds_witness :
  exists e,
    me accept_all accept_all
       (mkRequest (Some (User.mk 3 (lit "kiran") (lit "Kiran") (lit "Das")))
          (lit "PUT") [] [])
       (mkPayload None []) sample_db
    = (Raise e, sample_db).
Proof.
  exact (proj2
    (X_profile_creation_never_succeeds accept_all accept_all sample_db
       (mkRequest (Some (User.mk 3 (lit "kiran") (lit "Kiran") (lit "Das")))
          (lit "PUT") [] [])
       (mkPayload None []))
    (User.mk 3 (lit "kiran") (lit "Kiran") (lit "Das"))
    eq_refl eq_refl eq_refl).
Defined.

Lemma X_update_sets_service_cities_witness :
  snd (update_profile accept_all lawyer_asha
         (mkPayload (Some [PInt 3; PStr (lit "4")]) []) sample_db)
    = sample_db
  \/ exists cs,
       service_city_ids_field sample_db [PInt 3; PStr (lit "4")] = Ok cs /\
       (forall city, In city cs -> In city (city_table sample_db)) /\
       (forall c,
          In c (linked_ids
                  (service_cities_table
                     (snd (update_profile accept_all lawyer_asha
                             (mkPayload (Some [PInt 3; PStr (lit "4")]) [])
                             sample_db)))
                  (LawyerProfile.id lawyer_asha))
          <-> In c (List.map City.id cs)) /\
       (city_count
          (snd (update_profile accept_all lawyer_asha
                  (mkPayload (Some [PInt 3; PStr (lit "4")]) []) sample_db))
          (LawyerProfile.id lawyer_asha) <= 4)%nat.
Proof.
  apply (proj2 (X_update_sets_service_cities accept_all lawyer_asha
                  (mkPayload (Some [PInt 3; PStr (lit "4")]) []) sample_db)
           [PInt 3; PStr (lit "4")] eq_refl).
  repeat constructor; cbn; intuition discriminate.
Defined.

(* ------------------------------------------------------------------ *)
(** ** No link twice *)

Section LinkInvariant.
Context {P : Platform}.
Variable validate_model_fields :
  DB -> list (pystr * pyval) -> Result ValidatedData.

Lemma perform_links_NoDup (c : call) :
  preserves
    (fun db db' => NoDup (service_cities_table db) ->
                   NoDup (service_cities_table db'))
    (perform validate_model_fields c).
Proof.
  assert (R : forall db : DB,
            NoDup (service_cities_table db) -> NoDup (service_cities_table db))
    by auto.
  assert (T : forall a b c : DB,
            (NoDup (service_cities_table a) -> NoDup (service_cities_table b)) ->
            (NoDup (service_cities_table b) -> NoDup (service_cities_table c)) ->
            NoDup (service_cities_table a) -> NoDup (service_cities_table c))
    by auto.
  destruct c; cbn [perform];
    unfold contact, ContactRequest_create, add_city, remove_city,
      increment_cases, save_counters, refresh_from_db, cases, search_cases,
      brief_list, create, perform_create, serializer_create,
      LawyerProfile_create, update_profile, serializer_update, save_profile,
      set_service_cities, get_city_or_404, get_object, IsAuthenticated;
    preserve R T;
    cbn [service_cities_table set_through set_profiles set_contact_requests];
    intros H; try exact H;
    first [ apply m2m_add_list_NoDup, H
          | apply m2m_set_NoDup, H
          | apply NoDup_filter, H ].
Qed.

(** The link table never holds a pair twice: whatever calls are made,
    a city is linked to a profile at most once. *)
Theorem X_links_never_duplicated (calls : list call) (db : DB) :
  NoDup (service_cities_table db) ->
  NoDup (service_cities_table (run validate_model_fields calls db)) /\
  forall pk,
    NoDup (linked_ids
             (service_cities_table (run validate_model_fields calls db)) pk).
Proof.
  intros H.
  assert (N : NoDup (service_cities_table (run validate_model_fields calls db))).
  { revert db H. unfold run.
    induction calls as [|c calls IH]; intros db H; cbn [fold_left];
      [exact H|].
    apply IH, (perform_links_NoDup c db), H. }
  split; [exact N|]. intros pk. apply linked_ids_NoDup, N.
Qed.
End LinkInvariant.

Lemma X_links_never_duplicated_witness :
  NoDup (service_cities_table
           (run accept_all
              [AddCity (post ravi [(lit "city_id", PInt 1)]) 7;
               AddCity (post ravi [(lit "city_id", PInt 3)]) 7;
               AddCity (post ravi [(lit "city_id", PStr (lit "3"))]) 7]
              sample_db)).
Proof.
  refine (proj1
    (X_links_never_duplicated accept_all
       [AddCity (post ravi [(lit "city_id", PInt 1)]) 7;
        AddCity (post ravi [(lit "city_id", PInt 3)]) 7;
        AddCity (post ravi [(lit "city_id", PStr (lit "3"))]) 7]
       sample_db _)).
  repeat constructor; cbn; intuition discriminate.
Defined.

(* ------------------------------------------------------------------ *)
(** ** Service cities and the case list *)

Lemma service_cities_In (db : DB) (pk : Z) (city : City.t) :
  In city (service_cities db pk) <->
  In city (city_table db) /\
  In (pk, City.id city) (service_cities_table db).
Proof.
  unfold service_cities. rewrite in_flat_map. split.
  - intros [cid [Hl Hc]]. apply filter_In in Hc. destruct Hc as [Hc E].
    apply Z.eqb_eq in E. subst cid. apply linked_ids_In in Hl. auto.
  - intros [Hc Hl]. exists (City.id city). split; [apply linked_ids_In, Hl|].
    apply filter_In. split; [assumption|apply Z.eqb_refl].
Qed.

Section CasesAfterAdd.
Context {P : Platform}.

Lemma add_city_inv (db db' : DB) (request : Request) (pk : Z)
  (city : City.t) :
  add_city request pk db = (Ok (added city), db') ->
  In city (city_table db) /\
  db' = set_through db (m2m_add (service_cities_table db) pk [City.id city]).
Proof.
  unfold add_city.
  destruct (IsAuthenticated request db) as [[u|e] db0] eqn:EA.
  2:{ rewrite (bind_raise _ _ _ _ _ EA). discriminate. }
  assert (db0 = db) as ->.
  { unfold IsAuthenticated in EA. destruct (req_user request); cbn in EA;
      injection EA as _ <-; reflexivity. }
  rewrite (bind_ok _ _ _ _ _ EA). cbv zeta.
  destruct (negb (py_truthy (data_get request "city_id")));
    [discriminate|].
  destruct (get_city_or_404 (data_get request "city_id") db)
    as [[city0|e] db1] eqn:EC;
    destruct (get_city_or_404_inv _ _ _ _ EC) as [-> Hc];
    [|rewrite (bind_raise _ _ _ _ _ EC); discriminate].
  rewrite (bind_ok _ _ _ _ _ EC).
  destruct (get_object request pk db) as [[profile|e] db2] eqn:EO;
    pose proof (get_object_pure _ _ _ _ _ EO) as ->;
    [|rewrite (bind_raise _ _ _ _ _ EO); discriminate].
  rewrite (bind_ok _ _ _ _ _ EO).
  destruct (get_object_inv _ _ _ _ _ EO) as [_ [_ Hid]].
  destruct (Hc city0 eq_refl) as [Hin _].
  unfold bind, update, ret, added. cbn [fst snd]. rewrite Hid.
  intros H. injection H as H1 H2 <-.
  assert (city0 = city) as -> by (destruct city0, city; cbn in *; congruence).
  auto.
Qed.

(** Adding a service city widens the lawyer's case list by that city
    and by nothing else: after [add_city] has answered that the city was
    added, and city keys being unique, the complaints matched by the
    profile's service cities are those matched before together with the
    complaints located in the new city. *)
Theorem X_add_city_widens_cases (db db' : DB) (request : Request) (pk : Z)
  (city : City.t) :
  NoDup (List.map City.id (city_table db)) ->
  add_city request pk db = (Ok (added city), db') ->
  forall c,
    In c (complaints_in_cities db' (service_city_names db' pk)) <->
    In c (complaints_in_cities db (service_city_names db pk)) \/
    (In c (complaint_table db) /\ located_in (City.name city) c).
Proof.
  intros Hk H. destruct (add_city_inv _ _ _ _ _ H) as [Hcity ->]. intros c.
  destruct (complaints_in_cities_spec
              (set_through db
                 (m2m_add (service_cities_table db) pk [City.id city]))
              (service_city_names
                 (set_through db
                    (m2m_add (service_cities_table db) pk [City.id city])) pk))
    as [_ [_ H1]].
  destruct (complaints_in_cities_spec db (service_city_names db pk))
    as [_ [_ H0]].
  rewrite H1, H0. cbn [complaint_table set_through].
  assert (N : forall n,
    In n (service_city_names
            (set_through db
               (m2m_add (service_cities_table db) pk [City.id city])) pk)
    <-> In n (service_city_names db pk) \/ n = City.name city).
  { intros n. unfold service_city_names. rewrite !in_map_iff. split.
    - intros [x [<- Hx]]. apply service_cities_In in Hx.
      cbn [city_table service_cities_table set_through] in Hx.
      destruct Hx as [Hx Hl]. apply m2m_add_In in Hl.
      destruct Hl as [Hl|[_ [E|[]]]].
      + left. exists x. split; [reflexivity|].
        apply service_cities_In. auto.
      + right. f_equal.
        pose proof (find_by_key _ _ Hk Hx) as Fx.
        pose proof (find_by_key _ _ Hk Hcity) as Fc.
        rewrite E in Fc. congruence.
    - intros [[x [<- Hx]]| ->].
      + exists x. split; [reflexivity|]. apply service_cities_In.
        apply service_cities_In in Hx. destruct Hx as [Hx Hl].
        cbn [city_table service_cities_table set_through].
        split; [assumption|]. apply m2m_add_In. auto.
      + exists city. split; [reflexivity|]. apply service_cities_In.
        cbn [city_table service_cities_table set_through].
        split; [assumption|]. apply m2m_add_In. right. cbn. auto. }
  unfold in_one_of, located_in. split.
  - intros [Hc [n [Hn Hloc]]]. apply N in Hn. destruct Hn as [Hn| ->].
    + left. split; [assumption|]. exists n. auto.
    + right. auto.
  - intros [[Hc [n [Hn Hloc]]]|[Hc Hloc]].
    + split; [assumption|]. exists n. split; [apply N; auto|assumption].
    + split; [assumption|]. exists (City.name city).
      split; [apply N; auto|assumption].
Qed.
End CasesAfterAdd.

Lemma X_add_city_widens_cases_witness :
  In (complaint_of 4 "dispute" (incident_in "Pune") (residence_in "Pune") 40)
     (complaints_in_cities
        (set_through sample_db [(7, 1); (7, 2); (7, 3)])
        (service_city_names
           (set_through sample_db [(7, 1); (7, 2); (7, 3)]) 7)) <->
  In (complaint_of 4 "dispute" (incident_in "Pune") (residence_in "Pune") 40)
     (complaints_in_cities sample_db (service_city_names sample_db 7)) \/
  (In (complaint_of 4 "dispute" (incident_in "Pune") (residence_in "Pune") 40)
      (complaint_table sample_db) /\
   located_in (City.name pune)
     (complaint_of 4 "dispute" (incident_in "Pune") (residence_in "Pune") 40)).
Proof.
  exact (X_add_city_widens_cases sample_db
           (set_through sample_db [(7, 1); (7, 2); (7, 3)])
           (post asha [(lit "city_id", PInt 3)]) 7 pune
           sample_city_keys_unique eq_refl
           (complaint_of 4 "dispute" (incident_in "Pune") (residence_in "Pune")
              40)).
Defined.

(* ------------------------------------------------------------------ *)
(** ** The representation of a profile *)

Lemma get_win_rate_total (obj : LawyerProfile.t) :
  (LawyerProfile.won_cases obj <= BIGINT_MAX)%N ->
  exists rate, get_win_rate obj = Ok rate.
Proof.
  intros Hw. unfold get_win_rate. cbv zeta.
  destruct (Z.of_N (LawyerProfile.total_cases obj) =? 0) eqn:E; cbn [negb].
  - eexists; reflexivity.
  - apply Z.eqb_neq in E.
    destruct (int_truediv_total (LawyerProfile.won_cases obj)
                (LawyerProfile.total_cases obj) Hw) as [q Hq]; [lia|].
    rewrite Hq. cbn [rbind]. eexists; reflexivity.
Qed.

Lemma LawyerProfileSerializer_total (db : DB) (obj : LawyerProfile.t) :
  (LawyerProfile.won_cases obj <= BIGINT_MAX)%N ->
  exists d,
    LawyerProfileSerializer db obj = Ok (JDict d) /\
    dict_get d (lit "id") = Some (JInt (LawyerProfile.id obj)) /\
    dict_get d (lit "user")
      = Some (JInt (User.id (LawyerProfile.user obj))) /\
    dict_get d (lit "service_city_ids") = None.
Proof.
  intros Hw. destruct (get_win_rate_total obj Hw) as [rate Hr].
  unfold LawyerProfileSerializer. rewrite Hr. cbn [rbind].
  eexists. split; [reflexivity|]. repeat split; reflexivity.
Qed.

Lemma rmap_total {A B} (f : A -> Result B) (l : list A) :
  (forall a, In a l -> exists b, f a = Ok b) ->
  exists r, rmap f l = Ok r.
Proof.
  induction l as [|a l IH]; intros H; cbn [rmap].
  - eexists; reflexivity.
  - destruct (H a (or_introl eq_refl)) as [b Hb]. rewrite Hb.
    destruct IH as [r Hr]; [intros x Hx; apply H; right; exact Hx|].
    rewrite Hr. eexists; reflexivity.
Qed.

Section OwnProfile.
Context {P : Platform}.
Variable validate_model_fields :
  DB -> list (pystr * pyval) -> Result ValidatedData.
Variable validate_model_fields_partial :
  DB -> list (pystr * pyval) -> Result ValidatedData.

(** Reading [me].  A caller without a profile is answered 404, where
    [cases] answers 403.  A caller with a profile is answered 200 with
    the representation of the profile they own, the write-only
    [service_city_ids] left out; nothing is written either way. *)
Theorem X_me_get (db : DB) (request : Request) (payload : Payload)
  (user : User.t) :
  req_user request = Some user ->
  req_method request = lit "GET" ->
  (lawyer_profile_of db user = None ->
     me validate_model_fields validate_model_fields_partial request payload db
       = (Ok (mkResponse HTTP_404_NOT_FOUND (detail "Profile not found.")),
          db) /\
     cases request db
       = (Ok (mkResponse HTTP_403_FORBIDDEN
                (detail "Lawyer profile required.")), db)) /\
  (forall instance,
     lawyer_profile_of db user = Some instance ->
     (LawyerProfile.won_cases instance <= BIGINT_MAX)%N ->
     exists d,
       me validate_model_fields validate_model_fields_partial request payload
          db
         = (Ok (mkResponse HTTP_200_OK (JDict d)), db) /\
       LawyerProfileSerializer db instance = Ok (JDict d) /\
       dict_get d (lit "user") = Some (JInt (User.id user)) /\
       dict_get d (lit "service_city_ids") = None).
Proof.
  intros Hu Hm. split.
  - intros Hn. split; [|apply (cases_forbidden db request user Hu Hn)].
    unfold me.
    rewrite (bind_ok _ _ _ _ _ (IsAuthenticated_ok _ _ db Hu)).
    unfold bind, query. rewrite Hn, Hm. reflexivity.
  - intros instance Hi Hw.
    destruct (LawyerProfileSerializer_total db instance Hw)
      as [d [Hd [_ [Huser Hids]]]].
    exists d. split; [|split; [exact Hd|split; [|exact Hids]]].
    + unfold me.
      rewrite (bind_ok _ _ _ _ _ (IsAuthenticated_ok _ _ db Hu)).
      unfold bind, query, query_result. rewrite Hi, Hm. cbn [pystr_eqb].
      rewrite pystr_eqb_refl, Hd. reflexivity.
    + rewrite Huser. unfold lawyer_profile_of in Hi.
      apply find_some in Hi. destruct Hi as [_ Hi].
      apply Z.eqb_eq in Hi. rewrite Hi. reflexivity.
Qed.
End OwnProfile.

Lemma X_me_get_witness :
  exists d,
    me accept_all accept_all (get_with (Some asha) []) (mkPayload None [])
       sample_db
      = (Ok (mkResponse HTTP_200_OK (JDict d)), sample_db) /\
    LawyerProfileSerializer sample_db lawyer_asha = Ok (JDict d) /\
    dict_get d (lit "user") = Some (JInt (User.id asha)) /\
    dict_get d (lit "service_city_ids") = None.
Proof.
  refine (proj2
    (X_me_get accept_all accept_all sample_db (get_with (Some asha) [])
       (mkPayload None []) asha eq_refl eq_refl)
    lawyer_asha eq_refl _).
  vm_compute. discriminate.
Defined.

(* ------------------------------------------------------------------ *)
(** ** The top of the directory *)

Lemma SFcompare_antisym (a b : spec_float) (c : comparison) :
  SFcompare a b = Some c -> SFcompare b a = Some (CompOpp c).
Proof.
  destruct a as [sa|sa| |sa ma ea], b as [sb|sb| |sb mb eb]; cbn;
    try discriminate;
    try (destruct sa; intros H; injection H as <-; reflexivity);
    try (destruct sb; intros H; injection H as <-; reflexivity);
    try (destruct sa, sb; intros H; injection H as <-; reflexivity).
  destruct sa, sb; intros H; injection H as <-; try reflexivity;
    rewrite (Z.compare_antisym ea eb);
    destruct (ea ?= eb); cbn; try reflexivity;
    rewrite (Pos.compare_cont_antisym ma mb Eq); cbn;
    try rewrite CompOpp_involutive; reflexivity.
Qed.

(** Of two profiles at most one ranks before the other. *)
Lemma ranks_before_asym (a b : LawyerProfile.t) :
  ranks_before a b = true -> ranks_before b a = false.
Proof.
  unfold ranks_before, SFltb, SFeqb.
  destruct (SFcompare (LawyerProfile.rating b) (LawyerProfile.rating a))
    as [c|] eqn:E; [|discriminate].
  rewrite (SFcompare_antisym _ _ _ E).
  destruct c; cbn; try discriminate; [|reflexivity].
  intros H. apply N.ltb_lt in H. apply N.ltb_ge. lia.
Qed.

Lemma insert_ranked_perm (p : LawyerProfile.t) (l : list LawyerProfile.t) :
  Permutation (insert_ranked p l) (p :: l).
Proof.
  induction l as [|x l IH]; cbn [insert_ranked]; [reflexivity|].
  destruct (ranks_before p x); [reflexivity|].
  rewrite IH. apply perm_swap.
Qed.

Lemma order_by_rating_won_perm (l : list LawyerProfile.t) :
  Permutation (order_by_rating_won l) l.
Proof.
  induction l as [|x l IH]; cbn; [reflexivity|].
  rewrite insert_ranked_perm. constructor. exact IH.
Qed.

Lemma insert_ranked_sorted (p : LawyerProfile.t) (l : list LawyerProfile.t) :
  Sorted rank_order l -> Sorted rank_order (insert_ranked p l).
Proof.
  induction l as [|x l IH]; intros H; cbn [insert_ranked].
  - repeat constructor.
  - destruct (ranks_before p x) eqn:E.
    + constructor; [assumption|]. constructor. apply ranks_before_asym, E.
    + inversion H as [|? ? Hs Hh]; subst. constructor; [apply IH, Hs|].
      destruct l as [|y l]; cbn [insert_ranked].
      * constructor. exact E.
      * destruct (ranks_before p y); constructor; [exact E|].
        inversion Hh; assumption.
Qed.

Lemma order_by_rating_won_sorted (l : list LawyerProfile.t) :
  Sorted rank_order (order_by_rating_won l).
Proof.
  induction l as [|x l IH]; cbn; [constructor|].
  apply insert_ranked_sorted, IH.
Qed.

Lemma firstn_Sorted {A} (R : A -> A -> Prop) (n : nat) (l : list A) :
  Sorted R l -> Sorted R (firstn n l).
Proof.
  revert l. induction n as [|n IH]; intros l H; [constructor|].
  destruct l as [|x l]; [constructor|]. cbn [firstn].
  inversion H as [|? ? Hs Hh]; subst. constructor; [apply IH, Hs|].
  destruct l as [|y l]; [rewrite firstn_nil; constructor|].
  destruct n; cbn [firstn]; constructor. inversion Hh; assumption.
Qed.

Lemma firstn_NoDup {A} (n : nat) (l : list A) : NoDup l -> NoDup (firstn n l).
Proof.
  intros H. rewrite <- (firstn_skipn n l) in H.
  apply NoDup_app_remove_r in H. exact H.
Qed.

Section Top.
Context {P : Platform}.

(** [top_lawyers] shows at most ten profiles of the filtered
    directory, none twice, the better ranked first: of two neighbours
    the second never has a higher rating than the first, nor the same
    rating and more cases won. *)
Theorem X_top_lawyers (db : DB) (request : Request)
  (qs : list LawyerProfile.t) :
  get_queryset db request = Ok qs ->
  (forall p, In p qs -> (LawyerProfile.won_cases p <= BIGINT_MAX)%N) ->
  exists shown data,
    top_lawyers request db = (Ok (mkResponse HTTP_200_OK (JList data)), db) /\
    rmap (LawyerProfileSerializer db) shown = Ok data /\
    List.length shown = Nat.min 10 (List.length qs) /\
    NoDup shown /\
    (forall p, In p shown -> In p qs) /\
    Sorted rank_order shown.
Proof.
  intros Hq Hw.
  pose proof (order_by_rating_won_perm qs) as Hp.
  assert (Hin : forall p, In p (firstn 10 (order_by_rating_won qs)) -> In p qs).
  { intros p H. apply (Permutation_in _ Hp).
    rewrite <- (firstn_skipn 10 (order_by_rating_won qs)).
    apply in_or_app. left. exact H. }
  destruct (rmap_total (LawyerProfileSerializer db)
              (firstn 10 (order_by_rating_won qs))) as [data Hd].
  { intros p H.
    destruct (LawyerProfileSerializer_total db p (Hw p (Hin p H)))
      as [d [Hs _]].
    eexists; exact Hs. }
  exists (firstn 10 (order_by_rating_won qs)), data.
  split; [|split; [exact Hd|split; [|split; [|split; [exact Hin|]]]]].
  - unfold top_lawyers, bind, query_result. rewrite Hq. cbv zeta.
    rewrite Hd. reflexivity.
  - rewrite length_firstn, (Permutation_length Hp). reflexivity.
  - apply firstn_NoDup, (Permutation_NoDup (Permutation_sym Hp)).
    apply (get_queryset_spec _ _ _ Hq).
  - apply firstn_Sorted, order_by_rating_won_sorted.
Qed.
End Top.

Lemma X_top_lawyers_witness :
  exists shown data,
    top_lawyers (get_with None []) sample_db
      = (Ok (mkResponse HTTP_200_OK (JList data)), sample_db) /\
    rmap (LawyerProfileSerializer sample_db) shown = Ok data /\
    List.length shown = Nat.min 10 (List.length [lawyer_asha; lawyer_ravi]) /\
    NoDup shown /\
    (forall p, In p shown -> In p [lawyer_asha; lawyer_ravi]) /\
    Sorted rank_order shown.
Proof.
  apply (X_top_lawyers sample_db (get_with None [])
           [lawyer_asha; lawyer_ravi] eq_refl).
  intros p [<-|[<-|[]]]; vm_compute; discriminate.
Defined.

(* ------------------------------------------------------------------ *)
(** ** Rejected city ids, and a lawyer without cities *)

Lemma rmap_fails {A B} (f : A -> Result B) (l : list A) (x : A) (e : exn) :
  In x l -> f x = Raise e -> exists e', rmap f l = Raise e'.
Proof.
  induction l as [|a l IH]; intros Hin Hx; [contradiction|]. cbn [rmap].
  destruct (f a) as [b|e0] eqn:Ea; cbn [rbind]; [|eexists; reflexivity].
  destruct Hin as [->|Hin]; [congruence|].
  destruct (IH Hin Hx) as [e' He]. rewrite He. eexists; reflexivity.
Qed.

Section RejectedIds.
Context {P : Platform}.
Variable validate_model_fields :
  DB -> list (pystr * pyval) -> Result ValidatedData.

(** An update whose [service_city_ids] holds a Boolean, a value [int]
    refuses or the key of no city is rejected with a validation error,
    and nothing is written.  This is for ids usable as keys ([int]
    raises at most [TypeError] or [ValueError] on them and returns a key
    in the column's range) and a validation of the model's fields that
    raises validation errors only. *)
Theorem X_update_rejects_bad_city_ids (db : DB) (instance : LawyerProfile.t)
  (payload : Payload) (ids : list pyval) (v : pyval) :
  service_city_ids payload = Some ids ->
  In v ids ->
  (exists b, v = PBool b) \/
  (exists e, py_int_of v = Raise e) \/
  (exists n, py_int_of v = Ok n /\
             forall city, In city (city_table db) -> City.id city <> n) ->
  (forall u, In u ids -> usable_key u) ->
  (forall body e, validate_model_fields db body = Raise e ->
                  is_ValidationError e = true) ->
  exists d,
    update_profile validate_model_fields instance payload db
      = (Raise (ValidationError d), db).
Proof.
  intros Hids Hin Hbad Hkeys Hval.
  assert (Hv : exists e, related_city db v = Raise e).
  { unfold related_city. destruct Hbad as [[b ->]|[[e He]|[n [Hn Hno]]]].
    - eexists; reflexivity.
    - destruct v; try (eexists; reflexivity); rewrite He;
        destruct e; eexists; reflexivity.
    - destruct v; try (eexists; reflexivity); rewrite Hn;
        (destruct (find (fun c => City.id c =? n) (city_table db))
           as [c|] eqn:F; [|eexists; reflexivity]);
        apply find_some in F; destruct F as [Hc E]; apply Z.eqb_eq in E;
        exfalso; exact (Hno c Hc E). }
  destruct Hv as [e He].
  destruct (rmap_fails (related_city db) ids v e Hin He) as [e' Hr].
  assert (Hf : service_city_ids_field db ids = Raise e')
    by (unfold service_city_ids_field; rewrite Hr; reflexivity).
  destruct (is_valid_cities_raise validate_model_fields db payload ids e'
              Hids Hf) as [e'' Ev].
  assert (Hve : is_ValidationError e'' = true).
  { apply (is_valid_error validate_model_fields db payload e'' Hval);
      [|exact Ev].
    intros ids0 u Hi Hu. apply Hkeys. congruence. }
  unfold update_profile, bind, query_result. rewrite Ev.
  destruct e''; try discriminate. eexists; reflexivity.
Qed.
End RejectedIds.

(** The two messages, as the framework words them. *)
Example related_city_messages :
  related_city sample_db (PInt 99)
    = Raise (ValidationError
               (JList [JStr (lit "Invalid pk " ++ [34%N] ++ lit "99" ++ [34%N]
                             ++ lit " - object does not exist.")])) /\
  related_city sample_db (PStr (lit "Delhi"))
    = Raise (ValidationError
               (JList [JStr (lit
                  "Incorrect type. Expected pk value, received str.")])) /\
  related_city sample_db (PBool true)
    = Raise (ValidationError
               (JList [JStr (lit
                  "Incorrect type. Expected pk value, received bool.")])) /\
  related_city sample_db
      (POther (lit "float") (lit "inf") true (Raise OverflowError))
    = Raise OverflowError /\
  related_city sample_db (PStr (lit "3")) = Ok pune.
Proof. repeat split; vm_compute; reflexivity. Qed.

Lemma X_update_rejects_bad_city_ids_witness :
  exists d,
    update_profile accept_all lawyer_asha
      (mkPayload (Some [PInt 1; PInt 99]) []) sample_db
      = (Raise (ValidationError d), sample_db).
Proof.
  refine (X_update_rejects_bad_city_ids accept_all sample_db lawyer_asha
            (mkPayload (Some [PInt 1; PInt 99]) []) [PInt 1; PInt 99] (PInt 99)
            eq_refl (or_intror (or_introl eq_refl))
            (or_intror (or_intror (ex_intro _ 99 (conj eq_refl _))))
            _ (accept_all_errors sample_db)).
  - intros city [<-|[<-|[<-|[<-|[<-|[]]]]]]; discriminate.
  - intros u [<-|[<-|[]]]; (split; [intros e H; discriminate H|]);
      intros n H; injection H as <-; unfold key_in_range; lia.
Defined.

Section NoCities.
Context {P : Platform}.

(** A lawyer whose profile has no service city is answered by [cases]
    with an empty list, where [search_cases] without cities answers
    400. *)
Theorem X_cases_without_cities (db : DB) (request : Request) (user : User.t)
  (profile : LawyerProfile.t) :
  req_user request = Some user ->
  lawyer_profile_of db user = Some profile ->
  service_cities db (LawyerProfile.id profile) = [] ->
  dict_get (query_params request) (lit "cities") = None ->
  cases request db = (Ok (mkResponse HTTP_200_OK (JList [])), db) /\
  search_cases request db
    = (Ok (mkResponse HTTP_400_BAD_REQUEST
             (detail "Provide cities by id or name.")), db).
Proof.
  intros Hu Hp Hs Hc. split.
  - rewrite (cases_run db request user profile Hu Hp), Hs. cbn [List.map].
    assert (E : complaints_in_cities db [] = []).
    { unfold complaints_in_cities.
      replace (List.filter (in_cities []) (complaint_table db)) with
        (@nil Complaint.t); [reflexivity|].
      induction (complaint_table db) as [|c l IH]; [reflexivity|].
      cbn [List.filter]. unfold in_cities at 1, column_in.
      destruct (city_of_incident c), (city_of_residence c); exact IH. }
    rewrite E. reflexivity.
  - apply (search_cases_empty db request user Hu). rewrite Hc. reflexivity.
Qed.
End NoCities.

Lemma X_cases_without_cities_witness :
  cases (get_with (Some ravi) []) sample_db
    = (Ok (mkResponse HTTP_200_OK (JList [])), sample_db).
Proof.
  exact (proj1 (X_cases_without_cities sample_db (get_with (Some ravi) [])
                  ravi lawyer_ravi eq_refl eq_refl eq_refl eq_refl)).
Defined.

(* ------------------------------------------------------------------ *)
(** ** Searching cases with a well-formed parameter *)

Lemma split_on_forallb (f : codepoint -> bool) (sep : codepoint) (s : pystr) :
  forallb f s = true ->
  forall w, In w (split_on sep s) -> forallb f w = true.
Proof.
  induction s as [|c s IH]; cbn [split_on forallb]; intros H w Hw.
  - destruct Hw as [<-|[]]. reflexivity.
  - apply andb_prop in H. destruct H as [Hc Hs]. specialize (IH Hs).
    destruct (c =? sep)%N.
    + destruct Hw as [<-|Hw]; [reflexivity|apply IH, Hw].
    + destruct (split_on sep s) as [|w0 ws].
      * destruct Hw as [<-|[]]. cbn. rewrite Hc. reflexivity.
      * destruct Hw as [<-|Hw].
        -- cbn [forallb]. rewrite Hc. apply IH. left. reflexivity.
        -- apply IH. right. exact Hw.
Qed.

Section SearchParameter.
Context {P : Platform}.

Lemma lstrip_forallb (f : codepoint -> bool) (s : pystr) :
  forallb f s = true -> forallb f (lstrip s) = true.
Proof.
  induction s as [|c s IH]; cbn [lstrip forallb]; [auto|]. intros H.
  destruct (cp_isspace c); [|exact H].
  apply andb_prop in H. apply IH. tauto.
Qed.

Lemma str_strip_forallb (f : codepoint -> bool) (s : pystr) :
  forallb f s = true -> forallb f (str_strip s) = true.
Proof.
  intros H. unfold str_strip.
  apply forallb_rev, lstrip_forallb, forallb_rev, lstrip_forallb, H.
Qed.

Lemma tokens_of_ascii (s : pystr) :
  forallb is_ascii s = true ->
  forall t, In t (tokens_of s) -> forallb is_ascii t = true.
Proof.
  intros H t Ht. unfold tokens_of in Ht. apply filter_In in Ht.
  destruct Ht as [Ht _]. apply in_map_iff in Ht.
  destruct Ht as [w [<- Hw]].
  apply str_strip_forallb, (split_on_forallb is_ascii 44%N s H w Hw).
Qed.

(** With a [cities] parameter written in ASCII whose numeric tokens
    have at most 18 digits, [search_cases] answers:
    the names it works with are exactly those resolved from the tokens
    (the name of the city a numeric token is the key of, and every other
    token as it stands); it answers 400 when there is none and otherwise
    lists, newest first and in the brief view, the complaints located
    in one of them. *)
Theorem X_search_cases_ascii (db : DB) (request : Request) (user : User.t)
  (s : pystr) :
  req_user request = Some user ->
  dict_get (query_params request) (lit "cities") = Some s ->
  forallb is_ascii s = true ->
  (forall t, In t (tokens_of s) -> short_number t) ->
  exists names,
    resolve_names db (Some s) = Ok names /\
    (forall n, In n names <-> resolved_from db (tokens_of s) n) /\
    ((names = [] /\
      search_cases request db
        = (Ok (mkResponse HTTP_400_BAD_REQUEST
                 (detail "Provide cities by id or name.")), db))
     \/
     (names <> [] /\
      exists briefs,
        search_cases request db
          = (Ok (mkResponse HTTP_200_OK (JList briefs)), db) /\
        listing db names briefs)).
Proof.
  intros Hu Hc Ha _.
  assert (T : exists names, resolve_names db (Some s) = Ok names).
  { unfold resolve_names, opt_truthy.
    destruct (str_truthy s); [|eexists; reflexivity].
    fold (tokens_of s).
    destruct (rmap_total py_int (List.filter str_isdigit (tokens_of s)))
      as [ids Hids].
    { intros t Ht. apply filter_In in Ht. destruct Ht as [Ht Hd].
      apply (parses_ascii (Some t)); [|reflexivity|exact Hd].
      intros t0 E. injection E as <-. apply (tokens_of_ascii s Ha t Ht). }
    rewrite Hids. cbn [rbind]. eexists; reflexivity. }
  destruct T as [names Hn]. exists names. split; [exact Hn|]. split.
  - destruct (str_truthy s) eqn:Et.
    + apply (resolve_names_spec db s names Et Hn).
    + destruct s; [|discriminate]. cbn in Hn. injection Hn as <-.
      intros n. split; [intros []|].
      unfold resolved_from, tokens_of. cbn.
      intros [[t [pk [c [[] _]]]]|[[] _]].
  - rewrite <- Hc in Hn. destruct names as [|n0 names'].
    + left. split; [reflexivity|].
      apply (search_cases_empty db request user Hu Hn).
    + right. split; [discriminate|].
      destruct (brief_list_listing db (n0 :: names')) as [briefs [Hb Hl]].
      exists briefs. split; [|exact Hl].
      rewrite (search_cases_run db request user (n0 :: names') Hu Hn)
        by discriminate.
      exact Hb.
Qed.
End SearchParameter.

Lemma X_search_cases_ascii_witness :
  exists names,
    resolve_names sample_db (Some (lit " 2 , Delhi,,")) = Ok names /\
    (forall n, In n names <->
       resolved_from sample_db (tokens_of (lit " 2 , Delhi,,")) n) /\
    ((names = [] /\
      search_cases (get_with (Some ravi) [(lit "cities", lit " 2 , Delhi,,")])
        sample_db
        = (Ok (mkResponse HTTP_400_BAD_REQUEST
                 (detail "Provide cities by id or name.")), sample_db))
     \/
     (names <> [] /\
      exists briefs,
        search_cases
          (get_with (Some ravi) [(lit "cities", lit " 2 , Delhi,,")]) sample_db
          = (Ok (mkResponse HTTP_200_OK (JList briefs)), sample_db) /\
        listing sample_db names briefs)).
Proof.
  refine (X_search_cases_ascii sample_db
            (get_with (Some ravi) [(lit "cities", lit " 2 , Delhi,,")]) ravi
            (lit " 2 , Delhi,,") eq_refl eq_refl eq_refl _).
  intros t [<-|[<-|[]]] _; cbn; lia.
Defined.
